(** * parse_logs: a call-log timeline printer

    A shallow embedding of [scripts/parse_logs.py] and the properties of its
    filter / sort / classify / format pipeline.

    The script is dynamically typed: every value it touches comes out of
    [json.load], so the embedding works on a type [value] of decoded JSON
    values and gives each Python operation the script uses ([.get],
    indexing, [in], [==], truthiness, iteration, [str.join], f-string
    formatting, [re.search] with the script's two patterns, [json.loads],
    [list.sort]) as a function on [value] that either returns or raises.

    Conventions.
    - A Python [str] is a [string]; one [ascii] stands for one code point
      below 256.  Text with other code points is outside the model.
    - A computation is a [result]: [Ok v], [Raise e] (a Python exception) or
      [Unmodelled].  [Unmodelled] marks the places where Python has a
      defined behaviour that is not embedded here: arithmetic, ordering,
      truthiness and formatting of floats, formatting, ordering and
      equality of lists and dicts, string escapes that denote code points
      above 255.  Interpreter resource limits (recursion depth, integer
      digit limit) are not modelled either.  Nothing is claimed about a
      computation that is [Unmodelled].
    - [json.loads] is the recursive descent of CPython's scanner (strict
      mode, no hooks).
    - [list.sort] is a stable sort that asks only [<] of the keys; it is
      given as an insertion sort, which on integer keys returns what every
      stable sort returns ([sort_by_timestamp_any_stable]).
    - Printing is a writer: a program is the list of lines it printed
      together with the way it ended. *)

From Stdlib Require Import ZArith List String Ascii Bool Lia.
From Stdlib Require Import DecimalString Permutation Sorted.
Import ListNotations.

#[local] Set Warnings "-register-all".

Local Open Scope list_scope.
Local Open Scope string_scope.
Local Open Scope Z_scope.

(** ** Values and results *)

(** A decoded JSON value.  A dict keeps its entries in insertion order, one
    entry per key.  A float keeps the text it was read from; nothing ever
    inspects it. *)
Inductive value : Type :=
| VNone
| VBool (b : bool)
| VInt (z : Z)
| VFloat (lexeme : string)
| VStr (s : string)
| VList (items : list value)
| VDict (entries : list (string * value)).

Inductive exn : Type :=
| JSONDecodeError
| KeyError
| IndexError
| TypeError
| AttributeError.

Inductive result (A : Type) : Type :=
| Ok (a : A)
| Raise (e : exn)
| Unmodelled.

Arguments Ok {A} a.
Arguments Raise {A} e.
Arguments Unmodelled {A}.

Definition bind {A B : Type} (r : result A) (k : A -> result B) : result B :=
  match r with
  | Ok a => k a
  | Raise e => Raise e
  | Unmodelled => Unmodelled
  end.

Notation "x <- e ;; k" := (bind e (fun x => k))
  (at level 61, e at next level, right associativity).
Notation "' p <- e ;; k" := (bind e (fun p => k))
  (at level 61, p pattern, e at next level, right associativity).

(** ** Strings *)

(** The double quote. *)
Definition dquote : ascii := "034"%char.

(** [f'"{s}"'] *)
Definition quoted (s : string) : string :=
  String dquote (s ++ String dquote "").

(** The class [[0-9]], which is [\d] below code point 256. *)
Definition is_digit (c : ascii) : bool :=
  let n := N_of_ascii c in (48 <=? n)%N && (n <=? 57)%N.

(** [span p s]: the longest prefix of [s] whose characters satisfy [p], and
    the rest. *)
Fixpoint span (p : ascii -> bool) (s : string) : string * string :=
  match s with
  | EmptyString => ("", "")
  | String c r =>
      if p c then let (a, b) := span p r in (String c a, b) else ("", s)
  end.

(** [s] starts with a character of the class [p]. *)
Definition starts_in (p : ascii -> bool) (s : string) : bool :=
  match s with
  | EmptyString => false
  | String c _ => p c
  end.

(** [strip_prefix p s]: what follows [p] in [s], when [s] starts with [p]. *)
Fixpoint strip_prefix (p s : string) : option string :=
  match p, s with
  | EmptyString, _ => Some s
  | String a p', String b s' =>
      if Ascii.eqb a b then strip_prefix p' s' else None
  | String _ _, EmptyString => None
  end.

(** [needle in haystack] on two strs. *)
Fixpoint is_substring (needle hay : string) : bool :=
  if String.prefix needle hay then true
  else match hay with
       | EmptyString => false
       | String _ r => is_substring needle r
       end.

(** [s[:n]] *)
Definition str_take (n : nat) (s : string) : string := substring 0 n s.

(** [str(z)] for an int. *)
Definition str_of_int (z : Z) : string := NilZero.string_of_int (Z.to_int z).

Fixpoint spaces (n : nat) : string :=
  match n with
  | O => ""
  | S n' => String " " (spaces n')
  end.

(** [format(s, '>w')]: right-align in a field at least [w] wide. *)
Definition rjust (w : nat) (s : string) : string :=
  spaces (w - String.length s) ++ s.

(** [c * n] for a one-character string. *)
Fixpoint repeat_char (c : ascii) (n : nat) : string :=
  match n with
  | O => ""
  | S n' => String c (repeat_char c n')
  end.

(** ** Dicts *)

Fixpoint dict_lookup (k : string) (d : list (string * value)) : option value :=
  match d with
  | [] => None
  | (k', v) :: d' => if String.eqb k k' then Some v else dict_lookup k d'
  end.

(** [d[k] = v]: replaces in place, or appends. *)
Fixpoint dict_set (k : string) (v : value) (d : list (string * value))
  : list (string * value) :=
  match d with
  | [] => [(k, v)]
  | (k', v') :: d' =>
      if String.eqb k k' then (k', v) :: d' else (k', v') :: dict_set k v d'
  end.

Definition dict_has (k : string) (d : list (string * value)) : bool :=
  match dict_lookup k d with Some _ => true | None => false end.

(** ** Python operations on values *)

(** [obj.get(key, default)].  Only dicts have [get]. *)
Definition py_get (obj : value) (key : string) (default : value)
  : result value :=
  match obj with
  | VDict d =>
      Ok (match dict_lookup key d with Some v => v | None => default end)
  | _ => Raise AttributeError
  end.

(** The int a bool or int denotes ([bool] is a subclass of [int]). *)
Definition as_int (v : value) : option Z :=
  match v with
  | VInt z => Some z
  | VBool b => Some (if b then 1 else 0)
  | _ => None
  end.

(** [seq[i]] on a Rocq list, with Python's negative indices. *)
Definition index_list {A : Type} (l : list A) (i : Z) : option A :=
  let n := Z.of_nat (List.length l) in
  let j := if i <? 0 then i + n else i in
  if (0 <=? j) && (j <? n) then nth_error l (Z.to_nat j) else None.

Definition chars (s : string) : list value :=
  List.map (fun c => VStr (String c "")) (list_ascii_of_string s).

(** [obj[k]] *)
Definition py_getitem (obj k : value) : result value :=
  match obj with
  | VDict d =>
      match k with
      | VStr s =>
          match dict_lookup s d with Some v => Ok v | None => Raise KeyError end
      | VList _ | VDict _ => Raise TypeError
      | _ => Raise KeyError
      end
  | VList l =>
      match as_int k with
      | Some i =>
          match index_list l i with
          | Some v => Ok v
          | None => Raise IndexError
          end
      | None => Raise TypeError
      end
  | VStr s =>
      match as_int k with
      | Some i =>
          match index_list (chars s) i with
          | Some v => Ok v
          | None => Raise IndexError
          end
      | None => Raise TypeError
      end
  | _ => Raise TypeError
  end.

(** [bool(v)], as taken by [if v:] and [not v]. *)
Definition py_truthy (v : value) : result bool :=
  match v with
  | VNone => Ok false
  | VBool b => Ok b
  | VInt z => Ok (negb (z =? 0))
  | VFloat _ => Unmodelled
  | VStr s => Ok (negb (String.eqb s ""))
  | VList l => Ok (match l with [] => false | _ => true end)
  | VDict d => Ok (match d with [] => false | _ => true end)
  end.

(** [v == s] for a str [s]: only an equal str is equal to a str. *)
Definition py_eq_str (v : value) (s : string) : bool :=
  match v with
  | VStr s' => String.eqb s' s
  | _ => false
  end.

(** [a == b] *)
Definition py_eq (a b : value) : result bool :=
  match a, b with
  | VStr s, _ => Ok (py_eq_str b s)
  | _, VStr s => Ok (py_eq_str a s)
  | VNone, VNone => Ok true
  | VNone, _ | _, VNone => Ok false
  | VFloat _, (VFloat _ | VInt _ | VBool _) => Unmodelled
  | (VInt _ | VBool _), VFloat _ => Unmodelled
  | VList _, VList _ => Unmodelled
  | VDict _, VDict _ => Unmodelled
  | _, _ =>
      match as_int a, as_int b with
      | Some x, Some y => Ok (x =? y)
      | _, _ => Ok false
      end
  end.

(** [s in obj] for a str [s]. *)
Definition py_contains_str (s : string) (obj : value) : result bool :=
  match obj with
  | VDict d => Ok (dict_has s d)
  | VList l => Ok (existsb (fun v => py_eq_str v s) l)
  | VStr h => Ok (is_substring s h)
  | _ => Raise TypeError
  end.

(** What [for x in obj] runs through. *)
Definition py_iter (obj : value) : result (list value) :=
  match obj with
  | VList l => Ok l
  | VStr s => Ok (chars s)
  | VDict d => Ok (List.map (fun kv => VStr (fst kv)) d)
  | _ => Raise TypeError
  end.

(** [f'{v}'] *)
Definition py_str (v : value) : result string :=
  match v with
  | VNone => Ok "None"
  | VBool true => Ok "True"
  | VBool false => Ok "False"
  | VInt z => Ok (str_of_int z)
  | VStr s => Ok s
  | VFloat _ | VList _ | VDict _ => Unmodelled
  end.

(** [sep.join(items)]: every item has to be a str. *)
Fixpoint strs_of (items : list value) : result (list string) :=
  match items with
  | [] => Ok []
  | VStr s :: r => ss <- strs_of r ;; Ok (s :: ss)
  | _ :: _ => Raise TypeError
  end.

Definition py_join (sep : string) (items : list value) : result string :=
  ss <- strs_of items ;; Ok (String.concat sep ss).

(** [v[:n]] *)
Definition py_take (n : nat) (v : value) : result value :=
  match v with
  | VStr s => Ok (VStr (str_take n s))
  | VList l => Ok (VList (firstn n l))
  | _ => Raise TypeError
  end.

(** [a // b] and [a - b] *)
Definition py_floordiv (a : value) (b : Z) : result Z :=
  match a with
  | VInt _ | VBool _ =>
      match as_int a with Some x => Ok (x / b) | None => Raise TypeError end
  | VFloat _ => Unmodelled
  | _ => Raise TypeError
  end.

(** [a < b], as [list.sort] asks it of two keys. *)
Definition py_lt (a b : value) : result bool :=
  match a, b with
  | VStr x, VStr y => Ok (String.ltb x y)
  | VList _, VList _ => Unmodelled
  | VFloat _, (VFloat _ | VInt _ | VBool _) => Unmodelled
  | (VInt _ | VBool _), VFloat _ => Unmodelled
  | _, _ =>
      match as_int a, as_int b with
      | Some x, Some y => Ok (x <? y)
      | _, _ => Raise TypeError
      end
  end.

(** ** The two regular expressions *)

(** [re.search] tries the pattern at every position from the left; [m s]
    is the pattern's group 1 when the pattern matches at the start of [s]. *)
Fixpoint search (m : string -> option string) (s : string) : option string :=
  match m s with
  | Some g => Some g
  | None =>
      match s with
      | EmptyString => None
      | String _ r => search m r
      end
  end.

(** One or more characters of a class, greedy, at the end of a pattern. *)
Definition plus (p : ascii -> bool) (s : string) : option string :=
  let (g, _) := span p s in
  if String.eqb g "" then None else Some g.

(** [[&?]n=(\d+)] at the start of [s].  Below code point 256 the class [\d]
    is 0-9. *)
Definition match_n (s : string) : option string :=
  match s with
  | String c r =>
      if Ascii.eqb c "&" || Ascii.eqb c "?" then
        match strip_prefix "n=" r with
        | Some r' => plus is_digit r'
        | None => None
        end
      else None
  | EmptyString => None
  end.

(** [id=([^&]+)] at the start of [s]. *)
Definition match_id (s : string) : option string :=
  match strip_prefix "id=" s with
  | Some r => plus (fun c => negb (Ascii.eqb c "&")) r
  | None => None
  end.

(** [re.search(pattern, v)]: group 1 of the first match, [None] without a
    match; anything but a str is a [TypeError]. *)
Definition re_search (m : string -> option string) (v : value)
  : result (option string) :=
  match v with
  | VStr s => Ok (search m s)
  | _ => Raise TypeError
  end.

(** ** json.loads *)

Definition is_ws (c : ascii) : bool :=
  Ascii.eqb c " " || Ascii.eqb c "009" || Ascii.eqb c "010"
  || Ascii.eqb c "013".

Fixpoint skip_ws (s : string) : string :=
  match s with
  | String c r => if is_ws c then skip_ws r else s
  | EmptyString => s
  end.

Definition hex_digit (c : ascii) : option N :=
  let n := N_of_ascii c in
  if (48 <=? n)%N && (n <=? 57)%N then Some (n - 48)%N
  else if (97 <=? n)%N && (n <=? 102)%N then Some (n - 87)%N
  else if (65 <=? n)%N && (n <=? 70)%N then Some (n - 55)%N
  else None.

Definition hex4 (a b c d : ascii) : option N :=
  match hex_digit a, hex_digit b, hex_digit c, hex_digit d with
  | Some x, Some y, Some z, Some w => Some (((x * 16 + y) * 16 + z) * 16 + w)%N
  | _, _, _, _ => None
  end.

Definition simple_escape (c : ascii) : option ascii :=
  if Ascii.eqb c dquote then Some dquote
  else if Ascii.eqb c "\" then Some "\"%char
  else if Ascii.eqb c "/" then Some "/"%char
  else if Ascii.eqb c "b" then Some "008"%char
  else if Ascii.eqb c "f" then Some "012"%char
  else if Ascii.eqb c "n" then Some "010"%char
  else if Ascii.eqb c "r" then Some "013"%char
  else if Ascii.eqb c "t" then Some "009"%char
  else None.

(** The body of a string literal, after its opening quote: the decoded
    string and what follows the closing quote.  Control characters are
    refused (strict mode).  A [\u] escape above 255 has no [ascii]. *)
Fixpoint scanstring (s : string) : result (string * string) :=
  match s with
  | EmptyString => Raise JSONDecodeError
  | String c r =>
      if Ascii.eqb c dquote then Ok ("", r)
      else if Ascii.eqb c "\" then
        match r with
        | EmptyString => Raise JSONDecodeError
        | String e r' =>
            if Ascii.eqb e "u" then
              match r' with
              | String h1 (String h2 (String h3 (String h4 r''))) =>
                  match hex4 h1 h2 h3 h4 with
                  | Some n =>
                      if (n <? 256)%N then
                        '(t, rest) <- scanstring r'' ;;
                        Ok (String (ascii_of_N n) t, rest)
                      else Unmodelled
                  | None => Raise JSONDecodeError
                  end
              | _ => Raise JSONDecodeError
              end
            else
              match simple_escape e with
              | Some x => '(t, rest) <- scanstring r' ;; Ok (String x t, rest)
              | None => Raise JSONDecodeError
              end
        end
      else if (N_of_ascii c <? 32)%N then Raise JSONDecodeError
      else '(t, rest) <- scanstring r ;; Ok (String c t, rest)
  end.

(** The value of a string of decimal digits. *)
Definition int_of_digits (s : string) : Z :=
  fold_left (fun acc c => acc * 10 + (Z.of_N (N_of_ascii c) - 48))
            (list_ascii_of_string s) 0.

(** The parts of a JSON number, each with what follows it: an optional
    minus sign; 0 or a run of digits that does not start with 0; optionally
    a point and digits; optionally e or E, an optional sign and digits. *)
Definition scan_sign (s : string) : string * string :=
  match strip_prefix "-" s with
  | Some r => ("-", r)
  | None => ("", s)
  end.

Definition scan_int_part (s : string) : option (string * string) :=
  match strip_prefix "0" s with
  | Some r => Some ("0", r)
  | None => if starts_in is_digit s then Some (span is_digit s) else None
  end.

Definition scan_frac (s : string) : string * string :=
  match strip_prefix "." s with
  | Some r =>
      if starts_in is_digit r
      then let (fs, r') := span is_digit r in (String "." fs, r')
      else ("", s)
  | None => ("", s)
  end.

Definition scan_exp (s : string) : string * string :=
  match s with
  | String e r =>
      if Ascii.eqb e "e" || Ascii.eqb e "E" then
        let (sg, r1) :=
          match r with
          | String x r0 =>
              if Ascii.eqb x "-" || Ascii.eqb x "+"
              then (String x "", r0) else ("", r)
          | EmptyString => ("", r)
          end in
        let (es, r2) := span is_digit r1 in
        if String.eqb es "" then ("", s) else (String e (sg ++ es), r2)
      else ("", s)
  | EmptyString => ("", s)
  end.

(** A JSON number at the start of [s].  With a fraction or an exponent it
    is a float, otherwise an int. *)
Definition scan_number (s : string) : option (value * string) :=
  let (sign, s1) := scan_sign s in
  match scan_int_part s1 with
  | None => None
  | Some (ds, s2) =>
      let (frac, s3) := scan_frac s2 in
      let (expo, s4) := scan_exp s3 in
      if String.eqb frac "" && String.eqb expo ""
      then Some (VInt (if String.eqb sign "-"
                       then - int_of_digits ds else int_of_digits ds), s4)
      else Some (VFloat (sign ++ ds ++ frac ++ expo), s4)
  end.

(** The constants, tried before a number. *)
Definition scan_constant (s : string) : option (value * string) :=
  match strip_prefix "null" s with
  | Some r => Some (VNone, r)
  | None =>
  match strip_prefix "true" s with
  | Some r => Some (VBool true, r)
  | None =>
  match strip_prefix "false" s with
  | Some r => Some (VBool false, r)
  | None =>
  match strip_prefix "NaN" s with
  | Some r => Some (VFloat "NaN", r)
  | None =>
  match strip_prefix "Infinity" s with
  | Some r => Some (VFloat "Infinity", r)
  | None =>
  match strip_prefix "-Infinity" s with
  | Some r => Some (VFloat "-Infinity", r)
  | None => None
  end end end end end end.

(** The recursive descent of the decoder.  [scan_once] reads one value at the
    start of [s]; [scan_array] and [scan_object] read the items that follow
    an opening bracket, with the items read so far.  Every call spends one
    unit of [fuel] and none is made without a character consumed in
    between, so [json_loads] starts with more fuel than the text can use
    (see [json_loads_fuel]). *)
Fixpoint scan_once (fuel : nat) (s : string) {struct fuel}
  : result (value * string) :=
  match fuel with
  | O => Unmodelled
  | S fuel' =>
      match s with
      | EmptyString => Raise JSONDecodeError
      | String c r =>
          if Ascii.eqb c dquote then
            '(t, rest) <- scanstring r ;; Ok (VStr t, rest)
          else if Ascii.eqb c "[" then
            match strip_prefix "]" (skip_ws r) with
            | Some rest => Ok (VList [], rest)
            | None => scan_array fuel' (skip_ws r) []
            end
          else if Ascii.eqb c "{" then
            match strip_prefix "}" (skip_ws r) with
            | Some rest => Ok (VDict [], rest)
            | None => scan_object fuel' (skip_ws r) []
            end
          else
            match scan_constant s with
            | Some vr => Ok vr
            | None =>
                match scan_number s with
                | Some vr => Ok vr
                | None => Raise JSONDecodeError
                end
            end
      end
  end

with scan_array (fuel : nat) (s : string) (acc : list value) {struct fuel}
  : result (value * string) :=
  match fuel with
  | O => Unmodelled
  | S fuel' =>
      '(v, r) <- scan_once fuel' s ;;
      match strip_prefix "]" (skip_ws r) with
      | Some rest => Ok (VList (acc ++ [v]), rest)
      | None =>
          match strip_prefix "," (skip_ws r) with
          | Some rest => scan_array fuel' (skip_ws rest) (acc ++ [v])
          | None => Raise JSONDecodeError
          end
      end
  end

with scan_object (fuel : nat) (s : string) (acc : list (string * value))
  {struct fuel} : result (value * string) :=
  match fuel with
  | O => Unmodelled
  | S fuel' =>
      match strip_prefix (String dquote "") s with
      | None => Raise JSONDecodeError
      | Some r =>
          '(k, r1) <- scanstring r ;;
          match strip_prefix ":" (skip_ws r1) with
          | None => Raise JSONDecodeError
          | Some r2 =>
              '(v, r3) <- scan_once fuel' (skip_ws r2) ;;
              match strip_prefix "}" (skip_ws r3) with
              | Some rest => Ok (VDict (dict_set k v acc), rest)
              | None =>
                  match strip_prefix "," (skip_ws r3) with
                  | Some rest =>
                      scan_object fuel' (skip_ws rest) (dict_set k v acc)
                  | None => Raise JSONDecodeError
                  end
              end
          end
      end
  end.

(** [json.loads(s)] for a str [s]: one value between optional whitespace,
    and nothing after it. *)
Definition json_loads (s : string) : result value :=
  '(v, r) <- scan_once (2 * String.length s + 2) (skip_ws s) ;;
  match skip_ws r with
  | EmptyString => Ok v
  | String _ _ => Raise JSONDecodeError
  end.

(** [json.loads(v)]: anything but a str is a [TypeError]. *)
Definition py_json_loads (v : value) : result value :=
  match v with
  | VStr s => json_loads s
  | _ => Raise TypeError
  end.

(** ** The classifier: one line per record *)

(** [f'+{offset:>4}s'] *)
Definition offset_field (offset : Z) : string :=
  "+" ++ rjust 4 (str_of_int offset) ++ "s".

(** The [if] / [elif] chain of lines 37-51: the second element of [parts]. *)
Definition kind_display (meta body resp : value) : result string :=
  has_transcript <- py_contains_str "transcript" body ;;
  if has_transcript then
    reason <- py_get body "transcribeReason" (VStr "?") ;;
    transcript <- py_get body "transcript" (VStr "") ;;
    r <- py_str reason ;;
    t <- py_str transcript ;;
    Ok ("SPEECH  reason=" ++ r ++ "  " ++ quoted t)
  else
    request_type <- py_get body "requestType" VNone ;;
    if py_eq_str request_type "inboundCall" then
      from <- py_get body "from" (VStr "?") ;;
      f <- py_str from ;;
      to <- py_get body "to" (VStr "?") ;;
      t <- py_str to ;;
      Ok ("CALL    from=" ++ f ++ " to=" ++ t)
    else
      request_type <- py_get body "requestType" VNone ;;
      if py_eq_str request_type "redirect" then
        headers <- py_get meta "requestHeaders" (VDict []) ;;
        urls <- py_get headers "url" (VList [VStr ""]) ;;
        url <- py_getitem urls (VInt 0) ;;
        n_match <- re_search match_n url ;;
        let n_val := match n_match with Some g => g | None => "?" end in
        Ok ("REDIR   n=" ++ n_val)
      else
        nonempty <- py_truthy resp ;;
        if nonempty then Ok "RESP" else Ok "EVENT".

(** The body of [for k in cmd] (lines 59-71): what is appended to
    [cmd_names] for the key [k] of the command [cmd]. *)
Definition command_name (cmd k : value) : result value :=
  if py_eq_str k "Play" then
    play <- py_getitem cmd k ;;
    file_url <- py_get play "file" (VStr "") ;;
    id_match <- re_search match_id file_url ;;
    let play_id := match id_match with Some g => g | None => "?" end in
    Ok (VStr ("Play(" ++ str_take 24 play_id ++ ")"))
  else if py_eq_str k "TranscribeUtterance" then
    Ok (VStr "Listen")
  else if py_eq_str k "Redirect" then
    redirect <- py_getitem cmd k ;;
    action <- py_get redirect "actionUrl" (VStr "") ;;
    n_match2 <- re_search match_n action ;;
    Ok (VStr ("Redirect(n="
              ++ match n_match2 with Some g => g | None => "?" end ++ ")"))
  else
    Ok k.

(** [for k in cmd: ...] with [cmd_names] passed along. *)
Fixpoint keys_loop (cmd : value) (ks : list value) (cmd_names : list value)
  : result (list value) :=
  match ks with
  | [] => Ok cmd_names
  | k :: ks' =>
      name <- command_name cmd k ;;
      keys_loop cmd ks' (cmd_names ++ [name])
  end.

(** [for cmd in cmds: ...] *)
Fixpoint cmds_loop (cmds : list value) (cmd_names : list value)
  : result (list value) :=
  match cmds with
  | [] => Ok cmd_names
  | cmd :: cmds' =>
      ks <- py_iter cmd ;;
      cmd_names' <- keys_loop cmd ks cmd_names ;;
      cmds_loop cmds' cmd_names'
  end.

(** The [try] block of lines 55-72: the suffix appended to [parts]. *)
Definition decode_commands (resp : value) : result string :=
  cmds <- py_json_loads resp ;;
  cs <- py_iter cmds ;;
  cmd_names <- cmds_loop cs [] ;;
  joined <- py_join " + " cmd_names ;;
  Ok (" -> " ++ joined).

(** The [except Exception] block of line 74. *)
Definition raw_fallback (resp : value) : result string :=
  head <- py_take 80 resp ;;
  s <- py_str head ;;
  Ok (" -> " ++ s).

(** [try: body except Exception: handler].  Every exception of the model is
    an [Exception]. *)
Definition try_except {A : Type} (body handler : result A) : result A :=
  match body with
  | Ok a => Ok a
  | Raise _ => handler
  | Unmodelled => Unmodelled
  end.

Definition response_part (resp : value) : result string :=
  try_except (decode_commands resp) (raw_fallback resp).

(** The body of [for l in call_logs] up to the [print]: the line printed for
    the record [l]. *)
Definition event_line (t0 : Z) (l : value) : result string :=
  stamp <- py_getitem l (VStr "timestamp") ;;
  ts <- py_floordiv stamp 1000000 ;;
  let offset := ts - t0 in
  meta <- py_get l "metadata" (VDict []) ;;
  body <- py_get meta "requestBody" (VDict []) ;;
  resp <- py_get meta "responseBody" (VStr "") ;;
  let parts := [offset_field offset] in
  kind <- kind_display meta body resp ;;
  let parts := (parts ++ [kind])%list in
  nonempty <- py_truthy resp ;;
  parts <- (if nonempty
            then suffix <- response_part resp ;; Ok (parts ++ [suffix])%list
            else Ok parts) ;;
  Ok (String.concat "  " parts).

(** ** The selector: filter and sort *)

(** [[l for l in logs if l.get('callId') == call_id]] *)
Fixpoint filter_logs (logs : list value) (call_id : value)
  : result (list value) :=
  match logs with
  | [] => Ok []
  | l :: logs' =>
      cid <- py_get l "callId" VNone ;;
      same <- py_eq cid call_id ;;
      rest <- filter_logs logs' call_id ;;
      Ok (if same then l :: rest else rest)
  end.

(** [list.sort(key=lambda x: x['timestamp'])] computes every key first,
    then sorts the keyed records, asking only [<] of two keys.  The sort
    is stable; it is given here as an insertion sort, which makes no
    comparison on a list of fewer than two records. *)
Fixpoint keyed (ls : list value) : result (list (value * value)) :=
  match ls with
  | [] => Ok []
  | x :: ls' =>
      k <- py_getitem x (VStr "timestamp") ;;
      rest <- keyed ls' ;;
      Ok ((k, x) :: rest)
  end.

Fixpoint insert (x : value * value) (sorted : list (value * value))
  : result (list (value * value)) :=
  match sorted with
  | [] => Ok [x]
  | y :: sorted' =>
      lt <- py_lt (fst y) (fst x) ;;
      if lt then (r <- insert x sorted' ;; Ok (y :: r))
      else Ok (x :: y :: sorted')
  end.

Fixpoint insertion_sort (l : list (value * value))
  : result (list (value * value)) :=
  match l with
  | [] => Ok []
  | x :: l' => s <- insertion_sort l' ;; insert x s
  end.

Definition sort_by_timestamp (ls : list value) : result (list value) :=
  ks <- keyed ls ;;
  s <- insertion_sort ks ;;
  Ok (List.map snd s).

(** ** The program *)

(** A run: the lines printed, and how it ended.  [Ok tt] is exit status 0
    (the end of the script or [sys.exit(0)]), [Raise e] an uncaught
    exception. *)
Definition io (A : Type) : Type := list string * result A.

Definition io_bind {A B : Type} (m : io A) (k : A -> io B) : io B :=
  match m with
  | (out, Ok a) => let (out', r) := k a in ((out ++ out')%list, r)
  | (out, Raise e) => (out, Raise e)
  | (out, Unmodelled) => (out, Unmodelled)
  end.

Arguments io_bind : simpl never.

Definition lift {A : Type} (r : result A) : io A := ([], r).
Definition print (line : string) : io unit := ([line], Ok tt).

Notation "x <~ e ;; k" := (io_bind e (fun x => k))
  (at level 61, e at next level, right associativity).
Notation "e ;;; k" := (io_bind e (fun _ => k))
  (at level 61, right associativity).

(** [for l in call_logs: ... print(...)] *)
Fixpoint print_events (t0 : Z) (call_logs : list value) : io unit :=
  match call_logs with
  | [] => ([], Ok tt)
  | l :: rest =>
      line <~ lift (event_line t0 l) ;;
      print line ;;;
      print_events t0 rest
  end.

(** Lines 12-15: the target call identifier. *)
Definition choose_call_id (logs : value) (argv : list string) : io value :=
  let call_id := match argv with _ :: a :: _ => a | _ => "" end in
  if String.eqb call_id "" then
    first <~ lift (py_getitem logs (VInt 0)) ;;
    call_id <~ lift (py_get first "callId" (VStr "")) ;;
    s <~ lift (py_str call_id) ;;
    print ("Most recent call: " ++ s) ;;;
    ([], Ok call_id)
  else ([], Ok (VStr call_id)).

(** Lines 18-76: sort the selected records and print the timeline. *)
Definition render_timeline (call_logs : list value) (call_id : value)
  : io unit :=
  call_logs <~ lift (sort_by_timestamp call_logs) ;;
  match call_logs with
  | [] =>
      s <~ lift (py_str call_id) ;;
      print ("No logs for callId=" ++ s)
  | first :: _ =>
      stamp <~ lift (py_getitem first (VStr "timestamp")) ;;
      t0 <~ lift (py_floordiv stamp 1000000) ;;
      s <~ lift (py_str call_id) ;;
      print ("Call: " ++ s ++ "  ("
             ++ str_of_int (Z.of_nat (List.length call_logs)) ++ " events)") ;;;
      print (repeat_char "-" 80) ;;;
      print_events t0 call_logs
  end.

(** Lines 17-76, from the filter on. *)
Definition timeline (logs call_id : value) : io unit :=
  records <~ lift (py_iter logs) ;;
  call_logs <~ lift (filter_logs records call_id) ;;
  render_timeline call_logs call_id.

(** The script, from the decoded document on. *)
Definition main (data : value) (argv : list string) : io unit :=
  logs <~ lift (py_get data "logs" (VList [])) ;;
  nonempty <~ lift (py_truthy logs) ;;
  if negb nonempty then print "No logs found."
  else
    call_id <~ choose_call_id logs argv ;;
    timeline logs call_id.

(** The script on the text of its standard input; [argv] is [sys.argv]. *)
Definition run (stdin : string) (argv : list string) : io unit :=
  data <~ lift (json_loads stdin) ;;
  main data argv.


(** * The vocabulary of the properties *)

(** ** Texts *)

(** A text written with ['] where it has a double quote. *)
Definition text (s : string) : string :=
  string_of_list_ascii
    (List.map (fun c => if Ascii.eqb c "'" then dquote else c)
              (list_ascii_of_string s)).

(** ** Kinds *)

Inductive kind : Type := SPEECH | CALL | REDIR | RESP | EVENT.

Definition kind_tag (k : kind) : string :=
  match k with
  | SPEECH => "SPEECH"
  | CALL => "CALL"
  | REDIR => "REDIR"
  | RESP => "RESP"
  | EVENT => "EVENT"
  end.

(** [requestBody.requestType], [None] when the key is absent. *)
Definition request_type (body : list (string * value)) : value :=
  match dict_lookup "requestType" body with Some v => v | None => VNone end.

(** The five rules as the specification words them, first match wins. *)
Definition classify (body : list (string * value)) (resp : value)
  : result kind :=
  if dict_has "transcript" body then Ok SPEECH
  else if py_eq_str (request_type body) "inboundCall" then Ok CALL
  else if py_eq_str (request_type body) "redirect" then Ok REDIR
  else nonempty <- py_truthy resp ;; Ok (if nonempty then RESP else EVENT).

(** A field of the request body as it is displayed, with its default. *)
Definition shown (body : list (string * value)) (key default : string)
  : result string :=
  py_str (match dict_lookup key body with
          | Some v => v
          | None => VStr default
          end).

(** The [n] a redirect displays. *)
Definition redirect_n (meta : value) : result string :=
  headers <- py_get meta "requestHeaders" (VDict []) ;;
  urls <- py_get headers "url" (VList [VStr ""]) ;;
  url <- py_getitem urls (VInt 0) ;;
  n_match <- re_search match_n url ;;
  Ok (match n_match with Some g => g | None => "?" end).

(** What each kind displays. *)
Definition display_of (k : kind) (meta : value) (body : list (string * value))
  : result string :=
  match k with
  | SPEECH =>
      r <- shown body "transcribeReason" "?" ;;
      t <- shown body "transcript" "" ;;
      Ok ("SPEECH  reason=" ++ r ++ "  " ++ quoted t)
  | CALL =>
      f <- shown body "from" "?" ;;
      t <- shown body "to" "?" ;;
      Ok ("CALL    from=" ++ f ++ " to=" ++ t)
  | REDIR => n <- redirect_n meta ;; Ok ("REDIR   n=" ++ n)
  | RESP => Ok "RESP"
  | EVENT => Ok "EVENT"
  end.

(** ** Redirects and Play commands *)

(** The URL a redirect record reads, in the specification's words: the
    first element of [requestHeaders.url], the empty string when
    [requestHeaders] or its [url] is absent. *)
Definition redirect_url (meta : list (string * value)) : option string :=
  match dict_lookup "requestHeaders" meta with
  | None => Some ""
  | Some (VDict headers) =>
      match dict_lookup "url" headers with
      | None => Some ""
      | Some (VList (VStr u :: _)) => Some u
      | Some _ => None
      end
  | Some _ => None
  end.

(** Group 1 of the first match of [[&?]n=(\d+)], or ["?"]. *)
Definition first_n (url : string) : string :=
  match search match_n url with Some g => g | None => "?" end.

(** The [file] of a Play command, the empty string when absent. *)
Definition play_file (play : list (string * value)) : option string :=
  match dict_lookup "file" play with
  | None => Some ""
  | Some (VStr f) => Some f
  | Some _ => None
  end.

(** Group 1 of the first match of [id=([^&]+)], or ["?"]. *)
Definition first_id (file : string) : string :=
  match search match_id file with Some g => g | None => "?" end.

Definition play_name (file : string) : string :=
  "Play(" ++ str_take 24 (first_id file) ++ ")".

(** ** Records *)

(** The fields of a record that [event_line] reads, with their defaults. *)
Definition metadata_of (l : list (string * value)) : value :=
  match dict_lookup "metadata" l with Some m => m | None => VDict [] end.

Definition request_body_of (meta : list (string * value)) : value :=
  match dict_lookup "requestBody" meta with Some b => b | None => VDict [] end.

Definition response_body_of (meta : list (string * value)) : value :=
  match dict_lookup "responseBody" meta with Some r => r | None => VStr "" end.

(** The integer timestamp of a record, when [x['timestamp']] is one. *)
Definition timestamp_of (l : value) : option Z :=
  match py_getitem l (VStr "timestamp") with
  | Ok k => as_int k
  | _ => None
  end.

Definition ts_le (a b : value) : Prop :=
  exists x y, timestamp_of a = Some x /\ timestamp_of b = Some y /\ x <= y.

Definition ts_is (t : Z) (l : value) : bool :=
  match timestamp_of l with Some z => z =? t | None => false end.

Definition is_record (l : value) : Prop := exists e, l = VDict e.

(** [l.get('callId') == call_id] for a str [call_id]. *)
Definition has_call_id (call_id : string) (l : value) : bool :=
  match l with
  | VDict e =>
      match dict_lookup "callId" e with
      | Some v => py_eq_str v call_id
      | None => false
      end
  | _ => false
  end.

(** Whether a record's line can be built does not depend on [t0]. *)
Definition renders (l : value) : Prop := exists line, event_line 0 l = Ok line.

(** A record of kind REDIR whose [requestHeaders.url] is present and is
    [url]. *)
Definition redirect_with_url (url l : value) : Prop :=
  exists e meta body headers,
    l = VDict e
    /\ metadata_of e = VDict meta
    /\ request_body_of meta = VDict body
    /\ classify body (response_body_of meta) = Ok REDIR
    /\ dict_lookup "requestHeaders" meta = Some (VDict headers)
    /\ dict_lookup "url" headers = Some url.

(** A value that has no element 0: anything but a non-empty list and a
    non-empty str (whose element 0 is its first character). *)
Definition lacks_first (u : value) : Prop :=
  match u with
  | VList (_ :: _) | VStr (String _ _) => False
  | _ => True
  end.

(** ** Keyed records *)

(** The same on keyed records. *)
Definition key_le (a b : value * value) : Prop :=
  exists x y, as_int (fst a) = Some x /\ as_int (fst b) = Some y /\ x <= y.

Definition key_is (t : Z) (a : value * value) : bool :=
  match as_int (fst a) with Some z => z =? t | None => false end.

Definition int_key (a : value * value) : Prop :=
  exists z, as_int (fst a) = Some z.

(** Every key is the record's timestamp. *)
Definition keyed_ok (a : value * value) : Prop :=
  py_getitem (snd a) (VStr "timestamp") = Ok (fst a).

(** ** Output *)

Definition header_line (call_id : string) (n : nat) : string :=
  "Call: " ++ call_id ++ "  (" ++ str_of_int (Z.of_nat n) ++ " events)".

Definition separator_line : string := repeat_char "-" 80.

(** Eighty dashes, written out. *)
Definition dashes : string :=
  "--------------------------------------------------------------------------------".

(** How the line of a record is laid out: the parts are the offset field,
    the kind display and, for a non-empty responseBody, the suffix; two
    spaces go between any two parts. *)
Definition line_layout (t0 : Z) (l : value) (line : string) : Prop :=
  exists ts meta body resp display,
    timestamp_of l = Some ts
    /\ py_get l "metadata" (VDict []) = Ok meta
    /\ py_get meta "requestBody" (VDict []) = Ok body
    /\ py_get meta "responseBody" (VStr "") = Ok resp
    /\ kind_display meta body resp = Ok display
    /\ ((py_truthy resp = Ok false
         /\ line = offset_field (ts / 1000000 - t0) ++ "  " ++ display)
        \/ (py_truthy resp = Ok true
            /\ exists suffix,
                response_part resp = Ok suffix
                /\ line = offset_field (ts / 1000000 - t0) ++ "  " ++ display
                          ++ "  " ++ suffix)).

(** The line the layout "offset field, two spaces, kind display, suffix"
    describes. *)
Definition line_without_second_separator
           (offset : Z) (display suffix : string) : string :=
  offset_field offset ++ "  " ++ display ++ suffix.

(** ** Patterns *)

(** Every character of [s] is in the class [p]. *)
Fixpoint all_chars (p : ascii -> bool) (s : string) : bool :=
  match s with
  | EmptyString => true
  | String c r => p c && all_chars p r
  end.

Definition not_amp (c : ascii) : bool := negb (Ascii.eqb c "&").

(** ** A sample call *)

(** A responseBody with one command, and a document with one record that
    carries it. *)
Definition listen_response : string := text "[{'TranscribeUtterance':{}}]".

Definition listen_input : string :=
  text ("{'logs': [{'callId': 'CA1', 'timestamp': 0, "
        ++ "'metadata': {'responseBody': "
        ++ "'[{\'TranscribeUtterance\':{}}]'}}]}").

(** Four records, three of call CA1, two of them with the same timestamp. *)
Definition sample_logs : list value :=
  [ VDict [("callId", VStr "CA1"); ("timestamp", VInt 5000000);
           ("metadata",
            VDict [("requestBody", VDict [("requestType", VStr "redirect")]);
                   ("requestHeaders",
                    VDict [("url", VList [VStr "https://x/?n=3"])]);
                   ("responseBody", VStr listen_response)])];
    VDict [("callId", VStr "CA2"); ("timestamp", VInt 1)];
    VDict [("callId", VStr "CA1"); ("timestamp", VInt 2000001);
           ("metadata",
            VDict [("requestBody",
                    VDict [("requestType", VStr "inboundCall");
                           ("from", VStr "+1"); ("to", VStr "+2")])])];
    VDict [("callId", VStr "CA1"); ("timestamp", VInt 2000001)] ].

Definition sample_matching : list value :=
  [nth 0 sample_logs VNone; nth 2 sample_logs VNone; nth 3 sample_logs VNone].

Definition sample_out : list string :=
  [ "Call: CA1  (3 events)";
    dashes;
    "+   0s  CALL    from=+1 to=+2";
    "+   0s  EVENT";
    "+   3s  REDIR   n=3   -> Listen" ].

(** ** Selection, offsets and commands *)

(** [sys.argv] carries no call identifier: there is no second element, or
    it is the empty string. *)
Definition no_argument (argv : list string) : Prop :=
  match argv with
  | _ :: a :: _ => a = ""
  | _ => True
  end.

(** The two informational lines of the selector. *)
Definition no_logs_line (c : string) : string := "No logs for callId=" ++ c.

Definition most_recent_line (c : string) : string :=
  "Most recent call: " ++ c.

(** The offset a record displays against [t0]. *)
Definition offset_of (t0 : Z) (l : value) : Z :=
  match timestamp_of l with
  | Some ts => ts / 1000000 - t0
  | None => 0
  end.

(** The [actionUrl] of a Redirect command, the empty string when absent. *)
Definition action_url (redirect : list (string * value)) : option string :=
  match dict_lookup "actionUrl" redirect with
  | None => Some ""
  | Some (VStr a) => Some a
  | Some _ => None
  end.

(** The exceptions a computation can raise are among those of [P]. *)
Definition raises_only {A : Type} (P : exn -> Prop) (r : result A) : Prop :=
  forall e, r = Raise e -> P e.

Definition not_decode_error (e : exn) : Prop := e <> JSONDecodeError.

(** A value that [if not logs] lets through and that is not a list. *)
Definition truthy_non_list (logs : value) : Prop :=
  match logs with
  | VBool true | VStr (String _ _) | VDict (_ :: _) => True
  | VInt z => z <> 0
  | _ => False
  end.

(** The values [if not logs] stops at. *)
Definition falsy (v : value) : Prop :=
  match v with
  | VNone | VBool false | VInt 0 | VStr EmptyString | VList [] | VDict [] =>
      True
  | _ => False
  end.

(** What [//] accepts on its left. *)
Definition is_number (v : value) : Prop :=
  match v with
  | VInt _ | VBool _ | VFloat _ => True
  | _ => False
  end.

(** A record the loop can get through: a number for the timestamp, dicts
    for the metadata and the request body. *)
Definition well_formed_record (l : value) : Prop :=
  exists stamp meta body,
    py_getitem l (VStr "timestamp") = Ok stamp
    /\ is_number stamp
    /\ py_get l "metadata" (VDict []) = Ok (VDict meta)
    /\ request_body_of meta = VDict body.

(** A value an f-string shows: [None], a bool, an int or a str. *)
Definition printable (v : value) : Prop :=
  match v with
  | VNone | VBool _ | VInt _ | VStr _ => True
  | _ => False
  end.

(** The field [key] of a request body is absent or printable. *)
Definition shows (body : list (string * value)) (key : string) : Prop :=
  match dict_lookup key body with
  | Some v => printable v
  | None => True
  end.

(** A record of the expected shape.  It is an object; its [callId], when
    present, is a str and its [timestamp] an integer; its [metadata], when
    present, is an object in which [requestBody], when present, is an object
    with printable [transcribeReason], [transcript], [from] and [to],
    [requestHeaders.url], when present, is a list that starts with a str,
    and [responseBody], when present, is a str that the decoder reads or
    refuses within the model. *)
Definition typed_record (l : value) : Prop :=
  exists e ts meta body url resp,
    l = VDict e
    /\ match dict_lookup "callId" e with
       | Some v => exists c, v = VStr c
       | None => True
       end
    /\ (dict_lookup "timestamp" e = Some (VInt ts))
    /\ metadata_of e = VDict meta
    /\ request_body_of meta = VDict body
    /\ Forall (shows body) ["transcribeReason"; "transcript"; "from"; "to"]
    /\ redirect_url meta = Some url
    /\ response_body_of meta = VStr resp
    /\ json_loads resp <> Unmodelled.

(** The timestamps other than floats and lists, in two classes: [true] for
    an int or a bool, [false] for a str, [None] or a dict, which [//] does
    not accept. *)
Definition stamp_class (k : value) : option bool :=
  match k with
  | VInt _ | VBool _ => Some true
  | VStr _ | VNone | VDict _ => Some false
  | VFloat _ | VList _ => None
  end.

(** The record [l] has a timestamp of the class [c]. *)
Definition stamp_in (c : bool) (l : value) : Prop :=
  exists k, py_getitem l (VStr "timestamp") = Ok k /\ stamp_class k = Some c.

Definition key_in (c : bool) (a : value * value) : Prop :=
  stamp_class (fst a) = Some c.

(** The characters of a str, each as a str of its own. *)
Definition letters (s : string) : list string :=
  List.map (fun c => String c "") (list_ascii_of_string s).

(** [l.get('callId') == None]: the [callId] is [null] or absent. *)
Definition has_no_call_id (l : value) : bool :=
  match l with
  | VDict e =>
      match dict_lookup "callId" e with
      | None | Some VNone => true
      | Some _ => false
      end
  | _ => false
  end.

(** The name of a Redirect command. *)
Definition redirect_name (action : string) : string :=
  "Redirect(n=" ++ first_n action ++ ")".

(** The name the command loop gives the key [k] of a command that holds [v]
    under it: a Play or a Redirect has to hold a dict whose [file] or
    [actionUrl] is a str or absent. *)
Definition name_of_key (k : string) (v : value) : option string :=
  if String.eqb k "Play" then
    match v with
    | VDict play => option_map play_name (play_file play)
    | _ => None
    end
  else if String.eqb k "TranscribeUtterance" then Some "Listen"
  else if String.eqb k "Redirect" then
    match v with
    | VDict redirect => option_map redirect_name (action_url redirect)
    | _ => None
    end
  else Some k.

(** The names of one command object, key by key. *)
Definition names_of_command (cmd : list (string * value)) (ns : list string)
  : Prop :=
  Forall2 (fun kv n => exists v, dict_lookup (fst kv) cmd = Some v
                                 /\ name_of_key (fst kv) v = Some n)
          cmd ns.

(** The offsets of [a] and [b] against [t0] are in order. *)
Definition offset_le (t0 : Z) (a b : value) : Prop :=
  offset_of t0 a <= offset_of t0 b.

(** A line that starts with the offset field of [l] against [t0]. *)
Definition starts_with_offset (t0 : Z) (l : value) (line : string) : Prop :=
  exists rest, line = offset_field (offset_of t0 l) ++ "  " ++ rest.

(** ** Standard output *)

(** The line feed. *)
Definition LF : ascii := "010"%char.

(** What the [print] calls leave on standard output: every entry, each
    followed by a line feed. *)
Fixpoint stdout_text (out : list string) : string :=
  match out with
  | [] => ""
  | entry :: rest => entry ++ String LF (stdout_text rest)
  end.

(** The pieces of a text between its line feeds. *)
Fixpoint split_lf (s : string) : list string :=
  match s with
  | EmptyString => [""]
  | String c r =>
      if Ascii.eqb c LF then "" :: split_lf r
      else match split_lf r with
           | piece :: pieces => String c piece :: pieces
           | [] => [String c ""]
           end
  end.

(** The lines of standard output.  What was printed is empty or ends in a
    line feed: the last piece is empty and is no line. *)
Definition stdout_lines (out : list string) : list string :=
  removelast (split_lf (stdout_text out)).

Definition not_lf (c : ascii) : bool := negb (Ascii.eqb c LF).

(** An entry without a line feed. *)
Definition lf_free (s : string) : Prop := all_chars not_lf s = true.

(** The names the inner loop appends for one command: one per key, in the
    order of the keys. *)
Definition loop_names (cmd : value) (ns : list string) : Prop :=
  exists ks,
    py_iter cmd = Ok ks
    /\ Forall2 (fun k n => command_name cmd k = Ok (VStr n)) ks ns.

(** * Properties *)

(** ** Basic facts about [result] *)

Lemma bind_Ok {A B : Type} (r : result A) (k : A -> result B) (b : B) :
  bind r k = Ok b -> exists a, r = Ok a /\ k a = Ok b.
Proof. destruct r; simpl; intros H; try discriminate. eauto. Qed.

Ltac bind_inv H :=
  let a := fresh "a" in
  let E := fresh "E" in
  apply bind_Ok in H; destruct H as (a & E & H).

(** [text] only swaps the quote character. *)
Example text_quotes : text "{'logs': []}" = "{" ++ quoted "logs" ++ ": []}".
Proof. reflexivity. Qed.

(** Take the first step of a computation that returned. *)
Ltac bind_step H x E :=
  apply bind_Ok in H; destruct H as (x & E & H).

(** ** The matchers and their patterns *)

Lemma append_assoc (a b c : string) : (a ++ b) ++ c = a ++ (b ++ c).
Proof. induction a as [|x a IH]; simpl; [reflexivity|now rewrite IH]. Qed.

Lemma span_spec (p : ascii -> bool) (s a b : string) :
  span p s = (a, b)
  <-> s = a ++ b /\ all_chars p a = true /\ starts_in p b = false.
Proof.
  split.
  - revert a b. induction s as [|c s IH]; simpl; intros a b H.
    + inversion H; subst. auto.
    + destruct (p c) eqn:Hc.
      * destruct (span p s) as [a' b'] eqn:Hs. inversion H; subst.
        destruct (IH _ _ eq_refl) as (-> & Ha & Hb).
        simpl. rewrite Hc. auto.
      * inversion H; subst. simpl. rewrite Hc. auto.
  - intros (-> & Ha & Hb). induction a as [|c a IH]; simpl in *.
    + destruct b as [|c b]; simpl in *; [reflexivity|now rewrite Hb].
    + apply andb_prop in Ha. destruct Ha as [Hc Ha].
      rewrite Hc, (IH Ha). reflexivity.
Qed.

Lemma strip_prefix_spec (p s r : string) :
  strip_prefix p s = Some r <-> s = p ++ r.
Proof.
  revert s. induction p as [|a p IH]; simpl; intros s.
  - split; intros H; inversion H; subst; reflexivity.
  - destruct s as [|b s]; [split; discriminate|].
    destruct (Ascii.eqb a b) eqn:E.
    + apply Ascii.eqb_eq in E. subst b. rewrite IH.
      split; intros H; [now subst|now inversion H].
    + apply Ascii.eqb_neq in E.
      split; [discriminate|]. intros H. inversion H. congruence.
Qed.

(** A greedy [(class+)] at the end of a pattern: the group is a non-empty
    run of the class that the next character does not continue. *)
Lemma plus_spec (p : ascii -> bool) (s g : string) :
  plus p s = Some g
  <-> exists rest, s = g ++ rest /\ g <> "" /\ all_chars p g = true
                   /\ starts_in p rest = false.
Proof.
  unfold plus. split.
  - destruct (span p s) as [a b] eqn:Hs.
    destruct (String.eqb a "") eqn:E; [discriminate|].
    intros H; inversion H; subst a. apply String.eqb_neq in E.
    apply span_spec in Hs. destruct Hs as (-> & Ha & Hb).
    exists b. auto.
  - intros (rest & -> & Hne & Ha & Hb).
    rewrite (proj2 (span_spec p (g ++ rest) g rest)) by auto.
    apply String.eqb_neq in Hne. now rewrite Hne.
Qed.

(** [match_n] is the pattern [[&?]n=(\d+)] anchored at the start. *)
Lemma match_n_spec (s g : string) :
  match_n s = Some g
  <-> exists c rest,
      (c = "&"%char \/ c = "?"%char)
      /\ s = String c ("n=" ++ g ++ rest)
      /\ g <> "" /\ all_chars is_digit g = true
      /\ starts_in is_digit rest = false.
Proof.
  unfold match_n. split.
  - destruct s as [|c r]; [discriminate|].
    destruct (Ascii.eqb c "&" || Ascii.eqb c "?") eqn:Hc; [|discriminate].
    destruct (strip_prefix "n=" r) as [r'|] eqn:Hr; [|discriminate].
    intros H. apply plus_spec in H. destruct H as (rest & -> & Hne & Hd & Hn).
    apply strip_prefix_spec in Hr. subst r.
    exists c, rest. repeat split; auto.
    apply orb_prop in Hc. destruct Hc as [H|H]; apply Ascii.eqb_eq in H; auto.
  - intros (c & rest & Hc & -> & Hne & Hd & Hn).
    assert (Ascii.eqb c "&" || Ascii.eqb c "?" = true) as ->
        by (destruct Hc; subst; reflexivity).
    rewrite (proj2 (strip_prefix_spec "n=" _ (g ++ rest))) by reflexivity.
    apply plus_spec. exists rest. auto.
Qed.

(** [match_id] is the pattern [id=([^&]+)] anchored at the start. *)
Lemma match_id_spec (s g : string) :
  match_id s = Some g
  <-> exists rest,
      s = "id=" ++ g ++ rest
      /\ g <> "" /\ all_chars not_amp g = true
      /\ starts_in not_amp rest = false.
Proof.
  unfold match_id. split.
  - destruct (strip_prefix "id=" s) as [r|] eqn:Hr; [|discriminate].
    intros H. apply plus_spec in H. destruct H as (rest & -> & Hne & Hd & Hn).
    apply strip_prefix_spec in Hr. subst s. exists rest. auto.
  - intros (rest & -> & Hne & Hd & Hn).
    rewrite (proj2 (strip_prefix_spec "id=" _ (g ++ rest))) by reflexivity.
    apply plus_spec. exists rest. auto.
Qed.

(** [search] returns the match at the leftmost position that has one. *)
Lemma search_spec (m : string -> option string) (s g : string) :
  search m s = Some g
  <-> exists pre post,
      s = pre ++ post /\ m post = Some g
      /\ forall p q, s = p ++ q ->
                     (String.length p < String.length pre)%nat -> m q = None.
Proof.
  split.
  - induction s as [|c s IH]; simpl.
    + destruct (m "") as [g0|] eqn:E; [|discriminate].
      intros H; inversion H; subst g0. exists "", "". repeat split; auto.
      intros p q _ Hlt. simpl in Hlt. lia.
    + destruct (m (String c s)) as [g0|] eqn:E.
      * intros H; inversion H; subst g0. exists "", (String c s).
        repeat split; auto. intros p q _ Hlt. simpl in Hlt. lia.
      * intros H. destruct (IH H) as (pre & post & -> & Hm & Hearlier).
        exists (String c pre), post. repeat split; auto.
        intros p q Hs Hlt. destruct p as [|c' p]; simpl in *.
        -- now subst q.
        -- apply (Hearlier p q); [now injection Hs|lia].
  - intros (pre & post & -> & Hm & Hearlier).
    induction pre as [|c pre IH]; simpl in *.
    + destruct post; simpl; now rewrite Hm.
    + rewrite (Hearlier "" (String c (pre ++ post)) eq_refl) by (simpl; lia).
      apply IH. intros p q Hs Hlt.
      apply (Hearlier (String c p) q); simpl; [now rewrite Hs|lia].
Qed.

Lemma search_none (m : string -> option string) (s : string) :
  search m s = None <-> forall p q, s = p ++ q -> m q = None.
Proof.
  split.
  - induction s as [|c s IH]; simpl.
    + destruct (m "") eqn:E; [discriminate|].
      intros _ p q H. destruct p; [|discriminate]. simpl in H. now subst q.
    + destruct (m (String c s)) eqn:E; [discriminate|].
      intros H p q Hs. destruct p as [|c' p]; simpl in Hs.
      * now subst q.
      * apply (IH H p q). now injection Hs.
  - intros H. induction s as [|c s IH]; simpl.
    + now rewrite (H "" "" eq_refl).
    + rewrite (H "" (String c s) eq_refl). apply IH.
      intros p q Hs. apply (H (String c p) q). simpl. now rewrite Hs.
Qed.

(** ** The decoder's fuel *)

Lemma skip_ws_length (s : string) :
  (String.length (skip_ws s) <= String.length s)%nat.
Proof.
  induction s as [|c s IH]; simpl; [lia|]. destruct (is_ws c); simpl; lia.
Qed.

Lemma append_length (a b : string) :
  String.length (a ++ b) = (String.length a + String.length b)%nat.
Proof. induction a as [|c a IH]; simpl; [reflexivity|now rewrite IH]. Qed.

Lemma strip_prefix_length (p s r : string) :
  strip_prefix p s = Some r ->
  String.length s = (String.length p + String.length r)%nat.
Proof. intros H. apply strip_prefix_spec in H. subst. apply append_length. Qed.

Lemma span_length (p : ascii -> bool) (s : string) :
  (String.length (snd (span p s)) <= String.length s)%nat.
Proof.
  induction s as [|c s IH]; simpl; [lia|].
  destruct (p c); [|simpl; lia].
  destruct (span p s); simpl in *. lia.
Qed.

Lemma span_shrinks (p : ascii -> bool) (s : string) :
  starts_in p s = true ->
  (String.length (snd (span p s)) < String.length s)%nat.
Proof.
  destruct s as [|c s]; simpl; [discriminate|]. intros ->.
  pose proof (span_length p s). destruct (span p s); simpl in *. lia.
Qed.

Lemma scanstring_shrinks (n : nat) :
  forall s t r,
    (String.length s <= n)%nat ->
    scanstring s = Ok (t, r) -> (String.length r < String.length s)%nat.
Proof.
  induction n as [|n IH]; intros s t r Hn H.
  - destruct s; simpl in *; [discriminate|lia].
  - destruct s as [|c s]; simpl in H; [discriminate|]. simpl in Hn.
    destruct (Ascii.eqb c dquote).
    { inversion H; subst. simpl. lia. }
    destruct (Ascii.eqb c "\").
    + destruct s as [|e s]; [discriminate|]. simpl in Hn.
      destruct (Ascii.eqb e "u").
      * destruct s as [|h1 [|h2 [|h3 [|h4 s]]]]; try discriminate.
        destruct (hex4 h1 h2 h3 h4); [|discriminate].
        destruct (_ <? _)%N; [|discriminate].
        bind_step H x Hx. destruct x as [t' r']. inversion H; subst.
        apply IH in Hx; simpl in *; lia.
      * destruct (simple_escape e); [|discriminate].
        bind_step H x Hx. destruct x as [t' r']. inversion H; subst.
        apply IH in Hx; simpl in *; lia.
    + destruct (_ <? _)%N; [discriminate|].
      bind_step H x Hx. destruct x as [t' r']. inversion H; subst.
      apply IH in Hx; simpl in *; lia.
Qed.

Lemma scan_constant_shrinks (s : string) (v : value) (r : string) :
  scan_constant s = Some (v, r) -> (String.length r < String.length s)%nat.
Proof.
  unfold scan_constant.
  repeat match goal with
         | |- context [strip_prefix ?p s] =>
             let E := fresh "E" in
             destruct (strip_prefix p s) eqn:E;
             [apply strip_prefix_length in E; simpl in E;
              intros H; inversion H; subst; lia|]
         end.
  discriminate.
Qed.

Lemma scan_sign_length (s : string) :
  (String.length (snd (scan_sign s)) <= String.length s)%nat.
Proof.
  unfold scan_sign. destruct (strip_prefix "-" s) eqn:E; simpl; [|lia].
  apply strip_prefix_length in E. lia.
Qed.

Lemma scan_int_part_shrinks (s ds r : string) :
  scan_int_part s = Some (ds, r) -> (String.length r < String.length s)%nat.
Proof.
  unfold scan_int_part. destruct (strip_prefix "0" s) eqn:E.
  - apply strip_prefix_length in E. simpl in E.
    intros H; inversion H; subst. lia.
  - destruct (starts_in is_digit s) eqn:Hd; [|discriminate].
    intros H; inversion H as [Hs]. pose proof (span_shrinks _ _ Hd) as Hl.
    now rewrite Hs in Hl.
Qed.

Lemma scan_frac_length (s : string) :
  (String.length (snd (scan_frac s)) <= String.length s)%nat.
Proof.
  unfold scan_frac. destruct (strip_prefix "." s) as [r|] eqn:E; simpl; [|lia].
  apply strip_prefix_length in E. simpl in E.
  destruct (starts_in is_digit r); simpl; [|lia].
  pose proof (span_length is_digit r). destruct (span is_digit r). simpl in *.
  lia.
Qed.

Lemma scan_exp_length (s : string) :
  (String.length (snd (scan_exp s)) <= String.length s)%nat.
Proof.
  unfold scan_exp. destruct s as [|e r]; simpl; [lia|].
  destruct (Ascii.eqb e "e" || Ascii.eqb e "E"); simpl; [|lia].
  assert (forall r1, (String.length r1 <= String.length r)%nat ->
                     forall sg,
                       (String.length
                          (snd (let (es, r2) := span is_digit r1 in
                                if String.eqb es "" then ("", String e r)
                                else (String e (sg ++ es), r2)))
                        <= S (String.length r))%nat) as H.
  { intros r1 Hr1 sg. pose proof (span_length is_digit r1).
    destruct (span is_digit r1) as [es r2]. simpl in *.
    destruct (String.eqb es ""); simpl; lia. }
  destruct r as [|x r0]; [apply H; simpl; lia|].
  destruct (Ascii.eqb x "-" || Ascii.eqb x "+"); apply H; simpl; lia.
Qed.

Lemma scan_number_shrinks (s : string) (v : value) (r : string) :
  scan_number s = Some (v, r) -> (String.length r < String.length s)%nat.
Proof.
  unfold scan_number. pose proof (scan_sign_length s) as H1.
  destruct (scan_sign s) as [sign s1]. simpl in H1.
  destruct (scan_int_part s1) as [[ds s2]|] eqn:Hi; [|discriminate].
  apply scan_int_part_shrinks in Hi.
  pose proof (scan_frac_length s2) as H3.
  destruct (scan_frac s2) as [frac s3]. simpl in H3.
  pose proof (scan_exp_length s3) as H4.
  destruct (scan_exp s3) as [expo s4]. simpl in H4.
  destruct (_ && _); intros H; inversion H; subst; lia.
Qed.

(** Whatever a scan returns, it has consumed at least one character. *)
Lemma scan_shrinks (fuel : nat) :
  (forall s v r,
      scan_once fuel s = Ok (v, r) ->
      (String.length r < String.length s)%nat)
  /\ (forall s acc v r,
         scan_array fuel s acc = Ok (v, r) ->
         (String.length r < String.length s)%nat)
  /\ (forall s acc v r,
         scan_object fuel s acc = Ok (v, r) ->
         (String.length r < String.length s)%nat).
Proof.
  induction fuel as [|fuel (IHo & IHa & IHd)];
    [repeat split; intros; discriminate|].
  split; [|split].
  - intros s v r H. cbn [scan_once] in H.
    destruct s as [|c s]; [discriminate|].
    destruct (Ascii.eqb c dquote).
    { bind_step H x Hx. destruct x as [t rest]. inversion H; subst.
      apply (scanstring_shrinks _ _ _ _ (le_n _)) in Hx. simpl. lia. }
    pose proof (skip_ws_length s) as Hw.
    destruct (Ascii.eqb c "[").
    { destruct (strip_prefix "]" (skip_ws s)) eqn:E.
      - apply strip_prefix_length in E. inversion H; subst. simpl in *. lia.
      - apply IHa in H. simpl. lia. }
    destruct (Ascii.eqb c "{").
    { destruct (strip_prefix "}" (skip_ws s)) eqn:E.
      - apply strip_prefix_length in E. inversion H; subst. simpl in *. lia.
      - apply IHd in H. simpl. lia. }
    destruct (scan_constant (String c s)) as [[v' r']|] eqn:Ec.
    { inversion H; subst. now apply scan_constant_shrinks in Ec. }
    destruct (scan_number (String c s)) as [[v' r']|] eqn:En; [|discriminate].
    inversion H; subst. now apply scan_number_shrinks in En.
  - intros s acc v r H. cbn [scan_array] in H.
    bind_step H x Hx. destruct x as [v1 r1]. apply IHo in Hx.
    pose proof (skip_ws_length r1) as Hw.
    destruct (strip_prefix "]" (skip_ws r1)) eqn:E.
    { apply strip_prefix_length in E. inversion H; subst. simpl in *. lia. }
    destruct (strip_prefix "," (skip_ws r1)) as [rest|] eqn:E';
      [|discriminate].
    apply strip_prefix_length in E'. apply IHa in H.
    pose proof (skip_ws_length rest). simpl in *. lia.
  - intros s acc v r H. cbn [scan_object] in H.
    destruct (strip_prefix (String dquote "") s) as [r0|] eqn:E0;
      [|discriminate].
    apply strip_prefix_length in E0.
    bind_step H x Hx. destruct x as [k r1].
    apply (scanstring_shrinks _ _ _ _ (le_n _)) in Hx.
    pose proof (skip_ws_length r1) as Hw1.
    destruct (strip_prefix ":" (skip_ws r1)) as [r2|] eqn:E2; [|discriminate].
    apply strip_prefix_length in E2.
    bind_step H y Hy. destruct y as [v1 r3]. apply IHo in Hy.
    pose proof (skip_ws_length r2) as Hw2.
    pose proof (skip_ws_length r3) as Hw3.
    destruct (strip_prefix "}" (skip_ws r3)) eqn:E.
    { apply strip_prefix_length in E. inversion H; subst. simpl in *. lia. }
    destruct (strip_prefix "," (skip_ws r3)) as [rest|] eqn:E';
      [|discriminate].
    apply strip_prefix_length in E'. apply IHd in H.
    pose proof (skip_ws_length rest). simpl in *. lia.
Qed.

(** With more fuel than twice the length of the text, the amount of fuel
    makes no difference to a scan. *)
Lemma scan_fuel (f1 : nat) :
  forall f2,
    (forall s,
        (2 * String.length s < f1)%nat -> (2 * String.length s < f2)%nat ->
        scan_once f1 s = scan_once f2 s)
    /\ (forall s acc,
           (2 * String.length s + 1 < f1)%nat ->
           (2 * String.length s + 1 < f2)%nat ->
           scan_array f1 s acc = scan_array f2 s acc)
    /\ (forall s acc,
           (2 * String.length s + 1 < f1)%nat ->
           (2 * String.length s + 1 < f2)%nat ->
           scan_object f1 s acc = scan_object f2 s acc).
Proof.
  induction f1 as [|f1 IH]; intros f2;
    [repeat split; intros; lia|].
  destruct f2 as [|f2]; [repeat split; intros; lia|].
  destruct (IH f2) as (IHo & IHa & IHd). clear IH.
  split; [|split].
  - intros s H1 H2. cbn [scan_once].
    destruct s as [|c s]; [reflexivity|]. simpl in H1, H2.
    pose proof (skip_ws_length s) as Hw.
    destruct (Ascii.eqb c dquote); [reflexivity|].
    destruct (Ascii.eqb c "[").
    { destruct (strip_prefix "]" (skip_ws s)); [reflexivity|].
      apply IHa; lia. }
    destruct (Ascii.eqb c "{"); [|reflexivity].
    destruct (strip_prefix "}" (skip_ws s)); [reflexivity|].
    apply IHd; lia.
  - intros s acc H1 H2. cbn [scan_array].
    rewrite (IHo s) by lia.
    destruct (scan_once f2 s) as [[v r]| |] eqn:Hs; cbn [bind]; try reflexivity.
    apply (proj1 (scan_shrinks f2)) in Hs.
    pose proof (skip_ws_length r) as Hw.
    destruct (strip_prefix "]" (skip_ws r)); [reflexivity|].
    destruct (strip_prefix "," (skip_ws r)) as [rest|] eqn:E; [|reflexivity].
    apply strip_prefix_length in E. simpl in E.
    pose proof (skip_ws_length rest).
    apply IHa; lia.
  - intros s acc H1 H2. cbn [scan_object].
    destruct (strip_prefix (String dquote "") s) as [r0|] eqn:E0;
      [|reflexivity].
    apply strip_prefix_length in E0. simpl in E0.
    destruct (scanstring r0) as [[k r1]| |] eqn:Hk; cbn [bind]; try reflexivity.
    apply (scanstring_shrinks _ _ _ _ (le_n _)) in Hk.
    pose proof (skip_ws_length r1) as Hw1.
    destruct (strip_prefix ":" (skip_ws r1)) as [r2|] eqn:E2; [|reflexivity].
    apply strip_prefix_length in E2. simpl in E2.
    pose proof (skip_ws_length r2) as Hw2.
    rewrite (IHo (skip_ws r2)) by lia.
    destruct (scan_once f2 (skip_ws r2)) as [[v r3]| |] eqn:Hs;
      cbn [bind]; try reflexivity.
    apply (proj1 (scan_shrinks f2)) in Hs.
    pose proof (skip_ws_length r3) as Hw3.
    destruct (strip_prefix "}" (skip_ws r3)); [reflexivity|].
    destruct (strip_prefix "," (skip_ws r3)) as [rest|] eqn:E; [|reflexivity].
    apply strip_prefix_length in E. simpl in E.
    pose proof (skip_ws_length rest).
    apply IHd; lia.
Qed.

(** The fuel [json_loads] starts with is enough: more of it gives the same
    value, so [json_loads] never answers [Unmodelled] for want of fuel. *)
Lemma json_loads_fuel (s : string) (fuel : nat) :
  (2 * String.length s + 2 <= fuel)%nat ->
  scan_once fuel (skip_ws s)
  = scan_once (2 * String.length s + 2) (skip_ws s).
Proof.
  intros H. pose proof (skip_ws_length s).
  apply (proj1 (scan_fuel _ _)); lia.
Qed.

(** ** The five kinds *)

Lemma kind_display_classify (meta resp : value) (body : list (string * value)) :
  kind_display meta (VDict body) resp
  = (k <- classify body resp ;; display_of k meta body).
Proof.
  unfold kind_display, classify, request_type. simpl.
  destruct (dict_has "transcript" body); simpl.
  - unfold shown.
    destruct (py_str _); simpl; try reflexivity.
  - destruct (py_eq_str _ "inboundCall"); simpl.
    + unfold shown. destruct (py_str _); reflexivity.
    + destruct (py_eq_str _ "redirect"); simpl.
      * unfold redirect_n.
        destruct (py_get meta _ _) as [h| |]; simpl; try reflexivity.
        destruct (py_get h _ _) as [u| |]; simpl; try reflexivity.
        destruct (py_getitem u _) as [x| |]; simpl; try reflexivity.
        destruct (re_search _ x) as [m| |]; simpl; reflexivity.
      * destruct (py_truthy resp) as [[|]| |]; reflexivity.
Qed.

Lemma display_of_tag (k : kind) (meta : value) (body : list (string * value))
      (s : string) :
  display_of k meta body = Ok s -> String.prefix (kind_tag k) s = true.
Proof.
  destruct k; simpl; intros H.
  - bind_inv H. bind_inv H. now inversion H.
  - bind_inv H. bind_inv H. now inversion H.
  - bind_inv H. now inversion H.
  - now inversion H.
  - now inversion H.
Qed.

(** Only a dict request body gets past the chain. *)
Lemma kind_display_dict (meta body resp : value) (s : string) :
  kind_display meta body resp = Ok s -> exists d, body = VDict d.
Proof.
  unfold kind_display. destruct body; simpl; try discriminate; eauto.
  - destruct (is_substring _ _); discriminate.
  - destruct (existsb _ _); discriminate.
Qed.

(** C1: the kind of a record follows the five rules in order (transcript
    key: SPEECH; requestType inboundCall: CALL; requestType redirect: REDIR;
    non-empty responseBody: RESP; otherwise EVENT), first match wins.  The
    [if] chain is the display of the kind [classify] names; whenever it
    returns, the request body is a dict and what is shown starts with the tag
    of that kind; and a body with both a transcript and requestType
    inboundCall is shown as SPEECH. *)
Theorem kind_first_match_wins :
  (forall meta body resp,
      kind_display meta (VDict body) resp
      = (k <- classify body resp ;; display_of k meta body))
  /\ (forall meta body resp s,
         kind_display meta body resp = Ok s ->
         exists d k,
           body = VDict d
           /\ classify d resp = Ok k
           /\ display_of k meta d = Ok s
           /\ String.prefix (kind_tag k) s = true)
  /\ (forall meta body resp,
         dict_has "transcript" body = true ->
         py_eq_str (request_type body) "inboundCall" = true ->
         kind_display meta (VDict body) resp = display_of SPEECH meta body).
Proof.
  split; [intros; apply kind_display_classify|split].
  - intros meta body resp s Hs.
    destruct (kind_display_dict _ _ _ _ Hs) as [d ->].
    rewrite kind_display_classify in Hs. bind_step Hs k Hk.
    exists d, k. repeat split; auto. eapply display_of_tag; eassumption.
  - intros meta body resp Ht _. rewrite kind_display_classify.
    unfold classify. now rewrite Ht.
Qed.

(** A body with a transcript and requestType inboundCall is shown as
    SPEECH. *)
Example kind_first_match_wins_witness :
  kind_display (VDict [])
    (VDict [("requestType", VStr "inboundCall"); ("transcript", VStr "hi")])
    (VStr "")
  = Ok (text "SPEECH  reason=?  'hi'").
Proof.
  destruct kind_first_match_wins as (_ & _ & H).
  rewrite (H (VDict [])
             [("requestType", VStr "inboundCall"); ("transcript", VStr "hi")]
             (VStr "") eq_refl eq_refl).
  reflexivity.
Defined.

(** ** The redirect number *)

Lemma redirect_n_url (meta : list (string * value)) (u : string) :
  redirect_url meta = Some u -> redirect_n (VDict meta) = Ok (first_n u).
Proof.
  unfold redirect_url, redirect_n, first_n. simpl.
  destruct (dict_lookup "requestHeaders" meta) as [[]|]; try discriminate.
  - simpl.
    destruct (dict_lookup "url" entries) as [[| | | | |[|[] ?]|]|];
      try discriminate; intros H; inversion H; subst; reflexivity.
  - intros H; inversion H; subst. reflexivity.
Qed.



(** ** Response commands *)

Lemma Forall2_In_r {A B : Type} (R : A -> B -> Prop) (l : list A) (l' : list B)
      (y : B) :
  Forall2 R l l' -> In y l' -> exists x, In x l /\ R x y.
Proof.
  induction 1 as [|a b l l' Hab _ IH]; intros Hin; [destruct Hin|].
  destruct Hin as [->|Hin].
  - exists a; split; [now left|assumption].
  - destruct (IH Hin) as (x & Hx & Hr). exists x; split; [now right|assumption].
Qed.

Lemma Forall2_In_l {A B : Type} (R : A -> B -> Prop) (l : list A) (l' : list B)
      (x : A) :
  Forall2 R l l' -> In x l -> exists y, In y l' /\ R x y.
Proof.
  induction 1 as [|a b l l' Hab _ IH]; intros Hin; [destruct Hin|].
  destruct Hin as [->|Hin].
  - exists b; split; [now left|assumption].
  - destruct (IH Hin) as (y & Hy & Hr). exists y; split; [now right|assumption].
Qed.

(** Every name the two loops append comes from [command_name], in order. *)
Lemma keys_loop_names (cmd : value) (ks : list value) :
  forall acc names,
    keys_loop cmd ks acc = Ok names ->
    exists ns, names = (acc ++ ns)%list
               /\ Forall2 (fun k n => command_name cmd k = Ok n) ks ns.
Proof.
  induction ks as [|k ks IH]; simpl; intros acc names H.
  - inversion H; subst. exists []. split; [now rewrite app_nil_r|constructor].
  - bind_inv H. apply IH in H. destruct H as (ns & -> & F).
    exists (a :: ns). split; [now rewrite <- app_assoc|now constructor].
Qed.

Lemma cmds_loop_names (cmds : list value) :
  forall acc names,
    cmds_loop cmds acc = Ok names ->
    exists ns, names = (acc ++ ns)%list
               /\ forall cmd ks k,
                    In cmd cmds -> py_iter cmd = Ok ks -> In k ks ->
                    exists n, command_name cmd k = Ok n /\ In n ns.
Proof.
  induction cmds as [|c cmds IH]; simpl; intros acc names H.
  - inversion H; subst. exists []. split; [now rewrite app_nil_r|].
    intros ? ? ? [].
  - bind_inv H. bind_inv H.
    apply keys_loop_names in E0. destruct E0 as (ns1 & -> & F).
    apply IH in H. destruct H as (ns2 & -> & G).
    exists (ns1 ++ ns2)%list. split; [now rewrite app_assoc|].
    intros cmd ks k [->|Hin] Hit Hk.
    + rewrite E in Hit. inversion Hit; subst ks.
      destruct (Forall2_In_l _ _ _ k F Hk) as (n & Hn & Hc).
      exists n; split; [assumption|apply in_or_app; now left].
    + destruct (G cmd ks k Hin Hit Hk) as (n & Hc & Hn).
      exists n; split; [assumption|apply in_or_app; now right].
Qed.

Lemma dict_lookup_key (k : string) (d : list (string * value)) (v : value) :
  dict_lookup k d = Some v -> In (VStr k) (List.map (fun kv => VStr (fst kv)) d).
Proof.
  induction d as [|[k' v'] d IH]; simpl; [discriminate|].
  destruct (String.eqb k k') eqn:E.
  - apply String.eqb_eq in E. subst. now left.
  - intros H. right. now apply IH.
Qed.

Lemma strs_of_In (items : list value) (ss : list string) (s : string) :
  strs_of items = Ok ss -> In (VStr s) items -> In s ss.
Proof.
  revert ss. induction items as [|v items IH]; simpl; intros ss H Hin.
  - destruct Hin.
  - destruct v; try discriminate. bind_inv H. inversion H; subst.
    destruct Hin as [Heq|Hin].
    + inversion Heq; subst. now left.
    + right. now apply IH.
Qed.

Lemma command_name_play (cmd play : list (string * value)) (file : string) :
  dict_lookup "Play" cmd = Some (VDict play) ->
  play_file play = Some file ->
  command_name (VDict cmd) (VStr "Play") = Ok (VStr (play_name file)).
Proof.
  intros Hp Hf. unfold command_name, play_file, play_name, first_id in *.
  simpl. rewrite Hp. simpl.
  destruct (dict_lookup "file" play) as [[]|]; try discriminate;
    inversion Hf; subst; reflexivity.
Qed.

Lemma command_name_key (cmd : list (string * value)) (k : string) (v : value)
      (n : string) :
  dict_lookup k cmd = Some v ->
  name_of_key k v = Some n ->
  command_name (VDict cmd) (VStr k) = Ok (VStr n).
Proof.
  intros Hv Hn. unfold command_name, name_of_key in *. cbn [py_eq_str].
  destruct (String.eqb k "Play").
  { unfold py_getitem. rewrite Hv. cbn [bind].
    destruct v as [| | | | | |play]; try discriminate.
    unfold play_file in Hn. unfold py_get. cbn [bind].
    destruct (dict_lookup "file" play) as [[]|]; try discriminate;
      inversion Hn; reflexivity. }
  destruct (String.eqb k "TranscribeUtterance"); [now inversion Hn|].
  destruct (String.eqb k "Redirect"); [|now inversion Hn].
  unfold py_getitem. rewrite Hv. cbn [bind].
  destruct v as [| | | | | |redirect]; try discriminate.
  unfold action_url in Hn. unfold py_get. cbn [bind].
  destruct (dict_lookup "actionUrl" redirect) as [[]|]; try discriminate;
    inversion Hn; reflexivity.
Qed.

Lemma keys_loop_forward (cmd : value) (ks : list value) (ns : list string) :
  Forall2 (fun k n => command_name cmd k = Ok (VStr n)) ks ns ->
  forall acc, keys_loop cmd ks acc = Ok (acc ++ List.map VStr ns)%list.
Proof.
  induction 1 as [|k n ks ns Hk _ IH]; intros acc; cbn [keys_loop List.map].
  - now rewrite app_nil_r.
  - rewrite Hk. cbn [bind]. rewrite IH, <- app_assoc. reflexivity.
Qed.

Lemma cmds_loop_forward (cs : list value) (nss : list (list string)) :
  Forall2 (fun cmd ns =>
             exists ks, py_iter cmd = Ok ks
                        /\ Forall2 (fun k n => command_name cmd k = Ok (VStr n))
                                   ks ns)
          cs nss ->
  forall acc,
    cmds_loop cs acc = Ok (acc ++ List.map VStr (List.concat nss))%list.
Proof.
  induction 1 as [|cmd ns cs nss (ks & Hks & Hns) _ IH]; intros acc;
    cbn [cmds_loop List.concat List.map].
  - now rewrite app_nil_r.
  - rewrite Hks. cbn [bind]. rewrite (keys_loop_forward _ _ _ Hns). cbn [bind].
    rewrite IH, <- app_assoc, map_app. reflexivity.
Qed.

Lemma strs_of_strs (l : list string) : strs_of (List.map VStr l) = Ok l.
Proof.
  induction l as [|s l IH]; cbn [List.map strs_of]; [reflexivity|].
  now rewrite IH.
Qed.

Lemma names_of_command_loop (cmd : list (string * value)) (ns : list string) :
  names_of_command cmd ns ->
  exists ks, py_iter (VDict cmd) = Ok ks
             /\ Forall2 (fun k n => command_name (VDict cmd) k = Ok (VStr n))
                        ks ns.
Proof.
  intros H. eexists. split; [reflexivity|].
  unfold names_of_command in H.
  assert (forall d : list (string * value),
             Forall2 (fun kv n => exists v, dict_lookup (fst kv) cmd = Some v
                                            /\ name_of_key (fst kv) v = Some n)
                     d ns ->
             Forall2 (fun k n => command_name (VDict cmd) k = Ok (VStr n))
                     (List.map (fun kv => VStr (fst kv)) d) ns) as Hd.
  { clear H. intros d H.
    induction H as [|kv n d' ns' (v & Hv & Hn) _ IH]; cbn [List.map];
      constructor; [|exact IH].
    now apply (command_name_key _ _ v). }
  now apply Hd.
Qed.

Lemma dict_lookup_in (k : string) (d : list (string * value)) (v : value) :
  dict_lookup k d = Some v -> exists kv, In kv d /\ fst kv = k.
Proof.
  induction d as [|[k' v'] d IH]; simpl; [discriminate|].
  destruct (String.eqb k k') eqn:E.
  - apply String.eqb_eq in E. subst. intros _. exists (k', v'). auto.
  - intros H. destruct (IH H) as (kv & Hin & Hk). exists kv. auto.
Qed.

Lemma In_concat {A : Type} (x : A) (l : list A) (ls : list (list A)) :
  In l ls -> In x l -> In x (List.concat ls).
Proof. intros Hl Hx. apply in_concat. now exists l. Qed.

(** C3, as stated, fails: a responseBody that parses and holds a Play
    command next to something that is no command object gives the raw text,
    in which no command is named. *)
Lemma play_beside_number_counterexample :
  json_loads (text "[{'Play':{'file':'http://x?id=abc123&y=1'}}, 5]")
  = Ok (VList [VDict [("Play", VDict [("file", VStr "http://x?id=abc123&y=1")])];
               VInt 5])
  /\ response_part
       (VStr (text "[{'Play':{'file':'http://x?id=abc123&y=1'}}, 5]"))
     = Ok (" -> " ++ text "[{'Play':{'file':'http://x?id=abc123&y=1'}}, 5]")
  /\ is_substring "Play("
       (" -> " ++ text "[{'Play':{'file':'http://x?id=abc123&y=1'}}, 5]")
     = false.
Proof. repeat split; vm_compute; reflexivity. Qed.

(** C3, amended: when the responseBody decodes to a list of command
    objects, each of which can be named key by key (a Play or a Redirect
    holds an object whose [file] or [actionUrl] is a str or absent), a
    command with a key [Play] is rendered as [Play(<id>)], with [<id>] the
    first 24 characters of group 1 of the first match of [id=([^&]+)] in
    the [file] of the command's value (the empty string when absent), or of
    [?] without a match; the suffix is [" -> "] and the names of all
    commands joined by [" + "], that name among them. *)
Theorem play_command_rendered
        (resp : string) (cmds : list (list (string * value)))
        (nss : list (list string))
        (cmd play : list (string * value)) (file : string) :
  json_loads resp = Ok (VList (List.map VDict cmds)) ->
  Forall2 names_of_command cmds nss ->
  In cmd cmds ->
  dict_lookup "Play" cmd = Some (VDict play) ->
  play_file play = Some file ->
  command_name (VDict cmd) (VStr "Play") = Ok (VStr (play_name file))
  /\ play_name file = "Play(" ++ str_take 24 (first_id file) ++ ")"
  /\ (search match_id file = None -> play_name file = "Play(?)")
  /\ response_part (VStr resp)
     = Ok (" -> " ++ String.concat " + " (List.concat nss))
  /\ In (play_name file) (List.concat nss).
Proof.
  intros Hj Hn Hin Hp Hf.
  split; [exact (command_name_play _ _ _ Hp Hf)|].
  split; [reflexivity|].
  split; [intros Hs; unfold play_name, first_id; now rewrite Hs|].
  split.
  - unfold response_part, decode_commands. cbn [py_json_loads].
    rewrite Hj. cbn [bind py_iter].
    rewrite (cmds_loop_forward (List.map VDict cmds) nss).
    + cbn [bind app]. unfold py_join. now rewrite strs_of_strs.
    + clear Hj Hin. induction Hn as [|c ns cs nss' Hc _ IH]; cbn [List.map];
        constructor; [|exact IH].
      now apply names_of_command_loop.
  - destruct (Forall2_In_l _ _ _ cmd Hn Hin) as (ns & Hns & Hnames).
    apply (In_concat _ ns); [exact Hns|].
    destruct (dict_lookup_in _ _ _ Hp) as (kv & Hkv & Hk).
    destruct (Forall2_In_l _ _ _ kv Hnames Hkv) as (n & Hn' & v & Hv & Hname).
    rewrite Hk, Hp in Hv. inversion Hv; subst v.
    rewrite Hk in Hname. unfold name_of_key in Hname. cbn [String.eqb] in Hname.
    simpl in Hname. rewrite Hf in Hname. simpl in Hname.
    inversion Hname; subst n. exact Hn'.
Qed.

(** The responseBody [[{"Play":{"file":"http://x?id=abc123&y=1"}}]] gives
    the suffix [ -> Play(abc123)]. *)
Example play_command_rendered_witness :
  response_part (VStr (text "[{'Play':{'file':'http://x?id=abc123&y=1'}}]"))
  = Ok " -> Play(abc123)"
  /\ play_name "http://x?id=abc123&y=1" = "Play(abc123)".
Proof.
  destruct (play_command_rendered
              (text "[{'Play':{'file':'http://x?id=abc123&y=1'}}]")
              [[("Play", VDict [("file", VStr "http://x?id=abc123&y=1")])]]
              [["Play(abc123)"]]
              [("Play", VDict [("file", VStr "http://x?id=abc123&y=1")])]
              [("file", VStr "http://x?id=abc123&y=1")]
              "http://x?id=abc123&y=1")
    as (_ & _ & _ & H & _).
  - vm_compute. reflexivity.
  - constructor; [|constructor].
    constructor; [|constructor]. eexists. split; reflexivity.
  - now left.
  - reflexivity.
  - reflexivity.
  - split; [exact H|reflexivity].
Defined.

(** ** The fallback *)

Lemma raw_fallback_str (resp : string) :
  raw_fallback (VStr resp) = Ok (" -> " ++ str_take 80 resp).
Proof. reflexivity. Qed.

Lemma response_part_total (resp : string) :
  (forall e, response_part (VStr resp) <> Raise e)
  /\ (forall e, decode_commands (VStr resp) = Raise e ->
                response_part (VStr resp) = Ok (" -> " ++ str_take 80 resp))
  /\ (forall s, decode_commands (VStr resp) = Ok s ->
                response_part (VStr resp) = Ok s).
Proof.
  unfold response_part. rewrite raw_fallback_str.
  destruct (decode_commands (VStr resp)); simpl; repeat split;
    intros; try discriminate; congruence.
Qed.

(** The line of a record with an integer timestamp and a dict for its
    metadata. *)
Lemma event_line_record (t0 ts : Z) (l meta : list (string * value))
      (stamp : value) :
  dict_lookup "timestamp" l = Some stamp ->
  as_int stamp = Some ts ->
  metadata_of l = VDict meta ->
  event_line t0 (VDict l)
  = (kind <- kind_display (VDict meta) (request_body_of meta)
                          (response_body_of meta) ;;
     nonempty <- py_truthy (response_body_of meta) ;;
     parts <- (if nonempty
               then suffix <- response_part (response_body_of meta) ;;
                    Ok [offset_field (ts / 1000000 - t0); kind; suffix]
               else Ok [offset_field (ts / 1000000 - t0); kind]) ;;
     Ok (String.concat "  " parts)).
Proof.
  intros Hs Hi Hm. unfold event_line, metadata_of in *. simpl.
  rewrite Hs. simpl.
  assert (py_floordiv stamp 1000000 = Ok (ts / 1000000)) as ->.
  { destruct stamp; try discriminate; unfold py_floordiv; now rewrite Hi. }
  simpl. rewrite Hm. simpl.
  unfold request_body_of, response_body_of.
  destruct (kind_display _ _ _); reflexivity.
Qed.

(** C4: when the responseBody, a non-empty str, fails to parse as JSON, no
    exception leaves the decoding stage: the suffix is [" -> "] followed by the
    first 80 characters of the responseBody, and it is the last part of the
    record's line. *)
Theorem malformed_response_falls_back (resp : string) (e : exn) :
  json_loads resp = Raise e ->
  resp <> "" ->
  response_part (VStr resp) = Ok (" -> " ++ str_take 80 resp)
  /\ forall t0 ts l meta stamp display,
       dict_lookup "timestamp" l = Some stamp ->
       as_int stamp = Some ts ->
       metadata_of l = VDict meta ->
       response_body_of meta = VStr resp ->
       kind_display (VDict meta) (request_body_of meta) (VStr resp)
       = Ok display ->
       event_line t0 (VDict l)
       = Ok (String.concat "  " [offset_field (ts / 1000000 - t0); display;
                                 " -> " ++ str_take 80 resp]).
Proof.
  intros Hj Hne.
  assert (response_part (VStr resp) = Ok (" -> " ++ str_take 80 resp)) as Hr.
  { apply (proj1 (proj2 (response_part_total resp)) e).
    unfold decode_commands. simpl. now rewrite Hj. }
  split; [exact Hr|].
  intros t0 ts l meta stamp display Hs Hi Hm Hb Hk.
  rewrite (event_line_record _ _ _ _ _ Hs Hi Hm), Hb, Hk. simpl.
  destruct (String.eqb resp "") eqn:E;
    [apply String.eqb_eq in E; contradiction|].
  simpl. now rewrite Hr.
Qed.

(** The responseBody [not valid json] gives the suffix
    [ -> not valid json], on a line that is printed. *)
Example malformed_response_falls_back_witness :
  response_part (VStr "not valid json") = Ok " -> not valid json"
  /\ event_line 0
       (VDict [("timestamp", VInt 7000000);
               ("metadata", VDict [("responseBody", VStr "not valid json")])])
     = Ok "+   7s  RESP   -> not valid json".
Proof.
  destruct (malformed_response_falls_back "not valid json" JSONDecodeError
              eq_refl ltac:(discriminate)) as [H1 H2].
  split; [exact H1|].
  exact (H2 0 7000000
            [("timestamp", VInt 7000000);
             ("metadata", VDict [("responseBody", VStr "not valid json")])]
            [("responseBody", VStr "not valid json")]
            (VInt 7000000) "RESP" eq_refl eq_refl eq_refl eq_refl eq_refl).
Defined.

(** Past [json.loads] nothing in the [try] block leaves the model. *)
Lemma py_getitem_modelled (obj k : value) : py_getitem obj k <> Unmodelled.
Proof.
  unfold py_getitem. destruct obj; try discriminate.
  - destruct (as_int k); [destruct (index_list _ _)|]; discriminate.
  - destruct (as_int k); [destruct (index_list _ _)|]; discriminate.
  - destruct k; try discriminate. destruct (dict_lookup _ _); discriminate.
Qed.

Lemma py_get_modelled (obj : value) (key : string) (d : value) :
  py_get obj key d <> Unmodelled.
Proof. destruct obj; discriminate. Qed.

Lemma re_search_modelled (m : string -> option string) (v : value) :
  re_search m v <> Unmodelled.
Proof. destruct v; discriminate. Qed.

Ltac modelled_step H :=
  match goal with
  | |- bind ?r _ <> Unmodelled =>
      let x := fresh "x" in
      pose proof H as x;
      destruct r; simpl; [|discriminate|contradiction]; clear x
  end.

Lemma command_name_modelled (cmd k : value) :
  command_name cmd k <> Unmodelled.
Proof.
  unfold command_name.
  destruct (py_eq_str k "Play").
  { modelled_step (py_getitem_modelled cmd k).
    modelled_step (py_get_modelled a "file" (VStr "")).
    modelled_step (re_search_modelled match_id a0).
    discriminate. }
  destruct (py_eq_str k "TranscribeUtterance"); [discriminate|].
  destruct (py_eq_str k "Redirect"); [|discriminate].
  modelled_step (py_getitem_modelled cmd k).
  modelled_step (py_get_modelled a "actionUrl" (VStr "")).
  modelled_step (re_search_modelled match_n a0).
  discriminate.
Qed.

Lemma keys_loop_modelled (cmd : value) (ks : list value) :
  forall acc, keys_loop cmd ks acc <> Unmodelled.
Proof.
  induction ks as [|k ks IH]; simpl; intros acc; [discriminate|].
  pose proof (command_name_modelled cmd k).
  destruct (command_name cmd k); simpl; try discriminate; auto.
Qed.

Lemma cmds_loop_modelled (cmds : list value) :
  forall acc, cmds_loop cmds acc <> Unmodelled.
Proof.
  induction cmds as [|c cmds IH]; simpl; intros acc; [discriminate|].
  destruct (py_iter c) as [ks| |] eqn:Hk; simpl; try discriminate.
  - pose proof (keys_loop_modelled c ks acc).
    destruct (keys_loop c ks acc); simpl; try discriminate; auto.
  - destruct c; discriminate.
Qed.

Lemma decode_commands_modelled (resp : string) :
  decode_commands (VStr resp) = Unmodelled -> json_loads resp = Unmodelled.
Proof.
  unfold decode_commands. simpl.
  destruct (json_loads resp) as [cmds| |]; simpl; auto; try discriminate.
  destruct (py_iter cmds) as [cs| |] eqn:Hc; simpl; try discriminate.
  - pose proof (cmds_loop_modelled cs []).
    destruct (cmds_loop cs []) as [names| |]; simpl; try discriminate;
      [|contradiction].
    unfold py_join.
    assert (strs_of names <> Unmodelled) as Hs.
    { clear. induction names as [|[] names IH]; simpl; try discriminate.
      destruct (strs_of names); simpl; try discriminate. contradiction. }
    destruct (strs_of names); simpl; try discriminate. contradiction.
  - destruct cmds; discriminate.
Qed.

(** C10: for a str responseBody the decoding stage never raises, and it
    returns a suffix whenever [json.loads] is within the model.  Whatever
    is raised inside the [try] block, by [json.loads] or later, is answered by
    the raw-text suffix: so it is for a decoded value that is not a sequence
    ([5]), for a sequence of things that are not objects ([[1]]), and for a
    [Play] or [Redirect] whose value is not an object. *)
Theorem decoding_never_raises :
  (forall resp : string,
      (forall e, response_part (VStr resp) <> Raise e)
      /\ (json_loads resp <> Unmodelled ->
          exists s, response_part (VStr resp) = Ok s)
      /\ (forall e, decode_commands (VStr resp) = Raise e ->
                    response_part (VStr resp) = Ok (" -> " ++ str_take 80 resp))
      /\ (forall s, decode_commands (VStr resp) = Ok s ->
                    response_part (VStr resp) = Ok s))
  /\ (decode_commands (VStr "5") = Raise TypeError
      /\ response_part (VStr "5") = Ok " -> 5")
  /\ (decode_commands (VStr "[1]") = Raise TypeError
      /\ response_part (VStr "[1]") = Ok " -> [1]")
  /\ (decode_commands (VStr (text "[{'Play': 5}]")) = Raise AttributeError
      /\ response_part (VStr (text "[{'Play': 5}]"))
         = Ok (text " -> [{'Play': 5}]"))
  /\ (decode_commands (VStr (text "[{'Redirect': 'x'}]")) = Raise AttributeError
      /\ response_part (VStr (text "[{'Redirect': 'x'}]"))
         = Ok (text " -> [{'Redirect': 'x'}]")).
Proof.
  split.
  - intros resp. destruct (response_part_total resp) as (H1 & H2 & H3).
    repeat split; auto.
    intros Hj. pose proof (decode_commands_modelled resp) as Hm.
    destruct (decode_commands (VStr resp)) as [s|e|] eqn:Hd.
    + exists s. now apply H3.
    + eexists. now apply (H2 e).
    + now destruct Hj; apply Hm.
  - repeat split; vm_compute; reflexivity.
Qed.

(** ** Runs *)

Lemma io_bind_Ok {A B : Type} (m : io A) (k : A -> io B)
      (out : list string) (b : B) :
  io_bind m k = (out, Ok b) ->
  exists o1 a o2, m = (o1, Ok a) /\ k a = (o2, Ok b) /\ out = (o1 ++ o2)%list.
Proof.
  unfold io_bind. destruct m as [o1 [a| |]]; try discriminate.
  destruct (k a) as [o2 r] eqn:E. intros H; inversion H; subst.
  exists o1, a, o2. auto.
Qed.

Lemma io_bind_lift_Ok {A B : Type} (a : A) (k : A -> io B) :
  io_bind (lift (Ok a)) k = k a.
Proof. unfold io_bind, lift. now destruct (k a). Qed.

Lemma lift_Ok {A : Type} (r : result A) (out : list string) (a : A) :
  lift r = (out, Ok a) -> r = Ok a /\ out = [].
Proof. unfold lift. intros H; inversion H; auto. Qed.

(** Take the first step of a run that ended normally: [x] is what the step
    returned, [E] says so. *)
Ltac io_step H x E :=
  let o1 := fresh "o" in
  let o2 := fresh "o" in
  let Eo := fresh "Eo" in
  apply io_bind_Ok in H; destruct H as (o1 & x & o2 & E & H & Eo);
  subst.

Ltac lift_step H x E :=
  let Eo := fresh "Eo" in
  io_step H x E; apply lift_Ok in E; destruct E as [E Eo]; subst;
  rewrite ?app_nil_l in *.

Ltac print_step H :=
  let u := fresh "u" in
  let E := fresh "E" in
  io_step H u E; unfold print in E; inversion E; subst; clear E.

Lemma py_eq_str_r (a : value) (s : string) :
  py_eq a (VStr s) = Ok (py_eq_str a s).
Proof.
  destruct a; simpl; try reflexivity. now rewrite String.eqb_sym.
Qed.

(** ** Standard output *)

Lemma split_lf_nonempty (s : string) : split_lf s <> [].
Proof.
  induction s as [|c s IH]; simpl; [discriminate|].
  destruct (Ascii.eqb c LF); [discriminate|].
  destruct (split_lf s); discriminate.
Qed.

Lemma split_lf_app (a t : string) :
  split_lf (a ++ String LF t) = (split_lf a ++ split_lf t)%list.
Proof.
  induction a as [|c a IH]; [reflexivity|].
  cbn [append split_lf]. destruct (Ascii.eqb c LF) eqn:E.
  - now rewrite IH.
  - rewrite IH. pose proof (split_lf_nonempty a) as Hne.
    destruct (split_lf a) as [|p ps]; [contradiction|reflexivity].
Qed.

(** The lines of standard output are the pieces of the entries, entry by
    entry. *)
Lemma stdout_lines_flat (out : list string) :
  stdout_lines out = flat_map split_lf out.
Proof.
  unfold stdout_lines. induction out as [|e out IH]; [reflexivity|].
  cbn [stdout_text flat_map]. rewrite split_lf_app, <- IH.
  apply removelast_app, split_lf_nonempty.
Qed.

Lemma stdout_lines_app (a b : list string) :
  stdout_lines (a ++ b) = (stdout_lines a ++ stdout_lines b)%list.
Proof. rewrite !stdout_lines_flat. apply flat_map_app. Qed.

Lemma split_lf_free (s : string) : lf_free s -> split_lf s = [s].
Proof.
  unfold lf_free. induction s as [|c s IH]; [reflexivity|].
  cbn [all_chars split_lf]. intros H. apply andb_prop in H.
  destruct H as [Hc Hs]. unfold not_lf in Hc.
  destruct (Ascii.eqb c LF); [discriminate|]. now rewrite (IH Hs).
Qed.

(** An entry without a line feed is one line. *)
Lemma stdout_lines_free (out : list string) :
  Forall lf_free out -> stdout_lines out = out.
Proof.
  rewrite stdout_lines_flat.
  induction 1 as [|e out He _ IH]; [reflexivity|].
  cbn [flat_map]. now rewrite (split_lf_free _ He), IH.
Qed.

(** ** Sorting by timestamp *)

Lemma py_lt_int (a b : value) (x y : Z) :
  as_int a = Some x -> as_int b = Some y -> py_lt a b = Ok (x <? y).
Proof.
  destruct a, b; simpl; try discriminate; intros Ha Hb;
    inversion Ha; inversion Hb; reflexivity.
Qed.

Lemma insert_perm (x : value * value) (s : list (value * value)) :
  forall r, insert x s = Ok r -> Permutation (x :: s) r.
Proof.
  induction s as [|y s IH]; simpl; intros r H.
  - inversion H. apply Permutation_refl.
  - bind_inv H. destruct a.
    + bind_inv H. inversion H; subst.
      eapply perm_trans; [apply perm_swap|]. apply perm_skip. now apply IH.
    + inversion H. apply Permutation_refl.
Qed.

Lemma insertion_sort_perm (l : list (value * value)) :
  forall r, insertion_sort l = Ok r -> Permutation l r.
Proof.
  induction l as [|x l IH]; simpl; intros r H.
  - inversion H. constructor.
  - bind_inv H. apply insert_perm in H.
    eapply perm_trans; [apply perm_skip, IH, E|exact H].
Qed.

Lemma insert_int (x : value * value) (s : list (value * value)) :
  int_key x -> Forall int_key s ->
  exists r, insert x s = Ok r
            /\ (StronglySorted key_le s -> StronglySorted key_le r)
            /\ forall t, filter (key_is t) r = filter (key_is t) (x :: s).
Proof.
  intros [zx Hx]. induction s as [|y s IH]; intros Hs.
  - exists [x]. repeat split; auto.
    intros _. constructor; constructor.
  - inversion Hs as [|? ? [zy Hy] Hs']; subst.
    destruct (IH Hs') as (r & Hr & Hsorted & Hstable). simpl.
    rewrite (py_lt_int _ _ _ _ Hy Hx). simpl.
    destruct (zy <? zx) eqn:E.
    + rewrite Hr. simpl. eexists; split; [reflexivity|]. split.
      * intros S. inversion S as [|? ? S' F]; subst.
        constructor; [now apply Hsorted|].
        apply (Permutation_Forall (insert_perm _ _ _ Hr)).
        constructor; [|exact F].
        exists zy, zx. apply Z.ltb_lt in E. repeat split; auto; lia.
      * intros t. simpl. rewrite Hstable. simpl.
        assert (key_is t x = (zx =? t)) as -> by (unfold key_is; now rewrite Hx).
        assert (key_is t y = (zy =? t)) as -> by (unfold key_is; now rewrite Hy).
        destruct (zx =? t) eqn:E1, (zy =? t) eqn:E2; try reflexivity.
        apply Z.eqb_eq in E1, E2. apply Z.ltb_lt in E. lia.
    + eexists; split; [reflexivity|]. split; [|reflexivity].
      intros S. constructor; [exact S|].
      apply Z.ltb_ge in E.
      inversion S as [|? ? S' F]; subst. constructor.
      * exists zx, zy. auto.
      * eapply Forall_impl; [|exact F].
        intros a (u & v & Hu & Hv & Huv). rewrite Hy in Hu. inversion Hu; subst.
        exists zx, v. repeat split; auto; lia.
Qed.

Lemma insertion_sort_int (l : list (value * value)) :
  Forall int_key l ->
  exists r, insertion_sort l = Ok r
            /\ StronglySorted key_le r
            /\ forall t, filter (key_is t) r = filter (key_is t) l.
Proof.
  induction l as [|x l IH]; intros Hl.
  - exists []. repeat split; auto. constructor.
  - inversion Hl as [|? ? Hx Hl']; subst.
    destruct (IH Hl') as (s & Hs & Hsorted & Hstable).
    assert (Forall int_key s) as Hints
        by (apply (Permutation_Forall (insertion_sort_perm _ _ Hs)); exact Hl').
    destruct (insert_int x s Hx Hints) as (r & Hr & Hsr & Hst).
    exists r. simpl. rewrite Hs. simpl. split; [exact Hr|].
    split; [now apply Hsr|].
    intros t. rewrite Hst. simpl. now rewrite Hstable.
Qed.

Lemma keyed_spec (ls : list value) :
  forall ks, keyed ls = Ok ks -> List.map snd ks = ls /\ Forall keyed_ok ks.
Proof.
  induction ls as [|x ls IH]; simpl; intros ks H.
  - inversion H. split; constructor.
  - bind_inv H. bind_inv H. inversion H; subst.
    destruct (IH _ E0) as [Hm Hf]. simpl. split; [now rewrite Hm|].
    constructor; [exact E|exact Hf].
Qed.

Lemma keyed_total (ls : list value) :
  Forall (fun l => timestamp_of l <> None) ls -> exists ks, keyed ls = Ok ks.
Proof.
  induction 1 as [|x ls Hx _ [ks IH]]; simpl; [eauto|].
  unfold timestamp_of in Hx.
  destruct (py_getitem x (VStr "timestamp")); try contradiction.
  simpl. rewrite IH. simpl. eauto.
Qed.

Lemma keyed_ok_ts (a : value * value) :
  keyed_ok a -> timestamp_of (snd a) = as_int (fst a).
Proof. unfold keyed_ok, timestamp_of. now intros ->. Qed.

Lemma sorted_map_snd (r : list (value * value)) :
  Forall keyed_ok r -> StronglySorted key_le r ->
  StronglySorted ts_le (List.map snd r).
Proof.
  induction r as [|a r IH]; simpl; intros Hk Hs; [constructor|].
  inversion Hk as [|? ? Ha Hr]; subst. inversion Hs as [|? ? Hs' F]; subst.
  constructor; [now apply IH|].
  apply Forall_forall. intros l Hin. apply in_map_iff in Hin.
  destruct Hin as (b & <- & Hb).
  rewrite Forall_forall in F, Hr.
  destruct (F b Hb) as (x & y & Hx & Hy & Hxy).
  exists x, y. rewrite (keyed_ok_ts _ Ha), (keyed_ok_ts _ (Hr b Hb)). auto.
Qed.

Lemma filter_map_snd (t : Z) (r : list (value * value)) :
  Forall keyed_ok r ->
  filter (ts_is t) (List.map snd r) = List.map snd (filter (key_is t) r).
Proof.
  induction 1 as [|a r Ha _ IH]; simpl; [reflexivity|].
  unfold ts_is at 1, key_is at 1. rewrite (keyed_ok_ts _ Ha).
  destruct (as_int (fst a)) as [z|]; [destruct (z =? t)|]; simpl; now rewrite IH.
Qed.

Lemma sort_by_timestamp_perm (ls sorted : list value) :
  sort_by_timestamp ls = Ok sorted -> Permutation ls sorted.
Proof.
  unfold sort_by_timestamp. intros H. bind_inv H. bind_inv H.
  inversion H; subst. destruct (keyed_spec _ _ E) as [<- _].
  apply Permutation_map. now apply insertion_sort_perm.
Qed.

(** On records with integer timestamps the sort returns, and what it
    returns is ordered by timestamp and keeps records with equal timestamps
    in their order. *)
Lemma sort_by_timestamp_int (ls : list value) :
  Forall (fun l => timestamp_of l <> None) ls ->
  exists sorted,
    sort_by_timestamp ls = Ok sorted
    /\ Permutation ls sorted
    /\ StronglySorted ts_le sorted
    /\ forall t, filter (ts_is t) sorted = filter (ts_is t) ls.
Proof.
  intros Hts. destruct (keyed_total _ Hts) as [ks Hks].
  destruct (keyed_spec _ _ Hks) as [Hm Hok].
  assert (Forall int_key ks) as Hint.
  { apply Forall_forall. intros a Ha. rewrite Forall_forall in Hok, Hts.
    assert (In (snd a) ls) as Hin by (rewrite <- Hm; now apply in_map).
    specialize (Hts _ Hin). rewrite (keyed_ok_ts _ (Hok a Ha)) in Hts.
    unfold int_key. destruct (as_int (fst a)); [eauto|contradiction]. }
  destruct (insertion_sort_int _ Hint) as (r & Hr & Hsorted & Hstable).
  assert (Forall keyed_ok r) as Hokr
      by (apply (Permutation_Forall (insertion_sort_perm _ _ Hr)); exact Hok).
  assert (sort_by_timestamp ls = Ok (List.map snd r)) as Hsort
      by (unfold sort_by_timestamp; rewrite Hks; simpl; now rewrite Hr).
  exists (List.map snd r). split; [exact Hsort|].
  split; [now apply sort_by_timestamp_perm|].
  split; [now apply sorted_map_snd|].
  intros t. rewrite (filter_map_snd _ _ Hokr), Hstable,
    <- (filter_map_snd _ _ Hok). now rewrite Hm.
Qed.

Lemma ts_is_true (t : Z) (l : value) :
  ts_is t l = true <-> timestamp_of l = Some t.
Proof.
  unfold ts_is. destruct (timestamp_of l) as [z|]; [|split; discriminate].
  rewrite Z.eqb_eq. split; intros H; [now subst|now inversion H].
Qed.

(** A list is determined by its being ordered by timestamp and by the order
    of the records of each timestamp: two stable sorts of the same records
    agree, whatever their algorithm. *)
Lemma sorted_stable_unique (l1 : list value) :
  forall l2,
    Forall (fun l => timestamp_of l <> None) l1 ->
    Forall (fun l => timestamp_of l <> None) l2 ->
    StronglySorted ts_le l1 ->
    StronglySorted ts_le l2 ->
    (forall t, filter (ts_is t) l1 = filter (ts_is t) l2) ->
    l1 = l2.
Proof.
  induction l1 as [|x l1 IH]; intros l2 H1 H2 S1 S2 Hf.
  - destruct l2 as [|y l2]; [reflexivity|].
    inversion H2 as [|? ? Hy _]; subst.
    destruct (timestamp_of y) as [u|] eqn:Hu; [|contradiction].
    specialize (Hf u). simpl in Hf.
    rewrite (proj2 (ts_is_true u y) Hu) in Hf. discriminate.
  - inversion H1 as [|? ? Hx H1']; subst.
    destruct (timestamp_of x) as [t|] eqn:Ht; [|contradiction].
    destruct l2 as [|y l2].
    { specialize (Hf t). simpl in Hf.
      rewrite (proj2 (ts_is_true t x) Ht) in Hf. discriminate. }
    inversion H2 as [|? ? Hy H2']; subst.
    destruct (timestamp_of y) as [u|] eqn:Hu; [|contradiction].
    inversion S1 as [|? ? S1' F1]; subst. inversion S2 as [|? ? S2' F2]; subst.
    assert (u <= t) as Hut.
    { pose proof (Hf t) as Hft. simpl in Hft.
      rewrite (proj2 (ts_is_true t x) Ht) in Hft.
      assert (In x (filter (ts_is t) (y :: l2))) as Hin
          by (simpl; rewrite <- Hft; now left).
      apply filter_In in Hin. destruct Hin as [[->|Hin] _].
      - rewrite Ht in Hu. inversion Hu. lia.
      - rewrite Forall_forall in F2.
        destruct (F2 x Hin) as (a & b & Ha & Hb & Hab).
        rewrite Hu in Ha. rewrite Ht in Hb. inversion Ha; inversion Hb. lia. }
    assert (t <= u) as Htu.
    { pose proof (Hf u) as Hfu. simpl in Hfu.
      rewrite (proj2 (ts_is_true u y) Hu) in Hfu.
      assert (In y (filter (ts_is u) (x :: l1))) as Hin
          by (simpl; simpl in Hfu; rewrite Hfu; now left).
      apply filter_In in Hin. destruct Hin as [[->|Hin] _].
      - rewrite Ht in Hu. inversion Hu. lia.
      - rewrite Forall_forall in F1.
        destruct (F1 y Hin) as (a & b & Ha & Hb & Hab).
        rewrite Ht in Ha. rewrite Hu in Hb. inversion Ha; inversion Hb. lia. }
    assert (u = t) by lia. subst u.
    pose proof (Hf t) as Hft. simpl in Hft.
    rewrite (proj2 (ts_is_true t x) Ht), (proj2 (ts_is_true t y) Hu) in Hft.
    inversion Hft as [[Hxy Htail]]. f_equal.
    apply IH; auto.
    intros t'. specialize (Hf t'). simpl in Hf. rewrite Hxy in Hf.
    destruct (ts_is t' y); [now inversion Hf|exact Hf].
Qed.

(** So the model's sort returns what every stable sort by timestamp does. *)
Lemma sort_by_timestamp_any_stable (ls sorted other : list value) :
  Forall (fun l => timestamp_of l <> None) ls ->
  sort_by_timestamp ls = Ok sorted ->
  Permutation ls other ->
  StronglySorted ts_le other ->
  (forall t, filter (ts_is t) other = filter (ts_is t) ls) ->
  other = sorted.
Proof.
  intros Hts Hs Hp Hsorted Hstable.
  destruct (sort_by_timestamp_int _ Hts) as (s' & Hs' & Hp' & Hsorted' & Hstable').
  rewrite Hs in Hs'. inversion Hs'; subst s'.
  apply sorted_stable_unique; auto.
  - apply (Permutation_Forall Hp). exact Hts.
  - apply (Permutation_Forall Hp'). exact Hts.
  - intros t. now rewrite Hstable, Hstable'.
Qed.

(** ** The rendered timeline *)

Lemma print_events_lines (t0 : Z) (ls : list value) :
  forall lines,
    print_events t0 ls = (lines, Ok tt) ->
    Forall2 (fun l line => event_line t0 l = Ok line) ls lines.
Proof.
  induction ls as [|l ls IH]; intros lines H; cbn [print_events] in H.
  - inversion H. constructor.
  - lift_step H line E. print_step H.
    constructor; [exact E|]. now apply IH.
Qed.

Lemma filter_logs_nil (logs : list value) (call_id : value) :
  forall matching,
    filter_logs logs call_id = Ok matching -> matching <> [] -> logs <> [].
Proof.
  destruct logs; simpl; intros m H Hne; [inversion H; subst; contradiction|].
  discriminate.
Qed.

Lemma floordiv_Ok (stamp : value) (q : Z) :
  py_floordiv stamp 1000000 = Ok q ->
  exists ts, as_int stamp = Some ts /\ q = ts / 1000000.
Proof.
  destruct stamp; simpl; try discriminate; intros H; inversion H; eauto.
Qed.

(** Once the target is chosen and the records are filtered, the run is the
    rendering of the selected records. *)
Lemma main_selected (data : value) (argv pre : list string)
      (logs matching : list value) (call_id : value) :
  py_get data "logs" (VList []) = Ok (VList logs) ->
  logs <> [] ->
  choose_call_id (VList logs) argv = (pre, Ok call_id) ->
  filter_logs logs call_id = Ok matching ->
  main data argv
  = io_bind (pre, Ok tt) (fun _ => render_timeline matching call_id).
Proof.
  intros Hlogs Hne Hid Hf. unfold main. rewrite Hlogs, io_bind_lift_Ok.
  destruct logs as [|l0 logs']; [contradiction|].
  simpl py_truthy. rewrite io_bind_lift_Ok. cbn [negb]. rewrite Hid.
  unfold timeline. simpl py_iter. unfold io_bind at 1.
  now rewrite io_bind_lift_Ok, Hf, io_bind_lift_Ok.
Qed.

(** The run up to the filter, for a non-empty list of logs. *)
Lemma main_chosen (data : value) (argv pre : list string)
      (logs : list value) (call_id : value) :
  py_get data "logs" (VList []) = Ok (VList logs) ->
  logs <> [] ->
  choose_call_id (VList logs) argv = (pre, Ok call_id) ->
  main data argv
  = io_bind (pre, Ok tt)
      (fun _ => m <~ lift (filter_logs logs call_id) ;;
                render_timeline m call_id).
Proof.
  intros Hlogs Hne Hid. unfold main. rewrite Hlogs, io_bind_lift_Ok.
  destruct logs as [|l0 logs']; [contradiction|].
  simpl py_truthy. rewrite io_bind_lift_Ok. cbn [negb]. rewrite Hid.
  unfold timeline. simpl py_iter. unfold io_bind at 1.
  now rewrite io_bind_lift_Ok.
Qed.

Lemma main_filtered (data : value) (argv pre out : list string)
      (logs : list value) (call_id : value) :
  py_get data "logs" (VList []) = Ok (VList logs) ->
  logs <> [] ->
  choose_call_id (VList logs) argv = (pre, Ok call_id) ->
  main data argv = (out, Ok tt) ->
  exists m, filter_logs logs call_id = Ok m.
Proof.
  intros Hlogs Hne Hid Hmain.
  rewrite (main_chosen _ _ _ _ _ Hlogs Hne Hid) in Hmain.
  destruct (filter_logs logs call_id) as [m| |]; [eauto| |];
    unfold io_bind, lift in Hmain; discriminate.
Qed.

(** For a str call identifier the filter keeps the records whose [callId]
    is that str, and it returns only when every entry is a dict. *)
Lemma filter_logs_str (logs : list value) (c : string) :
  forall m,
    filter_logs logs (VStr c) = Ok m ->
    Forall is_record logs /\ m = filter (has_call_id c) logs.
Proof.
  induction logs as [|l logs IH]; simpl; intros m H.
  - inversion H. split; constructor.
  - bind_step H cid Hc. bind_step H same Hs. bind_step H rest Hr.
    inversion H; subst m. destruct (IH _ Hr) as [Hrec ->].
    destruct l as [| | | | | |r]; try discriminate.
    split; [constructor; [now eexists|exact Hrec]|].
    unfold py_get in Hc. rewrite py_eq_str_r in Hs. simpl.
    destruct (dict_lookup "callId" r); inversion Hc; subst cid;
      inversion Hs; reflexivity.
Qed.

Lemma render_nothing (call_id : value) (c : string) :
  py_str call_id = Ok c ->
  render_timeline [] call_id = (["No logs for callId=" ++ c], Ok tt).
Proof.
  intros H. unfold render_timeline.
  change (sort_by_timestamp []) with (Ok (@nil value)).
  now rewrite io_bind_lift_Ok, H, io_bind_lift_Ok.
Qed.

Lemma filter_logs_records (logs : list value) (call_id : string) :
  Forall is_record logs ->
  filter_logs logs (VStr call_id) = Ok (filter (has_call_id call_id) logs).
Proof.
  induction 1 as [|l logs [e ->] _ IH]; simpl; [reflexivity|].
  rewrite py_eq_str_r, IH. simpl.
  destruct (dict_lookup "callId" e); reflexivity.
Qed.

Lemma render_timeline_Ok (matching : list value) (call_id : value)
      (out : list string) :
  matching <> [] ->
  render_timeline matching call_id = (out, Ok tt) ->
  exists sorted first ts0 cid lines,
    sort_by_timestamp matching = Ok sorted
    /\ hd_error sorted = Some first
    /\ timestamp_of first = Some ts0
    /\ py_str call_id = Ok cid
    /\ Forall2 (fun l line => event_line (ts0 / 1000000) l = Ok line)
               sorted lines
    /\ out = header_line cid (List.length sorted) :: separator_line :: lines.
Proof.
  intros Hne H. unfold render_timeline in H.
  lift_step H sorted Hsort.
  destruct sorted as [|first rest].
  { apply sort_by_timestamp_perm, Permutation_sym, Permutation_nil in Hsort.
    contradiction. }
  lift_step H stamp Hstamp. lift_step H t0 Ht0.
  lift_step H cid Hcid. print_step H. print_step H.
  apply floordiv_Ok in Ht0. destruct Ht0 as (ts0 & Hts0 & ->).
  match type of H with
  | _ = (?lines, _) => exists (first :: rest), first, ts0, cid, lines
  end.
  repeat split; auto.
  - unfold timestamp_of. now rewrite Hstamp.
  - now apply print_events_lines.
Qed.

(** A run that gets past the selector prints the header, the separator and
    one line per sorted record. *)
Lemma main_rendered (data : value) (argv out pre : list string)
      (logs matching : list value) (call_id : value) :
  py_get data "logs" (VList []) = Ok (VList logs) ->
  choose_call_id (VList logs) argv = (pre, Ok call_id) ->
  filter_logs logs call_id = Ok matching ->
  matching <> [] ->
  main data argv = (out, Ok tt) ->
  exists sorted first ts0 cid lines,
    sort_by_timestamp matching = Ok sorted
    /\ hd_error sorted = Some first
    /\ timestamp_of first = Some ts0
    /\ py_str call_id = Ok cid
    /\ Forall2 (fun l line => event_line (ts0 / 1000000) l = Ok line)
               sorted lines
    /\ out = (pre ++ header_line cid (List.length sorted)
                  :: separator_line :: lines)%list.
Proof.
  intros Hlogs Hid Hf Hne Hmain.
  rewrite (main_selected _ _ _ _ _ _ Hlogs (filter_logs_nil _ _ _ Hf Hne) Hid Hf)
    in Hmain.
  unfold io_bind in Hmain.
  destruct (render_timeline matching call_id) as [o r] eqn:Hr.
  inversion Hmain; subst.
  destruct (render_timeline_Ok _ _ _ Hne Hr)
    as (sorted & first & ts0 & cid & lines & H1 & H2 & H3 & H4 & H5 & ->).
  exists sorted, first, ts0, cid, lines. auto 10.
Qed.

Lemma event_line_ts (t0 : Z) (l : value) (line : string) :
  event_line t0 l = Ok line -> timestamp_of l <> None.
Proof.
  unfold event_line, timestamp_of. intros H.
  bind_step H stamp Hstamp. bind_step H q Hq. rewrite Hstamp.
  destruct (floordiv_Ok _ _ Hq) as (ts & -> & _). discriminate.
Qed.

Lemma Forall2_Forall_l {A B : Type} (R : A -> B -> Prop) (P : A -> Prop)
      (l : list A) (l' : list B) :
  Forall2 R l l' -> (forall a b, R a b -> P a) -> Forall P l.
Proof. induction 1; intros H'; constructor; eauto. Qed.

(** The same run, with what the sort guarantees. *)
Lemma main_timeline (data : value) (argv out pre : list string)
      (logs matching : list value) (call_id : value) :
  py_get data "logs" (VList []) = Ok (VList logs) ->
  choose_call_id (VList logs) argv = (pre, Ok call_id) ->
  filter_logs logs call_id = Ok matching ->
  matching <> [] ->
  main data argv = (out, Ok tt) ->
  exists sorted first ts0 cid lines,
    hd_error sorted = Some first
    /\ timestamp_of first = Some ts0
    /\ py_str call_id = Ok cid
    /\ Forall2 (fun l line => event_line (ts0 / 1000000) l = Ok line)
               sorted lines
    /\ out = (pre ++ header_line cid (List.length matching)
                  :: separator_line :: lines)%list
    /\ Permutation matching sorted
    /\ StronglySorted ts_le sorted
    /\ forall t, filter (ts_is t) sorted = filter (ts_is t) matching.
Proof.
  intros Hlogs Hid Hf Hne Hmain.
  destruct (main_rendered _ _ _ _ _ _ _ Hlogs Hid Hf Hne Hmain)
    as (sorted & first & ts0 & cid & lines & Hs & Hhd & Hts0 & Hcid & Hl & ->).
  pose proof (sort_by_timestamp_perm _ _ Hs) as Hp.
  assert (Forall (fun l => timestamp_of l <> None) matching) as Hts.
  { apply (Permutation_Forall (Permutation_sym Hp)).
    apply (Forall2_Forall_l _ _ _ _ Hl). intros a b. apply event_line_ts. }
  destruct (sort_by_timestamp_int _ Hts) as (s' & Hs' & _ & Hsorted & Hstable).
  rewrite Hs in Hs'. inversion Hs'; subst s'.
  exists sorted, first, ts0, cid, lines.
  rewrite (Permutation_length Hp). repeat split; auto.
Qed.

Lemma event_line_renders (t0 : Z) (l : value) (line : string) :
  event_line t0 l = Ok line -> forall t0', exists line', event_line t0' l = Ok line'.
Proof.
  unfold event_line. intros H t0'.
  bind_step H stamp Hstamp. bind_step H q Hq.
  bind_step H meta Hmeta. bind_step H body Hbody. bind_step H resp Hresp.
  bind_step H kd Hkind. bind_step H nonempty Hne. bind_step H parts Hparts.
  rewrite Hstamp. simpl. rewrite Hq. simpl. rewrite Hmeta. simpl.
  rewrite Hbody. simpl. rewrite Hresp. simpl. rewrite Hkind. simpl.
  rewrite Hne. simpl. destruct nonempty.
  - bind_step Hparts suffix Hsuffix. rewrite Hsuffix. simpl. eauto.
  - simpl. eauto.
Qed.

Lemma print_events_total (t0 : Z) (ls : list value) :
  Forall renders ls -> exists lines, print_events t0 ls = (lines, Ok tt).
Proof.
  induction 1 as [|l ls [line0 Hl] _ [lines IH]]; cbn [print_events].
  - eauto.
  - destruct (event_line_renders _ _ _ Hl t0) as [line Hline].
    rewrite Hline, io_bind_lift_Ok. unfold print, io_bind at 1.
    rewrite IH. eauto.
Qed.

(** When the call identifier can be shown and every matching record
    renders, the run ends normally. *)
Lemma main_runs (data : value) (argv pre : list string)
      (logs matching : list value) (call_id : value) (cid : string) :
  py_get data "logs" (VList []) = Ok (VList logs) ->
  choose_call_id (VList logs) argv = (pre, Ok call_id) ->
  filter_logs logs call_id = Ok matching ->
  matching <> [] ->
  py_str call_id = Ok cid ->
  Forall renders matching ->
  exists out, main data argv = (out, Ok tt).
Proof.
  intros Hlogs Hid Hf Hne Hcid Hr.
  assert (Forall (fun l => timestamp_of l <> None) matching) as Hts.
  { eapply Forall_impl; [|exact Hr]. intros l [line Hl].
    now apply (event_line_ts _ _ _ Hl). }
  destruct (sort_by_timestamp_int _ Hts) as (sorted & Hs & Hp & _ & _).
  assert (Forall renders sorted) as Hrs
      by (apply (Permutation_Forall Hp); exact Hr).
  destruct sorted as [|first rest];
    [apply Permutation_sym, Permutation_nil in Hp; contradiction|].
  inversion Hrs as [|? ? [line Hfirst] _]; subst.
  pose proof Hfirst as Hfirst'. unfold event_line in Hfirst'.
  bind_step Hfirst' stamp Hstamp. bind_step Hfirst' q Hq.
  destruct (print_events_total q _ Hrs) as [lines Hlines].
  rewrite (main_selected _ _ _ _ _ _ Hlogs (filter_logs_nil _ _ _ Hf Hne) Hid Hf).
  unfold render_timeline.
  rewrite Hs, io_bind_lift_Ok, Hstamp, io_bind_lift_Ok, Hq, io_bind_lift_Ok,
    Hcid, io_bind_lift_Ok.
  unfold print, io_bind. rewrite Hlines. eauto.
Qed.

(** C5, as stated, fails: an event is one [print], not one line.  A record
    whose [from] holds a line feed is one matching record and leaves two
    lines on standard output after the separator. *)
Lemma line_feed_counterexample :
  main (VDict [("logs",
                VList [VDict [("callId", VStr "CA1"); ("timestamp", VInt 0);
                              ("metadata",
                               VDict [("requestBody",
                                       VDict [("requestType", VStr "inboundCall");
                                              ("from",
                                               VStr ("a" ++ String LF "b"))])])]])])
       ["parse_logs.py"; "CA1"]
  = (["Call: CA1  (1 events)"; dashes;
      "+   0s  CALL    from=a" ++ String LF "b to=?"], Ok tt)
  /\ List.length
       (filter (has_call_id "CA1")
          [VDict [("callId", VStr "CA1"); ("timestamp", VInt 0);
                  ("metadata",
                   VDict [("requestBody",
                           VDict [("requestType", VStr "inboundCall");
                                  ("from", VStr ("a" ++ String LF "b"))])])]])
     = 1%nat
  /\ stdout_lines
       ["Call: CA1  (1 events)"; dashes;
        "+   0s  CALL    from=a" ++ String LF "b to=?"]
     = ["Call: CA1  (1 events)"; dashes; "+   0s  CALL    from=a"; "b to=?"].
Proof. repeat split; vm_compute; reflexivity. Qed.

(** C5, amended: the matching records are the records of [logs] whose
    [callId] is the target, in input order.  When there is at least one and
    the run ends normally, there is one [print] per matching record after
    the header and the separator; they are the lines of the matching
    records in non-decreasing timestamp order, and records with the same
    timestamp are in their input order; each is one line of standard
    output when none of them holds a line feed.  The run does end normally
    when every entry of [logs] is an object and each matching record
    renders. *)
Theorem events_sorted_stable (data : value) (argv pre : list string)
        (logs : list value) (c : string) :
  py_get data "logs" (VList []) = Ok (VList logs) ->
  choose_call_id (VList logs) argv = (pre, Ok (VStr c)) ->
  filter (has_call_id c) logs <> [] ->
  (forall out,
      main data argv = (out, Ok tt) ->
      exists sorted t0 lines,
        out = (pre ++ header_line c (List.length lines)
                   :: separator_line :: lines)%list
        /\ List.length lines = List.length (filter (has_call_id c) logs)
        /\ Forall2 (fun l line => event_line t0 l = Ok line) sorted lines
        /\ Permutation (filter (has_call_id c) logs) sorted
        /\ StronglySorted ts_le sorted
        /\ (forall t, filter (ts_is t) sorted
                      = filter (ts_is t) (filter (has_call_id c) logs))
        /\ stdout_lines out
           = (stdout_lines (pre ++ [header_line c (List.length lines)])
                ++ separator_line :: stdout_lines lines)%list
        /\ (Forall lf_free lines -> stdout_lines lines = lines))
  /\ (Forall is_record logs ->
      Forall renders (filter (has_call_id c) logs) ->
      exists out, main data argv = (out, Ok tt)).
Proof.
  intros Hlogs Hid Hne.
  assert (logs <> []) as Hl by (intros ->; now apply Hne).
  split.
  - intros out Hmain.
    destruct (main_filtered _ _ _ _ _ _ Hlogs Hl Hid Hmain) as [m Hf].
    destruct (filter_logs_str _ _ _ Hf) as [_ ->].
    destruct (main_timeline _ _ _ _ _ _ _ Hlogs Hid Hf Hne Hmain)
      as (sorted & first & ts0 & cid & lines
          & _ & _ & Hcid & Hlines & -> & Hp & Hsorted & Hstable).
    inversion Hcid; subst cid.
    assert (List.length lines = List.length (filter (has_call_id c) logs))
      as Hlen.
    { rewrite <- (Forall2_length Hlines). symmetry.
      now apply Permutation_length. }
    exists sorted, (ts0 / 1000000), lines. rewrite Hlen.
    split; [reflexivity|]. split; [reflexivity|].
    repeat (split; [assumption|]). split.
    + change (pre ++ ?h :: separator_line :: lines)%list
        with (pre ++ [h] ++ [separator_line] ++ lines)%list.
      rewrite app_assoc, !stdout_lines_app. reflexivity.
    + apply stdout_lines_free.
  - intros Hrec Hr.
    apply (main_runs _ _ _ _ _ _ c Hlogs Hid
             (filter_logs_records _ _ Hrec) Hne eq_refl Hr).
Qed.

Example events_sorted_stable_witness :
  (exists sorted t0 lines,
      sample_out = ([] ++ header_line "CA1" (List.length lines)
                        :: separator_line :: lines)%list
      /\ List.length lines = List.length (filter (has_call_id "CA1") sample_logs)
      /\ Forall2 (fun l line => event_line t0 l = Ok line) sorted lines
      /\ Permutation (filter (has_call_id "CA1") sample_logs) sorted
      /\ StronglySorted ts_le sorted
      /\ (forall t, filter (ts_is t) sorted
                    = filter (ts_is t) (filter (has_call_id "CA1") sample_logs))
      /\ stdout_lines sample_out
         = (stdout_lines ([] ++ [header_line "CA1" (List.length lines)])
              ++ separator_line :: stdout_lines lines)%list
      /\ (Forall lf_free lines -> stdout_lines lines = lines))
  /\ exists out,
      main (VDict [("logs", VList sample_logs)]) ["parse_logs.py"; "CA1"]
      = (out, Ok tt).
Proof.
  destruct (events_sorted_stable (VDict [("logs", VList sample_logs)])
              ["parse_logs.py"; "CA1"] [] sample_logs "CA1"
              eq_refl eq_refl ltac:(discriminate))
    as [H1 H2].
  split.
  - apply H1. vm_compute. reflexivity.
  - apply H2.
    + repeat constructor; eexists; reflexivity.
    + repeat constructor; eexists; vm_compute; reflexivity.
Defined.

(** ** Lines *)

Lemma event_line_layout (t0 : Z) (l : value) (line : string) :
  event_line t0 l = Ok line -> line_layout t0 l line.
Proof.
  unfold event_line, line_layout. intros H.
  bind_step H stamp Hstamp. bind_step H q Hq.
  destruct (floordiv_Ok _ _ Hq) as (ts & Hts & ->).
  bind_step H meta Hmeta. bind_step H body Hbody. bind_step H resp Hresp.
  bind_step H kd Hkind. bind_step H nonempty Hne. bind_step H parts Hparts.
  inversion H; subst line. clear H.
  exists ts, meta, body, resp, kd.
  unfold timestamp_of. rewrite Hstamp.
  repeat (split; [assumption|]).
  destruct nonempty.
  - right. split; [assumption|].
    bind_step Hparts suffix Hsuffix. inversion Hparts; subst parts.
    exists suffix. split; [assumption|reflexivity].
  - left. split; [assumption|]. inversion Hparts; subst parts. reflexivity.
Qed.

Lemma layout_offset (t0 : Z) (l : value) (line : string) :
  line_layout t0 l line ->
  exists ts rest,
    timestamp_of l = Some ts
    /\ line = offset_field (ts / 1000000 - t0) ++ "  " ++ rest.
Proof.
  intros (ts & meta & body & resp & kind & Hts & _ & _ & _ & _ & H).
  exists ts. destruct H as [[_ ->]|[_ (suffix & _ & ->)]]; eauto.
Qed.

Lemma ts_le_head (first : value) (rest : list value) (ts0 : Z) :
  timestamp_of first = Some ts0 ->
  StronglySorted ts_le (first :: rest) ->
  Forall (ts_le first) (first :: rest).
Proof.
  intros Hts S. inversion S; subst. constructor; [|assumption].
  exists ts0, ts0. repeat split; auto. lia.
Qed.

Lemma Forall2_impl_In {A B : Type} (R Q : A -> B -> Prop)
      (l : list A) (l' : list B) :
  Forall2 R l l' ->
  (forall a b, In a l -> R a b -> Q a b) ->
  Forall2 Q l l'.
Proof.
  induction 1 as [|a b l l' Hab _ IH]; intros H; constructor.
  - apply H; [now left|exact Hab].
  - apply IH. intros. apply H; [now right|assumption].
Qed.

(** C6: in a rendered timeline every line starts with the offset field of
    [timestamp // 1000000 - t0], where [t0] is the same division of the
    first sorted record's timestamp, which is the earliest; every offset
    is at least 0 and the first line's offset is 0. *)
Theorem offsets_from_first (data : value) (argv out pre : list string)
        (logs matching : list value) (call_id : value) :
  py_get data "logs" (VList []) = Ok (VList logs) ->
  choose_call_id (VList logs) argv = (pre, Ok call_id) ->
  filter_logs logs call_id = Ok matching ->
  matching <> [] ->
  main data argv = (out, Ok tt) ->
  exists sorted first ts0 head lines,
    out = (pre ++ head :: separator_line :: lines)%list
    /\ Permutation matching sorted
    /\ hd_error sorted = Some first
    /\ timestamp_of first = Some ts0
    /\ Forall (ts_le first) sorted
    /\ Forall2 (fun l line =>
                  exists ts rest,
                    timestamp_of l = Some ts
                    /\ 0 <= ts / 1000000 - ts0 / 1000000
                    /\ line = offset_field (ts / 1000000 - ts0 / 1000000)
                              ++ "  " ++ rest)
               sorted lines
    /\ exists rest others, lines = (offset_field 0 ++ "  " ++ rest) :: others.
Proof.
  intros Hlogs Hid Hf Hne Hmain.
  destruct (main_timeline _ _ _ _ _ _ _ Hlogs Hid Hf Hne Hmain)
    as (sorted & first & ts0 & cid & lines
        & Hhd & Hts0 & _ & Hl & -> & Hp & Hsorted & _).
  destruct sorted as [|f rest]; [discriminate|].
  inversion Hhd; subst f. clear Hhd.
  pose proof (ts_le_head _ _ _ Hts0 Hsorted) as Hmin.
  exists (first :: rest), first, ts0,
    (header_line cid (List.length matching)), lines.
  repeat (split; [auto; fail|]).
  assert (forall l line,
             In l (first :: rest) ->
             event_line (ts0 / 1000000) l = Ok line ->
             exists ts rest0,
               timestamp_of l = Some ts
               /\ 0 <= ts / 1000000 - ts0 / 1000000
               /\ line = offset_field (ts / 1000000 - ts0 / 1000000)
                         ++ "  " ++ rest0) as Hline.
  { intros l line Hin He.
    destruct (layout_offset _ _ _ (event_line_layout _ _ _ He))
      as (ts & r & Hts & ->).
    exists ts, r. repeat split; auto.
    rewrite Forall_forall in Hmin.
    destruct (Hmin l Hin) as (x & y & Hx & Hy & Hxy).
    rewrite Hts0 in Hx. rewrite Hts in Hy. inversion Hx; inversion Hy; subst.
    pose proof (Z.div_le_mono x y 1000000 ltac:(lia) Hxy). lia. }
  split.
  - exact (Forall2_impl_In _ _ _ _ Hl Hline).
  - inversion Hl as [|l line ls lines' He Hrest]; subst.
    destruct (Hline first line (or_introl eq_refl) He) as (ts & r & Hts & _ & ->).
    rewrite Hts0 in Hts. inversion Hts; subst ts.
    rewrite Z.sub_diag. eauto.
Qed.

Example offsets_from_first_witness :
  exists sorted first ts0 head lines,
    sample_out = ([] ++ head :: separator_line :: lines)%list
    /\ Permutation sample_matching sorted
    /\ hd_error sorted = Some first
    /\ timestamp_of first = Some ts0
    /\ Forall (ts_le first) sorted
    /\ Forall2 (fun l line =>
                  exists ts rest,
                    timestamp_of l = Some ts
                    /\ 0 <= ts / 1000000 - ts0 / 1000000
                    /\ line = offset_field (ts / 1000000 - ts0 / 1000000)
                              ++ "  " ++ rest)
               sorted lines
    /\ exists rest others, lines = (offset_field 0 ++ "  " ++ rest) :: others.
Proof.
  apply (offsets_from_first (VDict [("logs", VList sample_logs)])
           ["parse_logs.py"; "CA1"] sample_out [] sample_logs sample_matching
           (VStr "CA1")).
  - reflexivity.
  - reflexivity.
  - reflexivity.
  - discriminate.
  - vm_compute. reflexivity.
Defined.

(** ** Runs without a timeline *)

Lemma choose_explicit (logs : value) (prog call_id : string)
      (rest : list string) :
  call_id <> "" ->
  choose_call_id logs (prog :: call_id :: rest) = ([], Ok (VStr call_id)).
Proof.
  intros H. unfold choose_call_id.
  destruct (String.eqb call_id "") eqn:E; [|reflexivity].
  apply String.eqb_eq in E. contradiction.
Qed.

Lemma filter_none {A : Type} (f : A -> bool) (l : list A) :
  Forall (fun a => f a = false) l -> filter f l = [].
Proof.
  induction 1 as [|a l Ha _ IH]; simpl; [reflexivity|]. now rewrite Ha.
Qed.

(** C7: on [{"logs": []}], and on a document without the key [logs], the
    run prints [No logs found.] and nothing else and ends normally; with an
    explicit call identifier that no record carries it prints
    [No logs for callId=<id>] and nothing else and ends normally. *)
Theorem empty_outcomes :
  (forall argv, run (text "{'logs': []}") argv = (["No logs found."], Ok tt))
  /\ (forall d argv,
         dict_lookup "logs" d = None ->
         main (VDict d) argv = (["No logs found."], Ok tt))
  /\ (forall d l0 logs prog call_id rest,
         dict_lookup "logs" d = Some (VList (l0 :: logs)) ->
         call_id <> "" ->
         Forall is_record (l0 :: logs) ->
         Forall (fun l => has_call_id call_id l = false) (l0 :: logs) ->
         main (VDict d) (prog :: call_id :: rest)
         = (["No logs for callId=" ++ call_id], Ok tt)).
Proof.
  split; [reflexivity|]. split.
  - intros d argv H. unfold main, py_get. now rewrite H.
  - intros d l0 logs prog call_id rest Hd Hne Hrec Hno.
    rewrite (main_selected (VDict d) _ [] (l0 :: logs) [] (VStr call_id)).
    + reflexivity.
    + unfold py_get. now rewrite Hd.
    + discriminate.
    + now apply choose_explicit.
    + now rewrite (filter_logs_records _ _ Hrec), (filter_none _ _ Hno).
Qed.

Example empty_outcomes_witness :
  run (text "{'logs': []}") ["parse_logs.py"] = (["No logs found."], Ok tt)
  /\ run "{}" ["parse_logs.py"; "CA1"] = (["No logs found."], Ok tt)
  /\ main (VDict [("logs", VList sample_logs)]) ["parse_logs.py"; "CA9"]
     = (["No logs for callId=CA9"], Ok tt).
Proof.
  destruct empty_outcomes as (H1 & H2 & H3).
  split; [apply H1|]. split; [apply (H2 [] ["parse_logs.py"; "CA1"] eq_refl)|].
  eapply (H3 [("logs", VList sample_logs)] _ _ "parse_logs.py" "CA9" []).
  - reflexivity.
  - discriminate.
  - repeat constructor; eexists; reflexivity.
  - repeat constructor.
Defined.

(** ** The layout of the output *)

(** What the two loops return: the names of each command, command by
    command, after what was there. *)
Lemma cmds_loop_structure (cmds : list value) :
  forall acc names,
    cmds_loop cmds acc = Ok names ->
    exists nvs,
      names = (acc ++ List.concat nvs)%list
      /\ Forall2 (fun cmd nv =>
                    exists ks, py_iter cmd = Ok ks
                               /\ Forall2 (fun k n => command_name cmd k = Ok n)
                                          ks nv)
                 cmds nvs.
Proof.
  induction cmds as [|c cmds IH]; simpl; intros acc names H.
  - inversion H; subst. exists []. split; [now rewrite app_nil_r|constructor].
  - bind_step H ks Hks. bind_step H names1 Hk.
    apply keys_loop_names in Hk. destruct Hk as (ns1 & -> & F).
    apply IH in H. destruct H as (nvs & -> & G).
    exists (ns1 :: nvs). split; [simpl; now rewrite app_assoc|].
    constructor; [now exists ks|exact G].
Qed.

Lemma strs_of_app (a b : list value) :
  forall ss,
    strs_of (a ++ b) = Ok ss ->
    exists sa sb, a = List.map VStr sa /\ strs_of b = Ok sb
                  /\ ss = (sa ++ sb)%list.
Proof.
  induction a as [|v a IH]; simpl; intros ss H.
  - exists [], ss. auto.
  - destruct v; try discriminate. bind_step H r Hr. inversion H; subst ss.
    destruct (IH _ Hr) as (sa & sb & -> & Hb & ->).
    exists (s :: sa), sb. auto.
Qed.

Lemma strs_of_concat (nvs : list (list value)) :
  forall ss,
    strs_of (List.concat nvs) = Ok ss ->
    exists nss, nvs = List.map (List.map VStr) nss /\ ss = List.concat nss.
Proof.
  induction nvs as [|nv nvs IH]; simpl; intros ss H.
  - inversion H. now exists [].
  - destruct (strs_of_app _ _ _ H) as (sa & sb & -> & Hb & ->).
    destruct (IH _ Hb) as (nss & -> & ->). now exists (sa :: nss).
Qed.

Lemma Forall2_map_r_inv {A B C : Type} (R : A -> C -> Prop) (f : B -> C)
      (l : list A) :
  forall l', Forall2 R l (List.map f l') -> Forall2 (fun a b => R a (f b)) l l'.
Proof.
  induction l as [|a l IH]; intros [|b l'] H; inversion H; subst;
    constructor; auto.
Qed.

Lemma Forall2_map_l_inv {A B C : Type} (R : C -> B -> Prop) (f : A -> C)
      (l : list A) :
  forall l', Forall2 R (List.map f l) l' -> Forall2 (fun a b => R (f a) b) l l'.
Proof.
  induction l as [|a l IH]; intros [|b l'] H; inversion H; subst;
    constructor; auto.
Qed.

(** A suffix that decodes is made of the names the loops give the commands,
    in order. *)
Lemma decode_commands_names (resp : value) (s : string) :
  decode_commands resp = Ok s ->
  exists cmds cs nss,
    py_json_loads resp = Ok cmds
    /\ py_iter cmds = Ok cs
    /\ Forall2 loop_names cs nss
    /\ s = " -> " ++ String.concat " + " (List.concat nss).
Proof.
  unfold decode_commands. intros H.
  bind_step H cmds Hc. bind_step H cs Hcs. bind_step H cmd_names Hn.
  bind_step H joined Hj. inversion H; subst s.
  unfold py_join in Hj. bind_step Hj ss Hss. inversion Hj; subst joined.
  apply cmds_loop_structure in Hn. destruct Hn as (nvs & -> & F).
  cbn [app] in Hss.
  destruct (strs_of_concat _ _ Hss) as (nss & -> & ->).
  exists cmds, cs, nss. repeat (split; [auto; fail|]). split; [|reflexivity].
  apply Forall2_map_r_inv in F.
  eapply Forall2_impl; [|exact F].
  intros cmd ns (ks & Hks & Hnames). exists ks. split; [exact Hks|].
  exact (Forall2_map_r_inv (fun k n => command_name cmd k = Ok n) VStr _ _
           Hnames).
Qed.

Lemma command_name_key_inv (cmd : list (string * value)) (k : string)
      (v : value) (n : string) :
  dict_lookup k cmd = Some v ->
  command_name (VDict cmd) (VStr k) = Ok (VStr n) ->
  name_of_key k v = Some n.
Proof.
  intros Hv H. unfold command_name, name_of_key in *. cbn [py_eq_str] in H.
  destruct (String.eqb k "Play").
  { unfold py_getitem in H. rewrite Hv in H. cbn [bind] in H.
    destruct v as [| | | | | |play]; try discriminate.
    unfold play_file, py_get in *. cbn [bind] in H.
    destruct (dict_lookup "file" play) as [[]|]; try discriminate;
      inversion H; reflexivity. }
  destruct (String.eqb k "TranscribeUtterance"); [now inversion H|].
  destruct (String.eqb k "Redirect"); [|now inversion H].
  unfold py_getitem in H. rewrite Hv in H. cbn [bind] in H.
  destruct v as [| | | | | |redirect]; try discriminate.
  unfold action_url, py_get in *. cbn [bind] in H.
  destruct (dict_lookup "actionUrl" redirect) as [[]|]; try discriminate;
    inversion H; reflexivity.
Qed.

Lemma dict_lookup_some (kv : string * value) (d : list (string * value)) :
  In kv d -> exists v, dict_lookup (fst kv) d = Some v.
Proof.
  induction d as [|[k' v'] d IH]; intros Hin; [destruct Hin|]. simpl.
  destruct (String.eqb (fst kv) k') eqn:E; [eauto|].
  destruct Hin as [<-|Hin]; [|auto].
  simpl in E. rewrite String.eqb_refl in E. discriminate.
Qed.

(** For a command object the names of the loop are the names of its keys. *)
Lemma loop_names_object (cmd : list (string * value)) (ns : list string) :
  loop_names (VDict cmd) ns <-> names_of_command cmd ns.
Proof.
  split; [|apply names_of_command_loop].
  intros (ks & Hks & F). inversion Hks; subst ks.
  apply Forall2_map_l_inv in F. unfold names_of_command.
  apply (Forall2_impl_In _ _ _ _ F). intros kv n Hin Hname.
  destruct (dict_lookup_some _ _ Hin) as [v Hv].
  exists v. split; [exact Hv|]. now apply (command_name_key_inv cmd).
Qed.

(** C8, as stated, fails: for a record whose responseBody decodes to one
    [TranscribeUtterance] command the printed line has two more spaces
    between the kind display [RESP] and the suffix [ -> Listen]. *)
Lemma second_separator_counterexample :
  run listen_input ["parse_logs.py"; "CA1"]
  = ([ "Call: CA1  (1 events)";
       dashes;
       "+   0s  RESP   -> Listen" ], Ok tt)
  /\ kind_display (VDict [("responseBody", VStr listen_response)])
                  (VDict []) (VStr listen_response)
     = Ok "RESP"
  /\ response_part (VStr listen_response)
     = Ok (" -> " ++ String.concat " + " ["Listen"])
  /\ "+   0s  RESP   -> Listen"
     <> line_without_second_separator 0 "RESP"
          (" -> " ++ String.concat " + " ["Listen"]).
Proof.
  repeat split; try (vm_compute; reflexivity).
  vm_compute. discriminate.
Qed.

(** C8, amended: before the event lines come the header
    [Call: <callId>  (<N> events)], with [N] the number of records of [logs]
    whose [callId] is the target, and a separator of 80 dashes; every event
    line is its parts joined by two spaces, the parts being the offset field
    [+<offset>s] with the offset right-aligned in 4 columns, the kind
    display and, when the responseBody is non-empty, the suffix; a suffix
    that decodes is [" -> "] followed by the names the loops give the
    commands, command by command and key by key in the order of the
    document, joined by [" + "]; for a command object these are the names
    of its keys ([Play(<id>)], [Listen], [Redirect(n=<n>)], or the key). *)
Theorem output_layout (data : value) (argv out pre : list string)
        (logs : list value) (c : string) :
  py_get data "logs" (VList []) = Ok (VList logs) ->
  choose_call_id (VList logs) argv = (pre, Ok (VStr c)) ->
  filter (has_call_id c) logs <> [] ->
  main data argv = (out, Ok tt) ->
  exists sorted first ts0 lines,
    out = (pre ++ header_line c (List.length (filter (has_call_id c) logs))
               :: separator_line :: lines)%list
    /\ (forall n, header_line c n
                  = "Call: " ++ c ++ "  (" ++ str_of_int (Z.of_nat n)
                    ++ " events)")
    /\ separator_line = dashes
    /\ String.length separator_line = 80%nat
    /\ Permutation (filter (has_call_id c) logs) sorted
    /\ StronglySorted ts_le sorted
    /\ hd_error sorted = Some first
    /\ timestamp_of first = Some ts0
    /\ Forall2 (line_layout (ts0 / 1000000)) sorted lines
    /\ (forall z, offset_field z = "+" ++ rjust 4 (str_of_int z) ++ "s")
    /\ (forall resp s,
           decode_commands resp = Ok s ->
           response_part resp = Ok s
           /\ exists cmds cs nss,
                py_json_loads resp = Ok cmds
                /\ py_iter cmds = Ok cs
                /\ Forall2 loop_names cs nss
                /\ s = " -> " ++ String.concat " + " (List.concat nss))
    /\ (forall cmd ns, loop_names (VDict cmd) ns <-> names_of_command cmd ns).
Proof.
  intros Hlogs Hid Hne Hmain.
  assert (logs <> []) as Hl by (intros ->; now apply Hne).
  destruct (main_filtered _ _ _ _ _ _ Hlogs Hl Hid Hmain) as [m Hf].
  destruct (filter_logs_str _ _ _ Hf) as [_ ->].
  destruct (main_timeline _ _ _ _ _ _ _ Hlogs Hid Hf Hne Hmain)
    as (sorted & first & ts0 & cid & lines
        & Hhd & Hts0 & Hcid & Hlines & -> & Hp & Hsorted & _).
  inversion Hcid; subst cid.
  exists sorted, first, ts0, lines.
  repeat (split; [auto; fail|]).
  split.
  - apply (Forall2_impl_In _ _ _ _ Hlines). intros l line _.
    apply event_line_layout.
  - split; [reflexivity|]. split; [|apply loop_names_object].
    intros resp s Hd. split; [|now apply decode_commands_names].
    unfold response_part. now rewrite Hd.
Qed.

Example output_layout_witness :
  exists sorted first ts0 lines,
    sample_out
    = ([] ++ header_line "CA1"
               (List.length (filter (has_call_id "CA1") sample_logs))
          :: separator_line :: lines)%list
    /\ (forall n, header_line "CA1" n
                  = "Call: " ++ "CA1" ++ "  (" ++ str_of_int (Z.of_nat n)
                    ++ " events)")
    /\ separator_line = dashes
    /\ String.length separator_line = 80%nat
    /\ Permutation (filter (has_call_id "CA1") sample_logs) sorted
    /\ StronglySorted ts_le sorted
    /\ hd_error sorted = Some first
    /\ timestamp_of first = Some ts0
    /\ Forall2 (line_layout (ts0 / 1000000)) sorted lines
    /\ (forall z, offset_field z = "+" ++ rjust 4 (str_of_int z) ++ "s")
    /\ (forall resp s,
           decode_commands resp = Ok s ->
           response_part resp = Ok s
           /\ exists cmds cs nss,
                py_json_loads resp = Ok cmds
                /\ py_iter cmds = Ok cs
                /\ Forall2 loop_names cs nss
                /\ s = " -> " ++ String.concat " + " (List.concat nss))
    /\ (forall cmd ns, loop_names (VDict cmd) ns <-> names_of_command cmd ns).
Proof.
  apply (output_layout (VDict [("logs", VList sample_logs)])
           ["parse_logs.py"; "CA1"] sample_out [] sample_logs "CA1").
  - reflexivity.
  - reflexivity.
  - discriminate.
  - vm_compute. reflexivity.
Defined.

(** ** Reads without a default *)

Lemma py_getitem_first (x : value) (rest : list value) :
  py_getitem (VList (x :: rest)) (VInt 0) = Ok x.
Proof.
  unfold py_getitem, index_list. cbn [as_int Z.ltb Z.compare Z.leb andb].
  assert ((0 <? Z.of_nat (List.length (x :: rest))) = true) as ->
      by (apply Z.ltb_lt; simpl List.length; lia).
  reflexivity.
Qed.

Lemma py_getitem_first_char (c : ascii) (s : string) :
  py_getitem (VStr (String c s)) (VInt 0) = Ok (VStr (String c "")).
Proof.
  unfold py_getitem, index_list. cbn [as_int Z.ltb Z.compare Z.leb andb].
  change (chars (String c s)) with (VStr (String c "") :: chars s).
  assert ((0 <? Z.of_nat (List.length (VStr (String c "") :: chars s))) = true)
    as -> by (apply Z.ltb_lt; simpl List.length; lia).
  reflexivity.
Qed.

Lemma has_first_returns (u : value) :
  lacks_first u \/ exists x, py_getitem u (VInt 0) = Ok x.
Proof.
  destruct u as [| | | |[|c s]|[|x l]|d]; try (left; exact I); right;
    eexists; [apply py_getitem_first_char|apply py_getitem_first].
Qed.

Lemma lacks_first_raises (u : value) :
  lacks_first u -> exists e, py_getitem u (VInt 0) = Raise e.
Proof.
  destruct u as [| | | |[|c s]|[|x l]|d]; simpl; intros H;
    try contradiction; eauto.
Qed.

Lemma kind_display_url (meta body headers : list (string * value))
      (resp url : value) (e : exn) :
  classify body resp = Ok REDIR ->
  dict_lookup "requestHeaders" meta = Some (VDict headers) ->
  dict_lookup "url" headers = Some url ->
  py_getitem url (VInt 0) = Raise e ->
  kind_display (VDict meta) (VDict body) resp = Raise e.
Proof.
  intros Hk Hh Hu He. rewrite kind_display_classify, Hk.
  cbn [bind display_of]. unfold redirect_n, py_get. rewrite Hh.
  cbn [bind]. rewrite Hu. cbn [bind]. now rewrite He.
Qed.

Lemma url_line (t0 : Z) (url l : value) (e : exn) :
  redirect_with_url url l ->
  py_getitem url (VInt 0) = Raise e ->
  (forall ts, timestamp_of l = Some ts -> event_line t0 l = Raise e)
  /\ forall line, event_line t0 l <> Ok line.
Proof.
  intros (r & meta & body & headers & -> & Hm & Hb & Hk & Hh & Hu) He.
  pose proof (kind_display_url _ _ _ _ _ _ Hk Hh Hu He) as Hkd.
  assert (forall stamp q,
             py_getitem (VDict r) (VStr "timestamp") = Ok stamp ->
             py_floordiv stamp 1000000 = Ok q ->
             event_line t0 (VDict r) = Raise e) as Hraise.
  { intros stamp q Hs Hq. unfold event_line. rewrite Hs. cbn [bind].
    rewrite Hq. cbn [bind]. unfold metadata_of in Hm. unfold py_get at 1.
    rewrite Hm. cbn [bind]. unfold request_body_of in Hb.
    unfold py_get at 1. rewrite Hb. cbn [bind]. unfold py_get at 1.
    cbn [bind]. unfold response_body_of in Hkd. now rewrite Hkd. }
  split.
  - intros ts Hts. unfold timestamp_of in Hts.
    destruct (py_getitem (VDict r) (VStr "timestamp")) as [stamp| |] eqn:Hs;
      try discriminate.
    apply (Hraise stamp (ts / 1000000) eq_refl).
    destruct stamp; try discriminate; unfold py_floordiv; now rewrite Hts.
  - intros line H. pose proof H as H'. unfold event_line in H'.
    bind_step H' stamp Hs. bind_step H' q Hq.
    rewrite (Hraise _ _ Hs Hq) in H. discriminate.
Qed.

Lemma filter_logs_is_record (logs : list value) (call_id : value) :
  forall matching,
    filter_logs logs call_id = Ok matching -> Forall is_record matching.
Proof.
  induction logs as [|l logs IH]; simpl; intros m H.
  - inversion H. constructor.
  - bind_step H cid Hc. bind_step H same Hs. bind_step H rest Hr.
    inversion H; subst m. specialize (IH _ Hr).
    destruct same; [|exact IH]. constructor; [|exact IH].
    destruct l; try discriminate. now eexists.
Qed.

Lemma keyed_missing (ls : list value) (e : list (string * value)) :
  Forall is_record ls ->
  In (VDict e) ls ->
  dict_lookup "timestamp" e = None ->
  keyed ls = Raise KeyError.
Proof.
  induction 1 as [|l ls [e' ->] _ IH]; intros Hin Hno; [destruct Hin|].
  simpl. destruct (dict_lookup "timestamp" e') as [k|] eqn:Hk.
  - simpl. destruct Hin as [Heq|Hin].
    + inversion Heq; subst. congruence.
    + now rewrite (IH Hin Hno).
  - reflexivity.
Qed.

(** C9, as stated, fails: a [requestHeaders.url] that is a non-empty str is
    present and is no non-empty list, and nothing is raised: its element 0
    is its first character, and the run ends normally. *)
Lemma str_url_counterexample :
  main (VDict [("logs", VList [
          VDict [("callId", VStr "CA1"); ("timestamp", VInt 0);
                 ("metadata",
                  VDict [("requestBody",
                          VDict [("requestType", VStr "redirect")]);
                         ("requestHeaders",
                          VDict [("url", VStr "https://x/?n=3")])])]])])
       ["parse_logs.py"; "CA1"]
  = (["Call: CA1  (1 events)"; dashes; "+   0s  REDIR   n=?"], Ok tt)
  /\ redirect_with_url (VStr "https://x/?n=3")
       (VDict [("callId", VStr "CA1"); ("timestamp", VInt 0);
               ("metadata",
                VDict [("requestBody",
                        VDict [("requestType", VStr "redirect")]);
                       ("requestHeaders",
                        VDict [("url", VStr "https://x/?n=3")])])])
  /\ (forall x l, VStr "https://x/?n=3" <> VList (x :: l)).
Proof.
  split; [vm_compute; reflexivity|]. split; [|discriminate].
  eexists _, _, _, _. repeat split; reflexivity.
Qed.

(** C9, amended: two reads have no default.  A matching record without a
    [timestamp] key makes the run end in a [KeyError] with nothing printed
    once the call is chosen.  A REDIR record whose [requestHeaders.url] is
    present must have an element 0, that is, be a non-empty list or a
    non-empty str: an empty list raises an [IndexError] where the line would
    be built; so does, with some exception, every [url] that is neither a
    non-empty list nor a non-empty str, and a run with such a record among
    the matching ones does not end normally; every other [url] has an
    element 0 and reading it raises nothing. *)
Theorem reads_without_default :
  (forall data argv pre logs matching call_id e,
      py_get data "logs" (VList []) = Ok (VList logs) ->
      choose_call_id (VList logs) argv = (pre, Ok call_id) ->
      filter_logs logs call_id = Ok matching ->
      In (VDict e) matching ->
      dict_lookup "timestamp" e = None ->
      main data argv = (pre, Raise KeyError))
  /\ (forall t0 l ts,
         redirect_with_url (VList []) l ->
         timestamp_of l = Some ts ->
         event_line t0 l = Raise IndexError)
  /\ (forall t0 url l ts,
         redirect_with_url url l ->
         lacks_first url ->
         timestamp_of l = Some ts ->
         exists e, event_line t0 l = Raise e)
  /\ (forall data argv pre logs matching call_id url l,
         py_get data "logs" (VList []) = Ok (VList logs) ->
         choose_call_id (VList logs) argv = (pre, Ok call_id) ->
         filter_logs logs call_id = Ok matching ->
         In l matching ->
         redirect_with_url url l ->
         lacks_first url ->
         snd (main data argv) <> Ok tt)
  /\ (forall url,
         lacks_first url \/ exists x, py_getitem url (VInt 0) = Ok x).
Proof.
  split; [|split; [|split; [|split; [|exact has_first_returns]]]].
  - intros data argv pre logs matching call_id e Hlogs Hid Hf Hin Hno.
    assert (matching <> []) as Hne by (intros ->; destruct Hin).
    rewrite (main_selected _ _ _ _ _ _ Hlogs
               (filter_logs_nil _ _ _ Hf Hne) Hid Hf).
    unfold render_timeline, sort_by_timestamp.
    rewrite (keyed_missing _ e (filter_logs_is_record _ _ _ Hf) Hin Hno).
    unfold io_bind, lift. simpl. now rewrite app_nil_r.
  - intros t0 l ts Hbad Hts.
    now apply (proj1 (url_line t0 _ l IndexError Hbad eq_refl) ts).
  - intros t0 url l ts Hbad Hlack Hts.
    destruct (lacks_first_raises _ Hlack) as [e He].
    exists e. now apply (proj1 (url_line t0 _ l e Hbad He) ts).
  - intros data argv pre logs matching call_id url l
           Hlogs Hid Hf Hin Hbad Hlack Hend.
    destruct (main data argv) as [out r] eqn:Hmain. simpl in Hend. subst r.
    assert (matching <> []) as Hne by (intros ->; destruct Hin).
    destruct (main_timeline _ _ _ _ _ _ _ Hlogs Hid Hf Hne Hmain)
      as (sorted & first & ts0 & cid & lines
          & _ & _ & _ & Hl & _ & Hp & _ & _).
    destruct (Forall2_In_l _ _ _ l Hl (Permutation_in _ Hp Hin))
      as (line & _ & Hline).
    destruct (lacks_first_raises _ Hlack) as [e He].
    exact (proj2 (url_line _ _ _ e Hbad He) _ Hline).
Qed.

Example reads_without_default_witness :
  main (VDict [("logs", VList [VDict [("callId", VStr "CA1")]])])
       ["parse_logs.py"; "CA1"]
  = ([], Raise KeyError)
  /\ event_line 0
       (VDict [("callId", VStr "CA1"); ("timestamp", VInt 0);
               ("metadata",
                VDict [("requestBody", VDict [("requestType", VStr "redirect")]);
                       ("requestHeaders", VDict [("url", VList [])])])])
     = Raise IndexError
  /\ main (VDict [("logs", VList [
            VDict [("callId", VStr "CA1"); ("timestamp", VInt 0);
                   ("metadata",
                    VDict [("requestBody",
                            VDict [("requestType", VStr "redirect")]);
                           ("requestHeaders", VDict [("url", VList [])])])]])])
          ["parse_logs.py"; "CA1"]
     = ([ "Call: CA1  (1 events)";
          dashes ],
        Raise IndexError).
Proof.
  destruct reads_without_default as (H1 & H2 & _ & _ & _).
  split; [|split].
  - apply (H1 (VDict [("logs", VList [VDict [("callId", VStr "CA1")]])])
              ["parse_logs.py"; "CA1"] [] [VDict [("callId", VStr "CA1")]]
              [VDict [("callId", VStr "CA1")]] (VStr "CA1")
              [("callId", VStr "CA1")]).
    + reflexivity.
    + reflexivity.
    + reflexivity.
    + now left.
    + reflexivity.
  - apply (H2 0 _ 0); [|reflexivity].
    eexists _, _, _, _. repeat split; reflexivity.
  - vm_compute. reflexivity.
Defined.

(** * More of the script *)

(** ** The selection *)

(** X1: with a str call identifier, a run that ends normally renders the
    records whose [callId] is that identifier and no other: either none has
    it and the only line after the choice is [No logs for callId=<id>], or
    the rendered records are a rearrangement of exactly those records. *)
Theorem only_the_selected_call
        (data : value) (argv pre out : list string)
        (logs : list value) (c : string) :
  py_get data "logs" (VList []) = Ok (VList logs) ->
  logs <> [] ->
  choose_call_id (VList logs) argv = (pre, Ok (VStr c)) ->
  main data argv = (out, Ok tt) ->
  (filter (has_call_id c) logs = []
   /\ out = (pre ++ [no_logs_line c])%list)
  \/ (exists sorted t0 lines,
         out = (pre ++ header_line c (List.length sorted)
                    :: separator_line :: lines)%list
         /\ Forall2 (fun l line => event_line t0 l = Ok line) sorted lines
         /\ Permutation (filter (has_call_id c) logs) sorted
         /\ forall l, In l sorted <-> In l logs /\ has_call_id c l = true).
Proof.
  intros Hlogs Hne Hid Hmain.
  destruct (main_filtered _ _ _ _ _ _ Hlogs Hne Hid Hmain) as [m Hf].
  destruct (filter_logs_str _ _ _ Hf) as [_ ->].
  destruct (filter (has_call_id c) logs) as [|x m] eqn:Hm.
  - left. split; [reflexivity|].
    rewrite (main_selected _ _ _ _ _ _ Hlogs Hne Hid Hf) in Hmain.
    rewrite (render_nothing (VStr c) c eq_refl) in Hmain.
    unfold io_bind in Hmain. now inversion Hmain.
  - right.
    destruct (main_rendered _ _ _ _ _ _ _ Hlogs Hid Hf ltac:(discriminate) Hmain)
      as (sorted & first & ts0 & cid & lines & Hs & _ & _ & Hcid & Hl & ->).
    inversion Hcid; subst cid.
    pose proof (sort_by_timestamp_perm _ _ Hs) as Hp.
    exists sorted, (ts0 / 1000000), lines.
    split; [reflexivity|]. split; [exact Hl|]. split; [exact Hp|].
    intros l. split.
    + intros Hin. apply (Permutation_in _ (Permutation_sym Hp)) in Hin.
      rewrite <- Hm in Hin. now apply filter_In in Hin.
    + intros [Hin Hc]. apply (Permutation_in _ Hp). rewrite <- Hm.
      apply filter_In. auto.
Qed.

Example only_the_selected_call_witness :
  (filter (has_call_id "CA1") sample_logs = []
   /\ sample_out = ([] ++ [no_logs_line "CA1"])%list)
  \/ (exists sorted t0 lines,
         sample_out = ([] ++ header_line "CA1" (List.length sorted)
                          :: separator_line :: lines)%list
         /\ Forall2 (fun l line => event_line t0 l = Ok line) sorted lines
         /\ Permutation (filter (has_call_id "CA1") sample_logs) sorted
         /\ forall l, In l sorted
                      <-> In l sample_logs /\ has_call_id "CA1" l = true).
Proof.
  apply (only_the_selected_call (VDict [("logs", VList sample_logs)])
           ["parse_logs.py"; "CA1"] [] sample_out sample_logs "CA1").
  - reflexivity.
  - discriminate.
  - reflexivity.
  - vm_compute. reflexivity.
Defined.

(** ** Offsets down the page *)

Lemma StronglySorted_weaken {A : Type} (R Q : A -> A -> Prop) (l : list A) :
  (forall a b, R a b -> Q a b) -> StronglySorted R l -> StronglySorted Q l.
Proof.
  intros H. induction 1 as [|a l _ IH F]; constructor; [exact IH|].
  eapply Forall_impl; [|exact F]. intros b. apply H.
Qed.

Lemma ts_le_offset (t0 : Z) (a b : value) : ts_le a b -> offset_le t0 a b.
Proof.
  intros (x & y & Hx & Hy & Hxy). unfold offset_le, offset_of.
  rewrite Hx, Hy.
  pose proof (Z.div_le_mono x y 1000000 ltac:(lia) Hxy). lia.
Qed.

Lemma event_line_offset (t0 : Z) (l : value) (line : string) :
  event_line t0 l = Ok line -> starts_with_offset t0 l line.
Proof.
  intros H.
  destruct (layout_offset _ _ _ (event_line_layout _ _ _ H))
    as (ts & rest & Hts & ->).
  exists rest. unfold offset_of. now rewrite Hts.
Qed.

(** X2: in a rendered timeline the offsets never decrease from one line to
    the next.  The event lines are, in order, the lines of the records of
    the selected call sorted by timestamp; each starts with the offset
    field of its record against [t0], the second of the first sorted
    record; and the offsets of the sorted records are in non-decreasing
    order. *)
Theorem offsets_never_decrease (data : value) (argv out pre : list string)
        (logs : list value) (c : string) :
  py_get data "logs" (VList []) = Ok (VList logs) ->
  choose_call_id (VList logs) argv = (pre, Ok (VStr c)) ->
  filter (has_call_id c) logs <> [] ->
  main data argv = (out, Ok tt) ->
  exists sorted first ts0 lines,
    out = (pre ++ header_line c (List.length sorted)
               :: separator_line :: lines)%list
    /\ Permutation (filter (has_call_id c) logs) sorted
    /\ sort_by_timestamp (filter (has_call_id c) logs) = Ok sorted
    /\ hd_error sorted = Some first
    /\ timestamp_of first = Some ts0
    /\ Forall2 (fun l line =>
                  event_line (ts0 / 1000000) l = Ok line
                  /\ starts_with_offset (ts0 / 1000000) l line)
               sorted lines
    /\ StronglySorted (offset_le (ts0 / 1000000)) sorted.
Proof.
  intros Hlogs Hid Hne Hmain.
  assert (logs <> []) as Hl by (intros ->; now apply Hne).
  destruct (main_filtered _ _ _ _ _ _ Hlogs Hl Hid Hmain) as [m Hf].
  destruct (filter_logs_str _ _ _ Hf) as [_ ->].
  destruct (main_rendered _ _ _ _ _ _ _ Hlogs Hid Hf Hne Hmain)
    as (sorted & first & ts0 & cid & lines
        & Hs & Hhd & Hts0 & Hcid & Hlines & ->).
  inversion Hcid; subst cid.
  destruct (main_timeline _ _ _ _ _ _ _ Hlogs Hid Hf Hne Hmain)
    as (sorted' & _ & _ & _ & _ & _ & _ & _ & _ & _ & Hp & Hsorted & Hstable).
  assert (sorted' = sorted) as ->.
  { assert (Forall (fun l => timestamp_of l <> None)
                   (filter (has_call_id c) logs)) as Hts.
    { apply (Permutation_Forall (Permutation_sym (sort_by_timestamp_perm _ _ Hs))).
      apply (Forall2_Forall_l _ _ _ _ Hlines). intros a b.
      apply event_line_ts. }
    exact (sort_by_timestamp_any_stable _ _ _ Hts Hs Hp Hsorted Hstable). }
  exists sorted, first, ts0, lines.
  repeat (split; [assumption || reflexivity|]). split.
  - apply (Forall2_impl_In _ _ _ _ Hlines). intros l line _ He.
    split; [exact He|now apply event_line_offset].
  - apply (StronglySorted_weaken ts_le); [apply ts_le_offset|exact Hsorted].
Qed.

Example offsets_never_decrease_witness :
  exists sorted first ts0 lines,
    sample_out = ([] ++ header_line "CA1" (List.length sorted)
                     :: separator_line :: lines)%list
    /\ Permutation (filter (has_call_id "CA1") sample_logs) sorted
    /\ sort_by_timestamp (filter (has_call_id "CA1") sample_logs) = Ok sorted
    /\ hd_error sorted = Some first
    /\ timestamp_of first = Some ts0
    /\ Forall2 (fun l line =>
                  event_line (ts0 / 1000000) l = Ok line
                  /\ starts_with_offset (ts0 / 1000000) l line)
               sorted lines
    /\ StronglySorted (offset_le (ts0 / 1000000)) sorted.
Proof.
  apply (offsets_never_decrease (VDict [("logs", VList sample_logs)])
           ["parse_logs.py"; "CA1"] sample_out [] sample_logs "CA1").
  - reflexivity.
  - reflexivity.
  - discriminate.
  - vm_compute. reflexivity.
Defined.

(** ** Without a call identifier on the command line *)

(** The choice of lines 12-15 when [sys.argv] names no call. *)
Lemma choose_default (argv : list string) (first : value) (rest : list value)
      (call_id : value) (s : string) :
  no_argument argv ->
  py_get first "callId" (VStr "") = Ok call_id ->
  py_str call_id = Ok s ->
  choose_call_id (VList (first :: rest)) argv
  = ([most_recent_line s], Ok call_id).
Proof.
  intros Hno Hid Hs. unfold choose_call_id.
  assert (match argv with _ :: a :: _ => a | _ => "" end = "") as ->
      by (destruct argv as [|p [|a r]]; simpl in Hno; now subst).
  cbn [String.eqb].
  rewrite py_getitem_first, io_bind_lift_Ok, Hid, io_bind_lift_Ok, Hs,
    io_bind_lift_Ok.
  reflexivity.
Qed.

Lemma has_call_id_first (e : list (string * value)) (c : string) :
  dict_lookup "callId" e = Some (VStr c) -> has_call_id c (VDict e) = true.
Proof. intros H. unfold has_call_id. rewrite H. apply String.eqb_refl. Qed.

(** X3: without a call identifier on the command line, when the first
    record carries a str [callId], a run that ends normally prints
    [Most recent call: <callId>] first and then a timeline in which the first
    record of the input is rendered.  The exit of lines 20-22 is not taken:
    no [print] of the run prints a [No logs for callId=] message, and when
    nothing printed holds a line feed, no line of standard output is one. *)
Theorem default_call_is_rendered
        (data : value) (argv out : list string)
        (e : list (string * value)) (rest : list value) (c : string) :
  no_argument argv ->
  py_get data "logs" (VList []) = Ok (VList (VDict e :: rest)) ->
  dict_lookup "callId" e = Some (VStr c) ->
  main data argv = (out, Ok tt) ->
  exists sorted t0 lines,
    out = (most_recent_line c :: header_line c (List.length sorted)
             :: separator_line :: lines)%list
    /\ Forall2 (fun l line => event_line t0 l = Ok line) sorted lines
    /\ In (VDict e) sorted
    /\ (forall c', ~ In (no_logs_line c') out)
    /\ (Forall lf_free out ->
        forall c', ~ In (no_logs_line c') (stdout_lines out)).
Proof.
  intros Hno Hlogs He Hmain.
  assert (choose_call_id (VList (VDict e :: rest)) argv
          = ([most_recent_line c], Ok (VStr c))) as Hid.
  { apply choose_default; [exact Hno| |reflexivity].
    unfold py_get. now rewrite He. }
  destruct (main_filtered _ _ _ _ _ _ Hlogs ltac:(discriminate) Hid Hmain)
    as [m Hf].
  destruct (filter_logs_str _ _ _ Hf) as [_ Hm].
  assert (In (VDict e) m) as Hin.
  { rewrite Hm. apply filter_In. split; [now left|].
    now apply has_call_id_first. }
  assert (m <> []) as Hne by (intros ->; destruct Hin).
  destruct (main_rendered _ _ _ _ _ _ _ Hlogs Hid Hf Hne Hmain)
    as (sorted & first & ts0 & cid & lines & Hs & _ & _ & Hcid & Hl & ->).
  inversion Hcid; subst cid.
  exists sorted, (ts0 / 1000000), lines.
  split; [reflexivity|]. split; [exact Hl|]. split.
  - apply (Permutation_in _ (sort_by_timestamp_perm _ _ Hs)), Hin.
  - assert (forall c',
               ~ In (no_logs_line c')
                    ([most_recent_line c]
                       ++ header_line c (List.length sorted)
                       :: separator_line :: lines)%list) as Hnone.
    { intros c' [H|[H|[H|H]]]; try discriminate.
      destruct (Forall2_In_r _ _ _ _ Hl H) as (l & _ & Hline).
      destruct (event_line_offset _ _ _ Hline) as [r Hr]. discriminate Hr. }
    split; [exact Hnone|].
    intros Hfree c'. rewrite (stdout_lines_free _ Hfree). apply Hnone.
Qed.

Example default_call_is_rendered_witness :
  exists sorted t0 lines,
    (most_recent_line "CA1" :: sample_out)%list
    = (most_recent_line "CA1" :: header_line "CA1" (List.length sorted)
         :: separator_line :: lines)%list
    /\ Forall2 (fun l line => event_line t0 l = Ok line) sorted lines
    /\ In (nth 0 sample_logs VNone) sorted
    /\ (forall c',
           ~ In (no_logs_line c') (most_recent_line "CA1" :: sample_out))
    /\ (Forall lf_free (most_recent_line "CA1" :: sample_out) ->
        forall c',
          ~ In (no_logs_line c')
               (stdout_lines (most_recent_line "CA1" :: sample_out))).
Proof.
  eapply (default_call_is_rendered (VDict [("logs", VList sample_logs)])
            ["parse_logs.py"] _ _ _ "CA1").
  - exact I.
  - reflexivity.
  - reflexivity.
  - vm_compute. reflexivity.
Defined.

(** X4: without a call identifier on the command line, a first record that
    carries a non-empty str [callId] makes the run the announcement
    [Most recent call: <callId>] followed by the run with that identifier
    given on the command line: the same lines after it, the same end. *)
Theorem default_is_explicit_after_announcement
        (data : value) (argv more : list string) (prog c : string)
        (e : list (string * value)) (rest : list value) :
  no_argument argv ->
  py_get data "logs" (VList []) = Ok (VList (VDict e :: rest)) ->
  dict_lookup "callId" e = Some (VStr c) ->
  c <> "" ->
  main data argv
  = (most_recent_line c :: fst (main data (prog :: c :: more)),
     snd (main data (prog :: c :: more))).
Proof.
  intros Hno Hlogs He Hc.
  rewrite (main_chosen _ argv [most_recent_line c] _ (VStr c) Hlogs
             ltac:(discriminate)).
  - rewrite (main_chosen _ (prog :: c :: more) [] _ (VStr c) Hlogs
               ltac:(discriminate) (choose_explicit _ _ _ _ Hc)).
    unfold io_bind at 1 3.
    destruct (io_bind (lift (filter_logs (VDict e :: rest) (VStr c))) _)
      as [o r].
    reflexivity.
  - apply choose_default; [exact Hno| |reflexivity].
    unfold py_get. now rewrite He.
Qed.

Example default_is_explicit_after_announcement_witness :
  main (VDict [("logs", VList sample_logs)]) ["parse_logs.py"]
  = (most_recent_line "CA1"
       :: fst (main (VDict [("logs", VList sample_logs)])
                    ["parse_logs.py"; "CA1"]),
     snd (main (VDict [("logs", VList sample_logs)]) ["parse_logs.py"; "CA1"])).
Proof.
  eapply (default_is_explicit_after_announcement
            (VDict [("logs", VList sample_logs)]) ["parse_logs.py"] []
            "parse_logs.py" "CA1").
  - exact I.
  - reflexivity.
  - reflexivity.
  - discriminate.
Defined.

(** X5: without a call identifier on the command line, a first record that
    has no [callId] makes the empty string the target, which that record
    does not carry: when no other record carries it either, the run prints
    [Most recent call: ] and [No logs for callId=] and ends normally, with
    no timeline although there are logs. *)
Theorem default_without_call_id
        (data : value) (argv : list string)
        (e : list (string * value)) (rest : list value) :
  no_argument argv ->
  py_get data "logs" (VList []) = Ok (VList (VDict e :: rest)) ->
  dict_lookup "callId" e = None ->
  Forall is_record rest ->
  Forall (fun l => has_call_id "" l = false) rest ->
  main data argv = ([most_recent_line ""; no_logs_line ""], Ok tt).
Proof.
  intros Hno Hlogs He Hrec Hnone.
  rewrite (main_selected _ argv [most_recent_line ""] _ [] (VStr "") Hlogs
             ltac:(discriminate)).
  - now rewrite (render_nothing (VStr "") "" eq_refl).
  - apply choose_default; [exact Hno| |reflexivity].
    unfold py_get. now rewrite He.
  - rewrite filter_logs_records by (constructor; [now eexists|exact Hrec]).
    f_equal. apply filter_none. constructor; [|exact Hnone].
    unfold has_call_id. now rewrite He.
Qed.

Example default_without_call_id_witness :
  main (VDict [("logs", VList [VDict [("timestamp", VInt 1)];
                               VDict [("callId", VStr "CA1")]])])
       ["parse_logs.py"]
  = (["Most recent call: "; "No logs for callId="], Ok tt).
Proof.
  apply (default_without_call_id _ ["parse_logs.py"] [("timestamp", VInt 1)]
           [VDict [("callId", VStr "CA1")]]).
  - exact I.
  - reflexivity.
  - reflexivity.
  - repeat constructor. now eexists.
  - repeat constructor.
Defined.

(** ** Documents without a usable list of logs *)

Lemma falsy_truthy (v : value) : falsy v -> py_truthy v = Ok false.
Proof.
  destruct v as [|[|]|[| |]| |[|]|[|]|[|]]; simpl; intros H;
    try contradiction; reflexivity.
Qed.

Lemma truthy_non_list_truthy (v : value) :
  truthy_non_list v -> py_truthy v = Ok true.
Proof.
  destruct v as [|[|]|z| |[|]|[|]|[|]]; simpl; intros H;
    try contradiction; try reflexivity.
  apply Z.eqb_neq in H. now rewrite H.
Qed.

(** What is not a list has no records to filter. *)
Lemma timeline_non_list (logs : value) (c : string) :
  truthy_non_list logs -> exists e, timeline logs (VStr c) = ([], Raise e).
Proof.
  unfold timeline.
  destruct logs as [|[|]|z| |[|a s]|[|]|[|[k v] d]]; simpl; intros H;
    try contradiction; unfold io_bind, lift; simpl; eauto.
Qed.

Lemma choose_non_list (logs : value) (argv : list string) :
  truthy_non_list logs -> no_argument argv ->
  exists e, choose_call_id logs argv = ([], Raise e).
Proof.
  intros H Hno. unfold choose_call_id.
  assert (match argv with _ :: a :: _ => a | _ => "" end = "") as ->
      by (destruct argv as [|p [|a r]]; simpl in Hno; now subst).
  cbn [String.eqb].
  destruct logs as [|[|]|z| |[|a s]|[|]|[|[k v] d]]; simpl in H;
    try contradiction; try (eexists; reflexivity).
Qed.

Lemma argument_or_not (argv : list string) :
  no_argument argv
  \/ exists prog c more, argv = prog :: c :: more /\ c <> "".
Proof.
  destruct argv as [|p [|a r]]; simpl; auto.
  destruct (String.eqb a "") eqn:E.
  - apply String.eqb_eq in E. auto.
  - apply String.eqb_neq in E. right. now exists p, a, r.
Qed.

(** X6: a [logs] value that is not a list never gives a timeline.  The
    values [if not logs] stops at ([null], [false], [0], the empty string,
    list and object) print [No logs found.] like the empty list; every other
    value that is not a list (a number, [true], a non-empty string or
    object) ends the run in an exception with nothing printed. *)
Theorem logs_not_a_list (data : value) (argv : list string) (logs : value) :
  py_get data "logs" (VList []) = Ok logs ->
  (falsy logs -> main data argv = (["No logs found."], Ok tt))
  /\ (truthy_non_list logs -> exists e, main data argv = ([], Raise e)).
Proof.
  intros Hlogs. unfold main. rewrite Hlogs, io_bind_lift_Ok. split.
  - intros H. now rewrite (falsy_truthy _ H), io_bind_lift_Ok.
  - intros H. rewrite (truthy_non_list_truthy _ H), io_bind_lift_Ok.
    cbn [negb].
    destruct (argument_or_not argv) as [Hno|(prog & c & more & -> & Hc)].
    + destruct (choose_non_list _ _ H Hno) as [e ->]. now exists e.
    + rewrite (choose_explicit _ _ _ _ Hc).
      destruct (timeline_non_list logs c H) as [e He].
      exists e. unfold io_bind at 1. now rewrite He.
Qed.

Example logs_not_a_list_witness :
  main (VDict [("logs", VNone)]) ["parse_logs.py"]
  = (["No logs found."], Ok tt)
  /\ exists e,
      main (VDict [("logs", VDict [("callId", VStr "CA1")])])
           ["parse_logs.py"; "CA1"]
      = ([], Raise e).
Proof.
  split.
  - apply (proj1 (logs_not_a_list (VDict [("logs", VNone)]) ["parse_logs.py"]
                    VNone eq_refl) I).
  - apply (proj2 (logs_not_a_list
                    (VDict [("logs", VDict [("callId", VStr "CA1")])])
                    ["parse_logs.py"; "CA1"]
                    (VDict [("callId", VStr "CA1")]) eq_refl) I).
Defined.

(** ** Entries that are not records *)

(** The filter asks [.get] of every entry, selected or not. *)
Lemma filter_logs_all_records (logs : list value) (call_id : value) :
  forall m, filter_logs logs call_id = Ok m -> Forall is_record logs.
Proof.
  induction logs as [|l logs IH]; simpl; intros m H; [constructor|].
  bind_step H cid Hc. bind_step H same Hs. bind_step H rest Hr.
  constructor; [|exact (IH _ Hr)].
  destruct l; try discriminate. now eexists.
Qed.

Lemma filter_logs_non_record (logs : list value) (c : string) (bad : value) :
  In bad logs -> ~ is_record bad ->
  filter_logs logs (VStr c) = Raise AttributeError.
Proof.
  induction logs as [|l logs IH]; intros Hin Hbad; [destruct Hin|].
  cbn [filter_logs].
  destruct l as [| | | | | |r]; try reflexivity.
  unfold py_get at 1. cbn [bind]. rewrite py_eq_str_r. cbn [bind].
  destruct Hin as [<-|Hin]; [destruct Hbad; now eexists|].
  now rewrite (IH Hin Hbad).
Qed.

(** A run that ends normally on a non-empty list of logs has chosen a call
    and filtered the list. *)
Lemma main_inv (data : value) (argv out : list string) (logs : list value) :
  py_get data "logs" (VList []) = Ok (VList logs) ->
  logs <> [] ->
  main data argv = (out, Ok tt) ->
  exists pre call_id m,
    choose_call_id (VList logs) argv = (pre, Ok call_id)
    /\ filter_logs logs call_id = Ok m.
Proof.
  intros Hlogs Hne Hmain. pose proof Hmain as H. unfold main in H.
  rewrite Hlogs, io_bind_lift_Ok in H.
  destruct logs as [|l0 logs']; [contradiction|].
  simpl py_truthy in H. rewrite io_bind_lift_Ok in H. cbn [negb] in H.
  apply io_bind_Ok in H. destruct H as (pre & call_id & o2 & Hid & _ & _).
  destruct (main_filtered _ _ _ _ _ _ Hlogs Hne Hid Hmain) as [m Hf].
  now exists pre, call_id, m.
Qed.

(** X7: an entry of [logs] that is not an object stops the run, whether or
    not it belongs to the selected call: no run ends normally, and with a
    call identifier on the command line the run ends in an
    [AttributeError] before anything is printed. *)
Theorem non_record_aborts (data : value) (logs : list value) (bad : value) :
  py_get data "logs" (VList []) = Ok (VList logs) ->
  In bad logs ->
  ~ is_record bad ->
  (forall argv out, main data argv <> (out, Ok tt))
  /\ (forall prog c more,
         c <> "" ->
         main data (prog :: c :: more) = ([], Raise AttributeError)).
Proof.
  intros Hlogs Hin Hbad.
  assert (logs <> []) as Hne by (intros ->; destruct Hin).
  split.
  - intros argv out Hmain.
    destruct (main_inv _ _ _ _ Hlogs Hne Hmain) as (pre & cid & m & _ & Hf).
    apply filter_logs_all_records in Hf. rewrite Forall_forall in Hf.
    exact (Hbad (Hf _ Hin)).
  - intros prog c more Hc.
    rewrite (main_chosen _ _ [] _ (VStr c) Hlogs Hne
               (choose_explicit _ _ _ _ Hc)).
    now rewrite (filter_logs_non_record _ c _ Hin Hbad).
Qed.

Example non_record_aborts_witness :
  (forall argv out,
      main (VDict [("logs", VList (sample_logs ++ [VInt 7]))]) argv
      <> (out, Ok tt))
  /\ main (VDict [("logs", VList (sample_logs ++ [VInt 7]))])
          ["parse_logs.py"; "CA1"]
     = ([], Raise AttributeError).
Proof.
  destruct (non_record_aborts
              (VDict [("logs", VList (sample_logs ++ [VInt 7]))])
              (sample_logs ++ [VInt 7]) (VInt 7) eq_refl) as [H1 H2].
  - apply in_or_app. right. now left.
  - intros [e He]. discriminate.
  - split; [exact H1|]. apply H2. discriminate.
Defined.

(** ** Records the loop gets through *)

Lemma event_line_well_formed (t0 : Z) (l : value) (line : string) :
  event_line t0 l = Ok line -> well_formed_record l.
Proof.
  unfold event_line. intros H.
  bind_step H stamp Hstamp. bind_step H q Hq.
  bind_step H meta Hmeta. bind_step H body Hbody. bind_step H resp Hresp.
  bind_step H kd Hkind.
  destruct (kind_display_dict _ _ _ _ Hkind) as [b ->].
  destruct meta as [| | | | | |m]; try discriminate.
  exists stamp, m, b. repeat split; auto.
  - destruct stamp; try discriminate; exact I.
  - unfold request_body_of. unfold py_get in Hbody. now inversion Hbody.
Qed.

(** X8: a run that ends normally has met only well-formed records in the
    selected call: each has a [timestamp] that is a number, and a dict for
    its [metadata] (when present) and for the [requestBody] in it (when
    present).  A str or a missing timestamp, a [null] metadata or
    requestBody stop the run. *)
Theorem rendered_records_are_well_formed
        (data : value) (argv out : list string) (logs : list value) :
  py_get data "logs" (VList []) = Ok (VList logs) ->
  logs <> [] ->
  main data argv = (out, Ok tt) ->
  exists pre call_id matching,
    choose_call_id (VList logs) argv = (pre, Ok call_id)
    /\ filter_logs logs call_id = Ok matching
    /\ Forall well_formed_record matching.
Proof.
  intros Hlogs Hne Hmain.
  destruct (main_inv _ _ _ _ Hlogs Hne Hmain) as (pre & cid & m & Hid & Hf).
  exists pre, cid, m. split; [exact Hid|]. split; [exact Hf|].
  destruct m as [|x m]; [constructor|].
  destruct (main_rendered _ _ _ _ _ _ _ Hlogs Hid Hf ltac:(discriminate) Hmain)
    as (sorted & first & ts0 & c & lines & Hs & _ & _ & _ & Hl & _).
  apply (Permutation_Forall (Permutation_sym (sort_by_timestamp_perm _ _ Hs))).
  apply (Forall2_Forall_l _ _ _ _ Hl). intros a b.
  apply event_line_well_formed.
Qed.

Example rendered_records_are_well_formed_witness :
  exists pre call_id matching,
    choose_call_id (VList sample_logs) ["parse_logs.py"; "CA1"]
    = (pre, Ok call_id)
    /\ filter_logs sample_logs call_id = Ok matching
    /\ Forall well_formed_record matching.
Proof.
  apply (rendered_records_are_well_formed
           (VDict [("logs", VList sample_logs)]) ["parse_logs.py"; "CA1"]
           sample_out sample_logs).
  - reflexivity.
  - discriminate.
  - vm_compute. reflexivity.
Defined.

(** ** A record that fails *)

Lemma print_events_stops (t0 : Z) (bad : value) (rest : list value) (e : exn) :
  event_line t0 bad = Raise e ->
  forall good lines,
    Forall2 (fun l line => event_line t0 l = Ok line) good lines ->
    print_events t0 (good ++ bad :: rest)%list = (lines, Raise e).
Proof.
  intros Hbad. induction 1 as [|l line good lines Hl _ IH].
  - cbn [app print_events]. now rewrite Hbad.
  - cbn [app print_events]. rewrite Hl, io_bind_lift_Ok.
    unfold print, io_bind at 1. now rewrite IH.
Qed.

(** X9: the timeline is printed as it is built.  When the line of a record
    cannot be built, the run ends in that record's exception after the
    header, the separator and the lines of the records sorted before it:
    those lines stay printed, and no later record is looked at. *)
Theorem lines_before_failure
        (matching good rest : list value) (bad first : value)
        (c : string) (ts0 : Z) (lines : list string) (e : exn) :
  sort_by_timestamp matching = Ok (good ++ bad :: rest)%list ->
  hd_error (good ++ bad :: rest)%list = Some first ->
  timestamp_of first = Some ts0 ->
  Forall2 (fun l line => event_line (ts0 / 1000000) l = Ok line) good lines ->
  event_line (ts0 / 1000000) bad = Raise e ->
  render_timeline matching (VStr c)
  = (header_line c (List.length (good ++ bad :: rest)%list)
       :: separator_line :: lines,
     Raise e).
Proof.
  intros Hs Hhd Hts Hgood Hbad. unfold render_timeline.
  rewrite Hs, io_bind_lift_Ok.
  destruct (good ++ bad :: rest)%list as [|f sorted] eqn:Hsorted;
    [discriminate|].
  inversion Hhd; subst f.
  unfold timestamp_of in Hts.
  destruct (py_getitem first (VStr "timestamp")) as [stamp| |] eqn:Hstamp;
    try discriminate.
  rewrite io_bind_lift_Ok.
  assert (py_floordiv stamp 1000000 = Ok (ts0 / 1000000)) as ->
      by (destruct stamp; try discriminate; unfold py_floordiv; now rewrite Hts).
  rewrite io_bind_lift_Ok. cbn [py_str]. rewrite io_bind_lift_Ok.
  rewrite <- Hsorted, (print_events_stops _ _ _ _ Hbad _ _ Hgood).
  reflexivity.
Qed.

(** Two records of a call, the later one with a [null] metadata: the header
    and the first line are printed before the [AttributeError]. *)
Example lines_before_failure_witness :
  render_timeline
    [VDict [("timestamp", VInt 2000000); ("metadata", VNone)];
     VDict [("timestamp", VInt 0)]]
    (VStr "CA1")
  = (["Call: CA1  (2 events)"; dashes; "+   0s  EVENT"], Raise AttributeError).
Proof.
  apply (lines_before_failure
           [VDict [("timestamp", VInt 2000000); ("metadata", VNone)];
            VDict [("timestamp", VInt 0)]]
           [VDict [("timestamp", VInt 0)]] []
           (VDict [("timestamp", VInt 2000000); ("metadata", VNone)])
           (VDict [("timestamp", VInt 0)]) "CA1" 0 ["+   0s  EVENT"]
           AttributeError).
  - reflexivity.
  - reflexivity.
  - reflexivity.
  - repeat constructor.
  - reflexivity.
Defined.

(** ** The command names, in order *)

(** X10: when the responseBody decodes to a list of command objects, the
    suffix is [" -> "] and one name per key of each command, in the order of
    the document, joined by [" + "]: [Play(<id>)] for a Play,
    [Listen] for a TranscribeUtterance, [Redirect(n=<n>)] for a Redirect,
    and the key itself for any other key. *)
Theorem command_names_in_order
        (resp : string) (cmds : list (list (string * value)))
        (nss : list (list string)) :
  json_loads resp = Ok (VList (List.map VDict cmds)) ->
  Forall2 names_of_command cmds nss ->
  response_part (VStr resp)
  = Ok (" -> " ++ String.concat " + " (List.concat nss)).
Proof.
  intros Hj Hn. unfold response_part, decode_commands. cbn [py_json_loads].
  rewrite Hj. cbn [bind py_iter].
  rewrite (cmds_loop_forward (List.map VDict cmds) nss).
  - cbn [bind app]. unfold py_join. now rewrite strs_of_strs.
  - clear Hj. induction Hn as [|cmd ns cmds nss Hc _ IH]; cbn [List.map];
      constructor; [|exact IH].
    now apply names_of_command_loop.
Qed.

Example command_names_in_order_witness :
  response_part
    (VStr (text ("[{'Play':{'file':'/a?id=hello&v=1'},'Say':{}},"
                 ++ " {'Redirect':{'actionUrl':'/next?n=2'}},"
                 ++ " {'TranscribeUtterance':{}}]")))
  = Ok " -> Play(hello) + Say + Redirect(n=2) + Listen".
Proof.
  apply (command_names_in_order _
           [[("Play", VDict [("file", VStr "/a?id=hello&v=1")]);
             ("Say", VDict [])];
            [("Redirect", VDict [("actionUrl", VStr "/next?n=2")])];
            [("TranscribeUtterance", VDict [])]]
           [["Play(hello)"; "Say"]; ["Redirect(n=2)"]; ["Listen"]]).
  - vm_compute. reflexivity.
  - repeat constructor; eexists; split; reflexivity.
Defined.

Lemma decode_commands_loop (resp : string) (cmds : list value) :
  json_loads resp = Ok (VList cmds) ->
  decode_commands (VStr resp)
  = (cmd_names <- cmds_loop cmds [] ;;
     joined <- py_join " + " cmd_names ;;
     Ok (" -> " ++ joined)).
Proof.
  intros Hj. unfold decode_commands. cbn [py_json_loads]. now rewrite Hj.
Qed.

(** X11: the command list is all or nothing.  When the responseBody decodes
    to a list and one key of one command cannot be named (a Play or a
    Redirect that holds something else than an object, a [file] that is not
    a str), no command is named: the suffix is the raw text, cut at 80
    characters. *)
Theorem one_bad_command_voids_all
        (resp : string) (cmds ks : list value) (cmd k : value) (e : exn) :
  json_loads resp = Ok (VList cmds) ->
  In cmd cmds ->
  py_iter cmd = Ok ks ->
  In k ks ->
  command_name cmd k = Raise e ->
  response_part (VStr resp) = Ok (" -> " ++ str_take 80 resp).
Proof.
  intros Hj Hcmd Hks Hk He.
  destruct (cmds_loop cmds []) as [names|e'|] eqn:Hloop.
  - apply cmds_loop_names in Hloop. destruct Hloop as (ns & _ & G).
    destruct (G cmd ks k Hcmd Hks Hk) as (n & Hn & _). congruence.
  - apply (proj1 (proj2 (response_part_total resp)) e').
    now rewrite (decode_commands_loop _ _ Hj), Hloop.
  - now destruct (cmds_loop_modelled cmds []).
Qed.

Example one_bad_command_voids_all_witness :
  response_part
    (VStr (text "[{'TranscribeUtterance':{}}, {'Play':'beep.wav'}]"))
  = Ok (text " -> [{'TranscribeUtterance':{}}, {'Play':'beep.wav'}]").
Proof.
  apply (one_bad_command_voids_all
           (text "[{'TranscribeUtterance':{}}, {'Play':'beep.wav'}]")
           [VDict [("TranscribeUtterance", VDict [])];
            VDict [("Play", VStr "beep.wav")]]
           [VStr "Play"] (VDict [("Play", VStr "beep.wav")]) (VStr "Play")
           AttributeError).
  - vm_compute. reflexivity.
  - right. now left.
  - reflexivity.
  - now left.
  - reflexivity.
Defined.

(** ** What the two patterns let through *)

Lemma search_matches (m : string -> option string) (s g : string) :
  search m s = Some g -> exists post, m post = Some g.
Proof.
  intros H. apply search_spec in H. destruct H as (pre & post & _ & Hm & _).
  now exists post.
Qed.

Lemma first_n_shape (u : string) :
  first_n u = "?" \/ (first_n u <> "" /\ all_chars is_digit (first_n u) = true).
Proof.
  unfold first_n. destruct (search match_n u) as [g|] eqn:Hs; [right|now left].
  destruct (search_matches _ _ _ Hs) as [post Hm].
  apply match_n_spec in Hm.
  destruct Hm as (c & rest & _ & _ & Hne & Hd & _). auto.
Qed.

Lemma first_id_shape (f : string) :
  first_id f <> "" /\ all_chars not_amp (first_id f) = true.
Proof.
  unfold first_id.
  destruct (search match_id f) as [g|] eqn:Hs; [|split; [discriminate|reflexivity]].
  destruct (search_matches _ _ _ Hs) as [post Hm].
  apply match_id_spec in Hm. destruct Hm as (rest & _ & Hne & Hd & _). auto.
Qed.

Lemma str_take_shape (p : ascii -> bool) (n : nat) :
  forall s,
    all_chars p s = true ->
    all_chars p (str_take n s) = true
    /\ (String.length (str_take n s) <= n)%nat
    /\ (s <> "" -> n <> O -> str_take n s <> "").
Proof.
  unfold str_take. induction n as [|n IH]; intros s Hs.
  - destruct s; simpl; repeat split; auto; intros; congruence.
  - destruct s as [|c s]; simpl in *.
    + repeat split; auto; lia.
    + apply andb_prop in Hs. destruct Hs as [Hc Hs].
      destruct (IH s Hs) as (Ha & Hl & _). rewrite Hc, Ha.
      repeat split; auto; [lia|discriminate].
Qed.

(** X12: what the two patterns let through to the output, for text in the
    alphabet of the model (code points below 256).  The [n] of a REDIR line
    and of a [Redirect(n=...)] name is [?] or a non-empty run of characters
    of the class [\d], which in that alphabet are the digits 0-9; the
    identifier of a [Play(...)] name is never empty, has no [&] and has at
    most 24 characters. *)
Theorem shown_groups_shape :
  (forall meta body resp s,
      kind_display meta (VDict body) resp = Ok s ->
      classify body resp = Ok REDIR ->
      exists n, s = "REDIR   n=" ++ n
                /\ (n = "?" \/ (n <> "" /\ all_chars is_digit n = true)))
  /\ (forall cmd v,
         command_name cmd (VStr "Redirect") = Ok v ->
         exists n, v = VStr ("Redirect(n=" ++ n ++ ")")
                   /\ (n = "?" \/ (n <> "" /\ all_chars is_digit n = true)))
  /\ (forall cmd v,
         command_name cmd (VStr "Play") = Ok v ->
         exists id, v = VStr ("Play(" ++ id ++ ")")
                    /\ id <> ""
                    /\ all_chars not_amp id = true
                    /\ (String.length id <= 24)%nat).
Proof.
  split; [|split].
  - intros meta body resp s Hs Hk.
    rewrite kind_display_classify, Hk in Hs. cbn [bind display_of] in Hs.
    bind_step Hs n Hn. inversion Hs; subst s. exists n. split; [reflexivity|].
    unfold redirect_n in Hn.
    bind_step Hn headers Hh. bind_step Hn urls Hu. bind_step Hn url Hurl.
    bind_step Hn n_match Hm. inversion Hn; subst n.
    destruct url; try discriminate. inversion Hm; subst n_match.
    apply first_n_shape.
  - intros cmd v H. unfold command_name in H. cbn [py_eq_str String.eqb] in H.
    simpl in H.
    bind_step H redirect Hr. bind_step H action Ha. bind_step H n_match Hm.
    inversion H; subst v.
    destruct action; try discriminate. inversion Hm; subst n_match.
    eexists. split; [reflexivity|]. apply first_n_shape.
  - intros cmd v H. unfold command_name in H. simpl in H.
    bind_step H play Hp. bind_step H file_url Hf. bind_step H id_match Hm.
    inversion H; subst v.
    destruct file_url as [| | | |f| |]; try discriminate.
    inversion Hm; subst id_match.
    eexists. split; [reflexivity|].
    destruct (first_id_shape f) as [Hne Hamp]. fold (first_id f).
    destruct (str_take_shape not_amp 24 _ Hamp) as (H1 & H2 & H3).
    repeat split; auto.
Qed.

(** A redirect to [https://x/?n=3], a Redirect without an [actionUrl] and
    a Play of [http://x?id=abc123&y=1]. *)
Example shown_groups_shape_witness :
  (exists n, "REDIR   n=3" = "REDIR   n=" ++ n
             /\ (n = "?" \/ (n <> "" /\ all_chars is_digit n = true)))
  /\ (exists n, VStr "Redirect(n=?)" = VStr ("Redirect(n=" ++ n ++ ")")
                /\ (n = "?" \/ (n <> "" /\ all_chars is_digit n = true)))
  /\ (exists id, VStr "Play(abc123)" = VStr ("Play(" ++ id ++ ")")
                 /\ id <> ""
                 /\ all_chars not_amp id = true
                 /\ (String.length id <= 24)%nat).
Proof.
  destruct shown_groups_shape as (H1 & H2 & H3). split; [|split].
  - apply (H1 (VDict [("requestHeaders",
                       VDict [("url", VList [VStr "https://x/?n=3"])])])
              [("requestType", VStr "redirect")] (VStr ""));
      reflexivity.
  - apply (H2 (VDict [("Redirect", VDict [])])). reflexivity.
  - apply (H3 (VDict [("Play",
                       VDict [("file", VStr "http://x?id=abc123&y=1")])])).
    reflexivity.
Defined.

(** ** The line of one record *)

Lemma classify_truthy (body : list (string * value)) (resp : value) (k : kind) :
  classify body resp = Ok k ->
  (k = EVENT -> py_truthy resp = Ok false)
  /\ (k = RESP -> py_truthy resp = Ok true).
Proof.
  unfold classify.
  destruct (dict_has _ _); [intros H; inversion H; split; discriminate|].
  destruct (py_eq_str _ "inboundCall");
    [intros H; inversion H; split; discriminate|].
  destruct (py_eq_str _ "redirect");
    [intros H; inversion H; split; discriminate|].
  destruct (py_truthy resp) as [[|]| |]; simpl; intros H; inversion H;
    split; intros; congruence.
Qed.

(** X13: whether a line has a suffix is settled by its kind for the last
    two rules.  A record shown as EVENT has an empty responseBody, so its
    line is the offset field and [EVENT] and nothing more; a record shown as
    RESP has a non-empty one, so its line always goes on with a suffix. *)
Theorem suffix_follows_kind (t0 : Z) (l : value) (line : string) :
  event_line t0 l = Ok line ->
  exists meta body k,
    py_get l "metadata" (VDict []) = Ok (VDict meta)
    /\ request_body_of meta = VDict body
    /\ classify body (response_body_of meta) = Ok k
    /\ (k = EVENT -> line = offset_field (offset_of t0 l) ++ "  EVENT")
    /\ (k = RESP ->
        exists suffix,
          response_part (response_body_of meta) = Ok suffix
          /\ line = offset_field (offset_of t0 l) ++ "  RESP  " ++ suffix).
Proof.
  intros H.
  destruct (event_line_layout _ _ _ H)
    as (ts & meta & body & resp & display & Hts & Hm & Hb & Hr & Hk & Hline).
  destruct meta as [| | | | | |m]; try discriminate.
  destruct (kind_display_dict _ _ _ _ Hk) as [b ->].
  unfold py_get in Hb, Hr. inversion Hb as [Hb']. inversion Hr as [Hr'].
  fold (response_body_of m) in *. fold (request_body_of m) in *.
  subst resp.
  rewrite kind_display_classify in Hk. bind_step Hk k Hclass.
  exists m, b, k. repeat (split; [assumption|]).
  unfold offset_of. rewrite Hts.
  destruct (classify_truthy _ _ _ Hclass) as [He Hresp].
  split; intros ->; cbn [display_of] in Hk; inversion Hk; subst display.
  - specialize (He eq_refl).
    destruct Hline as [[_ ->]|[Ht _]]; [reflexivity|congruence].
  - specialize (Hresp eq_refl).
    destruct Hline as [[Ht _]|[_ (suffix & Hs & ->)]]; [congruence|].
    now exists suffix.
Qed.

Example suffix_follows_kind_witness :
  exists meta body k,
    py_get (VDict [("timestamp", VInt 7000000);
                   ("metadata", VDict [("responseBody", VStr "not valid json")])])
           "metadata" (VDict [])
    = Ok (VDict meta)
    /\ request_body_of meta = VDict body
    /\ classify body (response_body_of meta) = Ok k
    /\ (k = EVENT
        -> "+   7s  RESP   -> not valid json"
           = offset_field
               (offset_of 0
                  (VDict [("timestamp", VInt 7000000);
                          ("metadata",
                           VDict [("responseBody", VStr "not valid json")])]))
             ++ "  EVENT")
    /\ (k = RESP ->
        exists suffix,
          response_part (response_body_of meta) = Ok suffix
          /\ "+   7s  RESP   -> not valid json"
             = offset_field
                 (offset_of 0
                    (VDict [("timestamp", VInt 7000000);
                            ("metadata",
                             VDict [("responseBody", VStr "not valid json")])]))
               ++ "  RESP  " ++ suffix).
Proof.
  apply (suffix_follows_kind 0
           (VDict [("timestamp", VInt 7000000);
                   ("metadata", VDict [("responseBody", VStr "not valid json")])])
           "+   7s  RESP   -> not valid json").
  reflexivity.
Defined.

(** X14: the line of a record depends on the rest of the call only through
    [t0], and on [t0] only in its offset field: what follows the field is
    the same whatever the first record of the call is. *)
Theorem line_depends_on_t0_by_offset (t0 : Z) (l : value) (line : string) :
  event_line t0 l = Ok line ->
  exists rest,
    forall t, event_line t l = Ok (offset_field (offset_of t l) ++ "  " ++ rest).
Proof.
  unfold event_line. intros H.
  bind_step H stamp Hstamp. bind_step H q Hq.
  destruct (floordiv_Ok _ _ Hq) as (ts & Hts & ->).
  bind_step H meta Hmeta. bind_step H body Hbody. bind_step H resp Hresp.
  bind_step H kd Hkind. bind_step H nonempty Hne. bind_step H parts Hparts.
  assert (forall t, offset_of t l = ts / 1000000 - t) as Hoff
      by (intros t; unfold offset_of, timestamp_of; now rewrite Hstamp, Hts).
  destruct nonempty.
  - bind_step Hparts suffix Hsuffix. exists (kd ++ "  " ++ suffix). intros t.
    rewrite Hstamp. cbn [bind]. rewrite Hq. cbn [bind]. rewrite Hmeta.
    cbn [bind]. rewrite Hbody. cbn [bind]. rewrite Hresp. cbn [bind].
    rewrite Hkind. cbn [bind]. rewrite Hne. cbn [bind]. rewrite Hsuffix.
    cbn [bind]. now rewrite Hoff.
  - exists kd. intros t.
    rewrite Hstamp. cbn [bind]. rewrite Hq. cbn [bind]. rewrite Hmeta.
    cbn [bind]. rewrite Hbody. cbn [bind]. rewrite Hresp. cbn [bind].
    rewrite Hkind. cbn [bind]. rewrite Hne. cbn [bind]. now rewrite Hoff.
Qed.

Example line_depends_on_t0_by_offset_witness :
  exists rest,
    forall t,
      event_line t (nth 0 sample_logs VNone)
      = Ok (offset_field (offset_of t (nth 0 sample_logs VNone))
            ++ "  " ++ rest).
Proof.
  apply (line_depends_on_t0_by_offset 2 (nth 0 sample_logs VNone)
           "+   3s  REDIR   n=3   -> Listen").
  vm_compute. reflexivity.
Defined.

(** ** The width of the offset field *)

Lemma spaces_length (n : nat) : String.length (spaces n) = n.
Proof. induction n as [|n IH]; simpl; [reflexivity|now rewrite IH]. Qed.

(** Right-alignment pads and never cuts. *)
Lemma rjust_length (w : nat) (s : string) :
  String.length (rjust w s) = Nat.max w (String.length s).
Proof. unfold rjust. rewrite append_length, spaces_length. lia. Qed.

Lemma offset_field_length (z : Z) :
  String.length (offset_field z)
  = (2 + Nat.max 4 (String.length (str_of_int z)))%nat.
Proof.
  unfold offset_field. cbn [append String.length].
  rewrite append_length, rjust_length. simpl String.length. lia.
Qed.

(** Every offset from 0 to 9999 is written with at most four digits. *)
Lemma four_digits (z : Z) :
  0 <= z < 10000 -> (String.length (str_of_int z) <= 4)%nat.
Proof.
  intros Hz.
  assert (forallb (fun n => (String.length (str_of_int (Z.of_nat n)) <=? 4)%nat)
                  (seq 0 (Z.to_nat 10000)) = true) as Hall
      by (vm_compute; reflexivity).
  rewrite forallb_forall in Hall.
  specialize (Hall (Z.to_nat z)). rewrite Z2Nat.id in Hall by lia.
  apply Nat.leb_le, Hall, in_seq. lia.
Qed.

(** X15: the kind displays of a timeline are aligned.  For an offset from 0
    to 9999 seconds the offset field is exactly six characters, so the kind
    display starts in the ninth column of the line; a longer offset is not
    cut, it widens the field. *)
Theorem kind_column_aligned (t0 : Z) (l : value) (line : string) :
  event_line t0 l = Ok line ->
  0 <= offset_of t0 l < 10000 ->
  exists field rest,
    line = field ++ "  " ++ rest
    /\ field = offset_field (offset_of t0 l)
    /\ String.length field = 6%nat
    /\ forall z, (6 <= String.length (offset_field z))%nat
                 /\ String.length (offset_field z)
                    = (2 + Nat.max 4 (String.length (str_of_int z)))%nat.
Proof.
  intros H Hz. destruct (event_line_offset _ _ _ H) as [rest ->].
  exists (offset_field (offset_of t0 l)), rest.
  split; [reflexivity|]. split; [reflexivity|]. split.
  - rewrite offset_field_length. pose proof (four_digits _ Hz). lia.
  - intros z. rewrite offset_field_length. lia.
Qed.

Example kind_column_aligned_witness :
  exists field rest,
    "+   3s  REDIR   n=3   -> Listen" = field ++ "  " ++ rest
    /\ field = offset_field (offset_of 2 (nth 0 sample_logs VNone))
    /\ String.length field = 6%nat
    /\ forall z, (6 <= String.length (offset_field z))%nat
                 /\ String.length (offset_field z)
                    = (2 + Nat.max 4 (String.length (str_of_int z)))%nat.
Proof.
  apply (kind_column_aligned 2 (nth 0 sample_logs VNone)
           "+   3s  REDIR   n=3   -> Listen").
  - vm_compute. reflexivity.
  - vm_compute. split; [discriminate|reflexivity].
Defined.

(** ** Decode errors *)

Lemma raises_only_Ok {A : Type} (P : exn -> Prop) (a : A) :
  raises_only P (Ok a).
Proof. intros e H. discriminate. Qed.

Lemma raises_only_bind {A B : Type} (P : exn -> Prop)
      (r : result A) (k : A -> result B) :
  raises_only P r -> (forall a, raises_only P (k a)) ->
  raises_only P (bind r k).
Proof.
  intros Hr Hk e. destruct r as [a|e'|]; simpl.
  - exact (Hk a e).
  - intros H. inversion H; subst. now apply Hr.
  - discriminate.
Qed.

Lemma raises_only_try {A : Type} (P : exn -> Prop) (body handler : result A) :
  raises_only P handler -> raises_only P (try_except body handler).
Proof.
  intros H e. destruct body; simpl; [discriminate|exact (H e)|discriminate].
Qed.

(** Outside [json.loads] no operation of the script raises a decode
    error. *)
Ltac no_decode_error :=
  let e := fresh "e" in
  let H := fresh "H" in
  intros e H; unfold not_decode_error; intros ->; revert H.

Lemma py_get_quiet (obj : value) (key : string) (d : value) :
  raises_only not_decode_error (py_get obj key d).
Proof. no_decode_error. destruct obj; discriminate. Qed.

Lemma py_getitem_quiet (obj k : value) :
  raises_only not_decode_error (py_getitem obj k).
Proof.
  no_decode_error. unfold py_getitem. destruct obj; try discriminate.
  - destruct (as_int k); [destruct (index_list _ _)|]; discriminate.
  - destruct (as_int k); [destruct (index_list _ _)|]; discriminate.
  - destruct k; try discriminate. destruct (dict_lookup _ _); discriminate.
Qed.

Lemma py_truthy_quiet (v : value) : raises_only not_decode_error (py_truthy v).
Proof. no_decode_error. destruct v; discriminate. Qed.

Lemma py_contains_str_quiet (s : string) (obj : value) :
  raises_only not_decode_error (py_contains_str s obj).
Proof. no_decode_error. destruct obj; discriminate. Qed.

Lemma py_iter_quiet (obj : value) : raises_only not_decode_error (py_iter obj).
Proof. no_decode_error. destruct obj; discriminate. Qed.

Lemma py_str_quiet (v : value) : raises_only not_decode_error (py_str v).
Proof. no_decode_error. destruct v as [|[|]| | | | |]; discriminate. Qed.

Lemma py_take_quiet (n : nat) (v : value) :
  raises_only not_decode_error (py_take n v).
Proof. no_decode_error. destruct v; discriminate. Qed.

Lemma py_floordiv_quiet (a : value) (b : Z) :
  raises_only not_decode_error (py_floordiv a b).
Proof. no_decode_error. destruct a; discriminate. Qed.

Lemma py_eq_quiet (a b : value) : raises_only not_decode_error (py_eq a b).
Proof.
  no_decode_error. destruct a, b; simpl; try discriminate.
Qed.

Lemma py_lt_quiet (a b : value) : raises_only not_decode_error (py_lt a b).
Proof.
  no_decode_error. destruct a, b; simpl; try discriminate.
Qed.

Lemma re_search_quiet (m : string -> option string) (v : value) :
  raises_only not_decode_error (re_search m v).
Proof. no_decode_error. destruct v; discriminate. Qed.

Lemma strs_of_quiet (items : list value) :
  raises_only not_decode_error (strs_of items).
Proof.
  induction items as [|v items IH]; simpl; [apply raises_only_Ok|].
  destruct v; try (no_decode_error; discriminate).
  apply raises_only_bind; [exact IH|intros; apply raises_only_Ok].
Qed.

Create HintDb quiet.

#[local] Hint Resolve raises_only_Ok py_get_quiet py_getitem_quiet
  py_truthy_quiet py_contains_str_quiet py_iter_quiet py_str_quiet
  py_take_quiet py_floordiv_quiet py_eq_quiet py_lt_quiet re_search_quiet
  strs_of_quiet : quiet.

(** Go through a chain of binds and conditionals, closing each step with
    the facts of [quiet]. *)
Ltac quiet :=
  repeat first
    [ solve [auto with quiet]
    | apply raises_only_bind; [|intros ?]
    | match goal with
      | |- raises_only _ (if ?b then _ else _) => destruct b
      end ].

Lemma kind_display_quiet (meta body resp : value) :
  raises_only not_decode_error (kind_display meta body resp).
Proof. unfold kind_display. quiet. Qed.

Lemma raw_fallback_quiet (resp : value) :
  raises_only not_decode_error (raw_fallback resp).
Proof. unfold raw_fallback. quiet. Qed.

(** Whatever the [try] block raises, a decode error included, the handler
    answers. *)
Lemma response_part_quiet (resp : value) :
  raises_only not_decode_error (response_part resp).
Proof. apply raises_only_try, raw_fallback_quiet. Qed.

#[local] Hint Resolve kind_display_quiet response_part_quiet : quiet.

Lemma event_line_quiet (t0 : Z) (l : value) :
  raises_only not_decode_error (event_line t0 l).
Proof. unfold event_line. quiet. Qed.

Lemma filter_logs_quiet (logs : list value) (call_id : value) :
  raises_only not_decode_error (filter_logs logs call_id).
Proof. induction logs as [|l logs IH]; simpl; quiet. Qed.

Lemma keyed_quiet (ls : list value) : raises_only not_decode_error (keyed ls).
Proof. induction ls as [|l ls IH]; simpl; quiet. Qed.

Lemma insert_quiet (x : value * value) (s : list (value * value)) :
  raises_only not_decode_error (insert x s).
Proof. induction s as [|y s IH]; simpl; quiet. Qed.

#[local] Hint Resolve insert_quiet keyed_quiet : quiet.

Lemma insertion_sort_quiet (l : list (value * value)) :
  raises_only not_decode_error (insertion_sort l).
Proof. induction l as [|x l IH]; simpl; quiet. Qed.

#[local] Hint Resolve insertion_sort_quiet event_line_quiet filter_logs_quiet
  : quiet.

Lemma sort_by_timestamp_quiet (ls : list value) :
  raises_only not_decode_error (sort_by_timestamp ls).
Proof. unfold sort_by_timestamp. quiet. Qed.

#[local] Hint Resolve sort_by_timestamp_quiet : quiet.

(** The same for runs. *)
Lemma io_bind_quiet {A B : Type} (m : io A) (k : A -> io B) :
  raises_only not_decode_error (snd m) ->
  (forall a, raises_only not_decode_error (snd (k a))) ->
  raises_only not_decode_error (snd (io_bind m k)).
Proof.
  intros Hm Hk. unfold io_bind. destruct m as [o [a|e|]]; simpl in *.
  - specialize (Hk a). destruct (k a) as [o' r]. exact Hk.
  - intros e' H. inversion H; subst. now apply Hm.
  - no_decode_error. discriminate.
Qed.

Ltac quiet_run :=
  repeat first
    [ solve [simpl; auto with quiet]
    | apply io_bind_quiet; [|intros ?]
    | match goal with
      | |- raises_only _ (snd (if ?b then _ else _)) => destruct b
      | |- raises_only _ (snd (match ?l with [] => _ | _ :: _ => _ end)) =>
          destruct l
      end ].

Lemma print_events_quiet (t0 : Z) (ls : list value) :
  raises_only not_decode_error (snd (print_events t0 ls)).
Proof. induction ls as [|l ls IH]; cbn [print_events]; quiet_run. Qed.

#[local] Hint Resolve print_events_quiet : quiet.

Lemma main_quiet (data : value) (argv : list string) :
  raises_only not_decode_error (snd (main data argv)).
Proof.
  unfold main, timeline, render_timeline, choose_call_id. quiet_run.
Qed.

(** X16: a decode error ends the run only when the standard input is not a
    JSON document, and then before anything is printed.  From the decoded
    document on nothing lets one through: a responseBody that is not JSON
    never stops the run. *)
Theorem decode_error_only_from_stdin (stdin : string) (argv out : list string) :
  run stdin argv = (out, Raise JSONDecodeError) ->
  json_loads stdin = Raise JSONDecodeError
  /\ out = []
  /\ forall data argv' out',
       main data argv' <> (out', Raise JSONDecodeError).
Proof.
  assert (forall data argv' out',
             main data argv' <> (out', Raise JSONDecodeError)) as Hmain.
  { intros data argv' out' H.
    pose proof (main_quiet data argv' JSONDecodeError) as Hq.
    rewrite H in Hq. now destruct (Hq eq_refl). }
  unfold run. intros H.
  destruct (json_loads stdin) as [data|e|] eqn:Hj.
  - rewrite io_bind_lift_Ok in H. now destruct (Hmain _ _ _ H).
  - unfold io_bind, lift in H. inversion H; subst. auto.
  - unfold io_bind, lift in H. discriminate.
Qed.

Example decode_error_only_from_stdin_witness :
  json_loads "{logs: []}" = Raise JSONDecodeError
  /\ @nil string = []
  /\ forall data argv' out',
       main data argv' <> (out', Raise JSONDecodeError).
Proof.
  apply (decode_error_only_from_stdin "{logs: []}" ["parse_logs.py"] []).
  reflexivity.
Defined.

(** ** Logs of the expected shape *)

Lemma response_part_returns (resp : string) :
  json_loads resp <> Unmodelled -> exists s, response_part (VStr resp) = Ok s.
Proof.
  intros Hj. destruct (response_part_total resp) as (_ & H2 & H3).
  pose proof (decode_commands_modelled resp) as Hm.
  destruct (decode_commands (VStr resp)) as [s|e|] eqn:Hd.
  - exists s. now apply H3.
  - eexists. now apply (H2 e).
  - now destruct Hj; apply Hm.
Qed.

Lemma shown_printable (body : list (string * value)) (key default : string) :
  shows body key -> exists s, shown body key default = Ok s.
Proof.
  unfold shows, shown. destruct (dict_lookup key body) as [v|]; [|simpl; eauto].
  destruct v as [|[|]| | | | |]; simpl; intros H; try contradiction; eauto.
Qed.

Lemma typed_record_renders (l : value) : typed_record l -> renders l.
Proof.
  intros (e & ts & meta & body & url & resp
          & -> & _ & Hts & Hm & Hb & Hshow & Hu & Hr & Hj).
  unfold renders.
  rewrite (event_line_record 0 ts e meta (VInt ts) Hts eq_refl Hm), Hb, Hr.
  rewrite kind_display_classify.
  inversion Hshow as [|? ? Hreason Hshow1]; subst.
  inversion Hshow1 as [|? ? Htranscript Hshow2]; subst.
  inversion Hshow2 as [|? ? Hfrom Hshow3]; subst.
  inversion Hshow3 as [|? ? Hto _]; subst.
  assert (exists k, classify body (VStr resp) = Ok k) as [k Hk].
  { unfold classify. destruct (dict_has _ _); [eauto|].
    destruct (py_eq_str _ "inboundCall"); [eauto|].
    destruct (py_eq_str _ "redirect"); [eauto|]. simpl. eauto. }
  assert (exists d, display_of k (VDict meta) body = Ok d) as [d Hd].
  { destruct k; cbn [display_of]; eauto.
    - destruct (shown_printable _ _ "?" Hreason) as [r ->].
      destruct (shown_printable _ _ "" Htranscript) as [t ->].
      cbn [bind]. eauto.
    - destruct (shown_printable _ _ "?" Hfrom) as [f ->].
      destruct (shown_printable _ _ "?" Hto) as [t ->].
      cbn [bind]. eauto.
    - rewrite (redirect_n_url _ _ Hu). cbn [bind]. eauto. }
  rewrite Hk. cbn [bind]. rewrite Hd. cbn [bind py_truthy].
  destruct (response_part_returns _ Hj) as [suffix Hs].
  destruct (negb (String.eqb resp "")); cbn [bind]; [rewrite Hs|]; cbn [bind];
    eauto.
Qed.

Lemma typed_record_call_id (l : value) :
  typed_record l -> exists c, py_get l "callId" (VStr "") = Ok (VStr c).
Proof.
  intros (e & ts & meta & body & url & resp & -> & Hc & _). unfold py_get.
  destruct (dict_lookup "callId" e) as [v|]; [|eauto].
  destruct Hc as [c ->]. eauto.
Qed.

Lemma typed_record_is_record (l : value) : typed_record l -> is_record l.
Proof. intros (e & ts & meta & body & url & resp & -> & _). now exists e. Qed.

(** X17: on logs of the expected shape the script does not fail.  When
    every entry of [logs] is a record of that shape, every run ends
    normally, whatever the command line: with [No logs found.], with
    [No logs for callId=...], or with a timeline. *)
Theorem well_typed_logs_never_fail
        (data : value) (argv : list string) (logs : list value) :
  py_get data "logs" (VList []) = Ok (VList logs) ->
  Forall typed_record logs ->
  exists out, main data argv = (out, Ok tt).
Proof.
  intros Hlogs Htyped.
  destruct logs as [|first rest].
  { unfold main. rewrite Hlogs, io_bind_lift_Ok. simpl py_truthy.
    rewrite io_bind_lift_Ok. simpl. unfold print. eauto. }
  remember (first :: rest) as logs eqn:Hl.
  assert (logs <> []) as Hne by (rewrite Hl; discriminate).
  assert (exists pre c, choose_call_id (VList logs) argv = (pre, Ok (VStr c)))
    as (pre & c & Hid).
  { destruct (argument_or_not argv) as [Hno|(prog & c & more & -> & Hc)].
    - rewrite Hl in *. inversion Htyped as [|? ? Hfirst _]; subst.
      destruct (typed_record_call_id _ Hfirst) as [c Hc].
      exists [most_recent_line c], c. now apply choose_default.
    - exists [], c. now apply choose_explicit. }
  assert (Forall is_record logs) as Hrec
      by (eapply Forall_impl; [apply typed_record_is_record|exact Htyped]).
  pose proof (filter_logs_records _ c Hrec) as Hf.
  destruct (filter (has_call_id c) logs) as [|x m] eqn:Hm.
  - rewrite (main_selected _ _ _ _ _ _ Hlogs Hne Hid Hf).
    rewrite (render_nothing (VStr c) c eq_refl). unfold io_bind. eauto.
  - apply (main_runs _ _ _ _ _ _ c Hlogs Hid Hf); [discriminate|reflexivity|].
    rewrite <- Hm. apply Forall_forall. intros l Hin.
    apply filter_In in Hin. destruct Hin as [Hin _].
    rewrite Forall_forall in Htyped. apply typed_record_renders. auto.
Qed.

(** A record of the sample has the expected shape. *)
Ltac typed_sample :=
  eexists _, _, _, _, _, _;
  repeat (split; [first [reflexivity | exact I | eexists; reflexivity
                        | repeat constructor]|]);
  vm_compute; discriminate.

Example well_typed_logs_never_fail_witness :
  exists out,
    main (VDict [("logs", VList sample_logs)]) ["parse_logs.py"] = (out, Ok tt).
Proof.
  apply (well_typed_logs_never_fail (VDict [("logs", VList sample_logs)])
           ["parse_logs.py"] sample_logs eq_refl).
  repeat (constructor; [typed_sample|]). constructor.
Defined.

(** ** Timestamps that are not integers *)

Lemma py_lt_classes (a b : value) (ca cb : bool) :
  stamp_class a = Some ca -> stamp_class b = Some cb ->
  py_lt a b = Raise TypeError
  \/ (exists r, py_lt a b = Ok r) /\ ca = cb.
Proof.
  destruct a, b; simpl; intros Ha Hb; try discriminate;
    inversion Ha; inversion Hb; subst; eauto.
Qed.

Lemma insert_classes (x : value * value) (cx c : bool) :
  key_in cx x ->
  forall s,
    Forall (key_in c) s ->
    insert x s = Raise TypeError
    \/ exists r, insert x s = Ok r /\ (s = [] \/ cx = c).
Proof.
  intros Hx. induction s as [|y s IH]; intros Hs; cbn [insert].
  - right. eauto.
  - inversion Hs as [|? ? Hy Hs']; subst.
    destruct (py_lt_classes _ _ _ _ Hy Hx) as [->|[[lt ->] <-]];
      [now left|].
    cbn [bind]. destruct lt; [|right; eauto].
    destruct (IH Hs') as [->|(r & -> & _)]; [now left|right].
    cbn [bind]. eauto.
Qed.

(** A sort that returns has met keys of one class only. *)
Lemma insertion_sort_classes (l : list (value * value)) :
  Forall (fun a => key_in true a \/ key_in false a) l ->
  insertion_sort l = Raise TypeError
  \/ exists r c, insertion_sort l = Ok r /\ Forall (key_in c) r.
Proof.
  induction 1 as [|x l Hx _ IH]; cbn [insertion_sort].
  - right. exists [], true. split; [reflexivity|constructor].
  - destruct IH as [->|(s & c & -> & Hs)]; [now left|]. cbn [bind].
    assert (exists cx, key_in cx x) as [cx Hcx] by (destruct Hx; eauto).
    destruct (insert_classes x cx c Hcx s Hs) as [->|(r & Hr & Hc)];
      [now left|right].
    exists r. rewrite Hr.
    destruct Hc as [->|<-].
    + exists cx. split; [reflexivity|].
      cbn [insert] in Hr. inversion Hr. now constructor.
    + exists cx. split; [reflexivity|].
      apply (Permutation_Forall (insert_perm _ _ _ Hr)). now constructor.
Qed.

Lemma keyed_classes (ls : list value) :
  Forall (fun l => stamp_in true l \/ stamp_in false l) ls ->
  exists ks, keyed ls = Ok ks
             /\ Forall (fun a => key_in true a \/ key_in false a) ks.
Proof.
  induction 1 as [|l ls Hl _ (ks & IH & Hks)]; cbn [keyed].
  - exists []. split; [reflexivity|constructor].
  - assert (exists k c, py_getitem l (VStr "timestamp") = Ok k
                        /\ stamp_class k = Some c) as (k & c & Hk & Hc)
        by (destruct Hl as [(k & ? & ?)|(k & ? & ?)]; eauto).
    rewrite Hk, IH. cbn [bind]. eexists. split; [reflexivity|].
    constructor; [|exact Hks]. destruct c; [now left|now right].
Qed.

Lemma floordiv_refused (k : value) :
  stamp_class k = Some false -> py_floordiv k 1000000 = Raise TypeError.
Proof. destruct k; simpl; intros H; try discriminate; reflexivity. Qed.

(** X18: a timestamp that is not a number stops the run before the header.
    When every record of the selected call has a [timestamp] that is an
    integer, a str, [null] or an object, and at least one of them is not an
    integer, the run ends in a [TypeError] with nothing printed after the
    choice of the call: raised by the sort when it compares two such
    timestamps, or else by the division that computes [t0]. *)
Theorem non_integer_timestamp_stops
        (data : value) (argv pre : list string)
        (logs matching : list value) (call_id : value) :
  py_get data "logs" (VList []) = Ok (VList logs) ->
  choose_call_id (VList logs) argv = (pre, Ok call_id) ->
  filter_logs logs call_id = Ok matching ->
  Forall (fun l => stamp_in true l \/ stamp_in false l) matching ->
  Exists (stamp_in false) matching ->
  main data argv = (pre, Raise TypeError).
Proof.
  intros Hlogs Hid Hf Hall Hsome.
  assert (matching <> []) as Hne by (intros ->; inversion Hsome).
  rewrite (main_selected _ _ _ _ _ _ Hlogs (filter_logs_nil _ _ _ Hf Hne) Hid Hf).
  assert (render_timeline matching call_id = ([], Raise TypeError)) as ->;
    [|unfold io_bind; now rewrite app_nil_r].
  unfold render_timeline, sort_by_timestamp.
  destruct (keyed_classes _ Hall) as (ks & Hks & Hkeys). rewrite Hks.
  cbn [bind].
  destruct (keyed_spec _ _ Hks) as [Hmap Hok].
  destruct (insertion_sort_classes _ Hkeys) as [->|(r & c & Hr & Hc)];
    [reflexivity|].
  rewrite Hr. cbn [bind]. rewrite io_bind_lift_Ok.
  pose proof (insertion_sort_perm _ _ Hr) as Hp.
  assert (Forall keyed_ok r) as Hokr by (apply (Permutation_Forall Hp), Hok).
  assert (c = false) as ->.
  { apply Exists_exists in Hsome. destruct Hsome as (l & Hin & k & Hk & Hcl).
    rewrite <- Hmap in Hin. apply in_map_iff in Hin.
    destruct Hin as (a & <- & Ha).
    rewrite Forall_forall in Hok, Hc.
    pose proof (Hok a Ha) as Hka. unfold keyed_ok in Hka.
    rewrite Hk in Hka. inversion Hka as [Hfst].
    pose proof (Hc a (Permutation_in _ Hp Ha)) as Hca. unfold key_in in Hca.
    rewrite <- Hfst, Hcl in Hca. now inversion Hca. }
  destruct r as [|a r].
  { apply Permutation_sym, Permutation_nil in Hp. subst ks.
    simpl in Hmap. now subst matching. }
  cbn [List.map]. inversion Hokr as [|? ? Ha _]; subst.
  inversion Hc as [|? ? Hca _]; subst.
  unfold keyed_ok in Ha. rewrite Ha, io_bind_lift_Ok.
  now rewrite (floordiv_refused _ Hca).
Qed.

(** Two records with the timestamps ["20"] and ["100"]. *)
Example non_integer_timestamp_stops_witness :
  main (VDict [("logs", VList [VDict [("callId", VStr "CA1");
                                      ("timestamp", VStr "20")];
                               VDict [("callId", VStr "CA1");
                                      ("timestamp", VStr "100")]])])
       ["parse_logs.py"; "CA1"]
  = ([], Raise TypeError).
Proof.
  apply (non_integer_timestamp_stops _ _ []
           [VDict [("callId", VStr "CA1"); ("timestamp", VStr "20")];
            VDict [("callId", VStr "CA1"); ("timestamp", VStr "100")]]
           [VDict [("callId", VStr "CA1"); ("timestamp", VStr "20")];
            VDict [("callId", VStr "CA1"); ("timestamp", VStr "100")]]
           (VStr "CA1")).
  - reflexivity.
  - reflexivity.
  - reflexivity.
  - constructor; [|constructor; [|constructor]];
      right; eexists; split; reflexivity.
  - left. eexists; split; reflexivity.
Defined.

(** ** Strings where lists and objects are expected *)

Lemma search_one_char (c : ascii) : search match_n (String c "") = None.
Proof.
  cbn [search match_n strip_prefix].
  now destruct (Ascii.eqb c "&" || Ascii.eqb c "?").
Qed.

(** X19: a [requestHeaders.url] that is a non-empty str instead of a list
    of strs raises nothing, but its element 0 is its first character, in
    which the pattern finds nothing: the record is shown as [REDIR   n=?]
    whatever the [n] in the URL. *)
Theorem str_url_shows_no_number
        (meta body headers : list (string * value)) (resp : value)
        (c : ascii) (u : string) :
  classify body resp = Ok REDIR ->
  dict_lookup "requestHeaders" meta = Some (VDict headers) ->
  dict_lookup "url" headers = Some (VStr (String c u)) ->
  kind_display (VDict meta) (VDict body) resp = Ok "REDIR   n=?".
Proof.
  intros Hk Hh Hu. rewrite kind_display_classify, Hk.
  cbn [bind display_of]. unfold redirect_n, py_get. rewrite Hh.
  cbn [bind]. rewrite Hu. cbn [bind]. rewrite py_getitem_first_char.
  cbn [bind re_search]. now rewrite search_one_char.
Qed.

Example str_url_shows_no_number_witness :
  kind_display
    (VDict [("requestHeaders", VDict [("url", VStr "https://x/?n=3")])])
    (VDict [("requestType", VStr "redirect")]) (VStr "")
  = Ok "REDIR   n=?".
Proof.
  apply (str_url_shows_no_number
           [("requestHeaders", VDict [("url", VStr "https://x/?n=3")])]
           [("requestType", VStr "redirect")]
           [("url", VStr "https://x/?n=3")] (VStr "") "h" "ttps://x/?n=3").
  - reflexivity.
  - reflexivity.
  - reflexivity.
Defined.

Lemma command_name_letter (cmd : value) (c : ascii) :
  command_name cmd (VStr (String c "")) = Ok (VStr (String c "")).
Proof.
  unfold command_name. cbn [py_eq_str String.eqb].
  destruct (Ascii.eqb c "P"), (Ascii.eqb c "T"), (Ascii.eqb c "R");
    reflexivity.
Qed.

Lemma letters_loop (s : string) :
  Forall2 (fun k n => command_name (VStr s) k = Ok (VStr n))
          (chars s) (letters s).
Proof.
  unfold chars, letters. generalize (VStr s). intros cmd.
  induction (list_ascii_of_string s) as [|c l IH]; cbn [List.map];
    constructor; [apply command_name_letter|exact IH].
Qed.

(** X20: not every decoded value that is no list of objects falls back to
    the raw text.  Where the loops meet strs they raise nothing: a command
    that is a str is spelled out, one name per character, and so are the
    keys of a responseBody that decodes to an object and the characters of
    one that decodes to a str. *)
Theorem strings_are_spelled_out
        (resp : string) (cmds : value) (ss : list string) :
  json_loads resp = Ok cmds ->
  py_iter cmds = Ok (List.map VStr ss) ->
  response_part (VStr resp)
  = Ok (" -> " ++ String.concat " + " (List.concat (List.map letters ss))).
Proof.
  intros Hj Hi. unfold response_part, decode_commands. cbn [py_json_loads].
  rewrite Hj. cbn [bind]. rewrite Hi. cbn [bind].
  rewrite (cmds_loop_forward (List.map VStr ss) (List.map letters ss)).
  - cbn [bind app]. unfold py_join. now rewrite strs_of_strs.
  - clear. induction ss as [|s ss IH]; cbn [List.map]; constructor;
      [|exact IH].
    exists (chars s). split; [reflexivity|apply letters_loop].
Qed.

(** The responseBody [{"Play": {"file": "a.wav"}}], an object and not a
    list of objects, gives [ -> P + l + a + y]. *)
Example strings_are_spelled_out_witness :
  response_part (VStr (text "{'Play': {'file': 'a.wav'}}"))
  = Ok " -> P + l + a + y".
Proof.
  apply (strings_are_spelled_out (text "{'Play': {'file': 'a.wav'}}")
           (VDict [("Play", VDict [("file", VStr "a.wav")])]) ["Play"]).
  - vm_compute. reflexivity.
  - reflexivity.
Defined.

(** ** A first record with a null call identifier *)

Lemma filter_logs_none (logs : list value) :
  Forall is_record logs ->
  filter_logs logs VNone = Ok (filter has_no_call_id logs).
Proof.
  induction 1 as [|l logs [e ->] _ IH]; cbn [filter_logs filter];
    [reflexivity|].
  unfold py_get at 1. cbn [bind]. rewrite IH. unfold has_no_call_id.
  destruct (dict_lookup "callId" e) as [[]|]; reflexivity.
Qed.

(** X21: without a call identifier on the command line, a first record
    whose [callId] is [null] makes [None] the target, and the filter, whose
    [.get('callId')] has no default, then selects every record whose
    [callId] is [null] or absent: a run that ends normally prints
    [Most recent call: None] and a timeline of exactly those records. *)
Theorem null_call_id_selects_unlabelled
        (data : value) (argv out : list string)
        (e : list (string * value)) (rest : list value) :
  no_argument argv ->
  py_get data "logs" (VList []) = Ok (VList (VDict e :: rest)) ->
  dict_lookup "callId" e = Some VNone ->
  main data argv = (out, Ok tt) ->
  exists sorted t0 lines,
    out = (most_recent_line "None" :: header_line "None" (List.length sorted)
             :: separator_line :: lines)%list
    /\ Forall2 (fun l line => event_line t0 l = Ok line) sorted lines
    /\ Permutation (filter has_no_call_id (VDict e :: rest)) sorted.
Proof.
  intros Hno Hlogs He Hmain.
  assert (choose_call_id (VList (VDict e :: rest)) argv
          = ([most_recent_line "None"], Ok VNone)) as Hid.
  { apply choose_default; [exact Hno| |reflexivity].
    unfold py_get. now rewrite He. }
  destruct (main_filtered _ _ _ _ _ _ Hlogs ltac:(discriminate) Hid Hmain)
    as [m Hf].
  pose proof (filter_logs_all_records _ _ _ Hf) as Hrec.
  pose proof (filter_logs_none _ Hrec) as Hf'.
  assert (m = filter has_no_call_id (VDict e :: rest)) as Hm by congruence.
  assert (In (VDict e) m) as Hin.
  { rewrite Hm. apply filter_In. split; [now left|].
    unfold has_no_call_id. now rewrite He. }
  assert (m <> []) as Hne by (intros ->; destruct Hin).
  destruct (main_rendered _ _ _ _ _ _ _ Hlogs Hid Hf Hne Hmain)
    as (sorted & first & ts0 & cid & lines & Hs & _ & _ & Hcid & Hl & ->).
  inversion Hcid; subst cid.
  exists sorted, (ts0 / 1000000), lines.
  split; [reflexivity|]. split; [exact Hl|].
  rewrite <- Hm. exact (sort_by_timestamp_perm _ _ Hs).
Qed.

Example null_call_id_selects_unlabelled_witness :
  exists sorted t0 lines,
    ["Most recent call: None"; "Call: None  (2 events)"; dashes;
     "+   0s  EVENT"; "+   1s  EVENT"]
    = (most_recent_line "None" :: header_line "None" (List.length sorted)
         :: separator_line :: lines)%list
    /\ Forall2 (fun l line => event_line t0 l = Ok line) sorted lines
    /\ Permutation
         (filter has_no_call_id
            [VDict [("callId", VNone); ("timestamp", VInt 1000000)];
             VDict [("callId", VStr "CA1"); ("timestamp", VInt 5)];
             VDict [("timestamp", VInt 2)]])
         sorted.
Proof.
  apply (null_call_id_selects_unlabelled
           (VDict [("logs",
                    VList [VDict [("callId", VNone);
                                  ("timestamp", VInt 1000000)];
                           VDict [("callId", VStr "CA1"); ("timestamp", VInt 5)];
                           VDict [("timestamp", VInt 2)]])])
           ["parse_logs.py"]).
  - exact I.
  - reflexivity.
  - reflexivity.
  - vm_compute. reflexivity.
Defined.
